(** * Bumblebee: the VM lifecycle workflows over the cloud connector

    A shallow embedding of
    - [vm_manager/cloud/connector/objects.py]   (status enums, [StatusMapper]),
    - [vm_manager/cloud/connector/openstack.py] (the OpenStack connector),
    - [vm_manager/vm_functions/create_vm.py]    (volume selection and reuse),
    - [vm_manager/vm_functions/delete_vm.py]    (delete and archive workflows),
    and of the resize step described by the specification.

    Python values that may be absent are [option]; a call that may raise is
    an [outcome]; code that reads and writes the database, the scheduler and
    the cloud runs in the monad [M] over a [World]. *)

From Stdlib Require Import ZArith List Bool Lia.
From Stdlib Require Import Strings.String Strings.Ascii.
From stdpp Require Import base option gmap strings.
Import ListNotations.

Local Open Scope Z_scope.
Local Open Scope string_scope.

(** ** Python preliminaries *)

(** The exceptions that the embedded code raises, catches or lets through.
    Every one of them is a subclass of Python's [Exception]; within
    novaclient and cinderclient, [NotFound] is a subclass of
    [ClientException]. *)
Inductive exn : Type :=
  | NameError (name : string)
  | AttributeError (what : string)
  | ValueError (what : string)
  | TypeError (what : string)
  | RuntimeWarning (msg : string)
  | TimeoutError (msg : string)
  | DoesNotExist (model : string)
  | CloudConnectorError (msg : string)
  | NovaNotFound
  | NovaClientException
  | CinderNotFound
  | CinderClientException.

(** The result of a call: a value, or an exception on its way up. *)
Inductive outcome (A : Type) : Type :=
  | Returns (a : A)
  | Raises (e : exn).
Arguments Returns {A} a.
Arguments Raises {A} e.

(** [isinstance(e, novaclient.exceptions.NotFound)] and its siblings, as the
    [except] clauses of the connector test them. *)
Definition is_nova_NotFound (e : exn) : bool :=
  match e with NovaNotFound => true | _ => false end.

Definition is_nova_ClientException (e : exn) : bool :=
  match e with NovaNotFound | NovaClientException => true | _ => false end.

Definition is_cinder_NotFound (e : exn) : bool :=
  match e with CinderNotFound => true | _ => false end.

Definition is_cinder_ClientException (e : exn) : bool :=
  match e with CinderNotFound | CinderClientException => true | _ => false end.

Definition is_CloudConnectorError (e : exn) : bool :=
  match e with CloudConnectorError _ => true | _ => false end.

(** Identifiers of remote objects (UUIDs) and of database rows. *)
Definition UUID := N.

(** ** objects.py *)

Module ServerStatus.
Inductive t : Type :=
  | UNKNOWN
  | ERROR | DELETED
  | ACTIVE | BUILD | REBUILD | RESIZE | VERIFY_RESIZE | MIGRATING
  | RESCUE | REVERT_RESIZE | SHELVED | SHELVED_OFFLOADED | SOFT_DELETED
  | PAUSED | SUSPENDED | SHUTOFF | REBOOT | HARD_REBOOT | PASSWORD.

Definition value (s : t) : Z :=
  match s with
  | UNKNOWN => 0
  | ERROR => 1 | DELETED => 2
  | ACTIVE => 20 | BUILD => 21 | REBUILD => 22 | RESIZE => 23
  | VERIFY_RESIZE => 24 | MIGRATING => 25
  | RESCUE => 40 | REVERT_RESIZE => 41 | SHELVED => 42
  | SHELVED_OFFLOADED => 43 | SOFT_DELETED => 44 | PAUSED => 45
  | SUSPENDED => 46 | SHUTOFF => 47 | REBOOT => 48 | HARD_REBOOT => 49
  | PASSWORD => 50
  end.

Definition eqb (a b : t) : bool := Z.eqb (value a) (value b).
End ServerStatus.

Module VolumeStatus.
Inductive t : Type :=
  | UNKNOWN
  | CREATING | AVAILABLE | IN_USE | DELETING
  | ERROR | ERROR_DELETING | ERROR_MANAGING | ERROR_RESTORING
  | ERROR_BACKING_UP | ERROR_EXTENDING
  | MANAGING | ATTACHING | DETACHING | MAINTENANCE | RESTORING_BACKUP
  | RESERVED | AWAITING_TRANSFER | BACKING_UP | DOWNLOADING | UPLOADING
  | RETYPING | EXTENDING.

Definition value (s : t) : Z :=
  match s with
  | UNKNOWN => 0
  | CREATING => 1 | AVAILABLE => 2 | IN_USE => 3 | DELETING => 4
  | ERROR => 20 | ERROR_DELETING => 21 | ERROR_MANAGING => 22
  | ERROR_RESTORING => 23 | ERROR_BACKING_UP => 24 | ERROR_EXTENDING => 25
  | MANAGING => 40 | ATTACHING => 41 | DETACHING => 42 | MAINTENANCE => 43
  | RESTORING_BACKUP => 44 | RESERVED => 45 | AWAITING_TRANSFER => 46
  | BACKING_UP => 47 | DOWNLOADING => 48 | UPLOADING => 49
  | RETYPING => 50 | EXTENDING => 51
  end.

Definition eqb (a b : t) : bool := Z.eqb (value a) (value b).

(** [VolumeStatus.X.name] *)
Definition name (s : t) : string :=
  match s with
  | UNKNOWN => "UNKNOWN"
  | CREATING => "CREATING" | AVAILABLE => "AVAILABLE" | IN_USE => "IN_USE"
  | DELETING => "DELETING"
  | ERROR => "ERROR" | ERROR_DELETING => "ERROR_DELETING"
  | ERROR_MANAGING => "ERROR_MANAGING"
  | ERROR_RESTORING => "ERROR_RESTORING"
  | ERROR_BACKING_UP => "ERROR_BACKING_UP"
  | ERROR_EXTENDING => "ERROR_EXTENDING"
  | MANAGING => "MANAGING" | ATTACHING => "ATTACHING"
  | DETACHING => "DETACHING" | MAINTENANCE => "MAINTENANCE"
  | RESTORING_BACKUP => "RESTORING_BACKUP" | RESERVED => "RESERVED"
  | AWAITING_TRANSFER => "AWAITING_TRANSFER" | BACKING_UP => "BACKING_UP"
  | DOWNLOADING => "DOWNLOADING" | UPLOADING => "UPLOADING"
  | RETYPING => "RETYPING" | EXTENDING => "EXTENDING"
  end.
End VolumeStatus.

(** [str(status)] for a member of [ServerStatus] *)
Definition ServerStatus_str (s : ServerStatus.t) : string :=
  "ServerStatus." +:+
  match s with
  | ServerStatus.UNKNOWN => "UNKNOWN"
  | ServerStatus.ERROR => "ERROR" | ServerStatus.DELETED => "DELETED"
  | ServerStatus.ACTIVE => "ACTIVE" | ServerStatus.BUILD => "BUILD"
  | ServerStatus.REBUILD => "REBUILD" | ServerStatus.RESIZE => "RESIZE"
  | ServerStatus.VERIFY_RESIZE => "VERIFY_RESIZE"
  | ServerStatus.MIGRATING => "MIGRATING" | ServerStatus.RESCUE => "RESCUE"
  | ServerStatus.REVERT_RESIZE => "REVERT_RESIZE"
  | ServerStatus.SHELVED => "SHELVED"
  | ServerStatus.SHELVED_OFFLOADED => "SHELVED_OFFLOADED"
  | ServerStatus.SOFT_DELETED => "SOFT_DELETED"
  | ServerStatus.PAUSED => "PAUSED" | ServerStatus.SUSPENDED => "SUSPENDED"
  | ServerStatus.SHUTOFF => "SHUTOFF" | ServerStatus.REBOOT => "REBOOT"
  | ServerStatus.HARD_REBOOT => "HARD_REBOOT"
  | ServerStatus.PASSWORD => "PASSWORD"
  end.

(** The members of the two provider-side enums of openstack.py.  They are
    declared here because they are the keys of the mapping dictionaries that
    [StatusMapper] holds. *)
Module OpenStackServerStatus.
Inductive t : Type :=
  | UNKNOWN
  | ERROR | DELETED
  | ACTIVE | BUILD | REBUILD | RESIZE | VERIFY_RESIZE | MIGRATING
  | RESCUE | REVERT_RESIZE | SHELVED | SHELVED_OFFLOADED | SOFT_DELETED
  | PAUSED | SUSPENDED | SHUTOFF | REBOOT | HARD_REBOOT | PASSWORD.

Definition value (s : t) : string :=
  match s with
  | UNKNOWN => "UNKNOWN"
  | ERROR => "ERROR" | DELETED => "DELETED"
  | ACTIVE => "ACTIVE" | BUILD => "BUILD" | REBUILD => "REBUILD"
  | RESIZE => "RESIZE" | VERIFY_RESIZE => "VERIFY_RESIZE"
  | MIGRATING => "MIGRATING"
  | RESCUE => "RESCUE" | REVERT_RESIZE => "REVERT_RESIZE"
  | SHELVED => "SHELVED" | SHELVED_OFFLOADED => "SHELVED_OFFLOADED"
  | SOFT_DELETED => "SOFT_DELETED" | PAUSED => "PAUSED"
  | SUSPENDED => "SUSPENDED" | SHUTOFF => "SHUTOFF" | REBOOT => "REBOOT"
  | HARD_REBOOT => "HARD_REBOOT" | PASSWORD => "PASSWORD"
  end.

Definition members : list t :=
  [UNKNOWN; ERROR; DELETED; ACTIVE; BUILD; REBUILD; RESIZE; VERIFY_RESIZE;
   MIGRATING; RESCUE; REVERT_RESIZE; SHELVED; SHELVED_OFFLOADED;
   SOFT_DELETED; PAUSED; SUSPENDED; SHUTOFF; REBOOT; HARD_REBOOT; PASSWORD].

(** Members of a plain [Enum] are singletons, compared by identity. *)
Definition eqb (a b : t) : bool := String.eqb (value a) (value b).
End OpenStackServerStatus.

Module OpenStackVolumeStatus.
Inductive t : Type :=
  | CREATING | AVAILABLE | IN_USE | DELETING
  | ERROR | ERROR_DELETING | ERROR_MANAGING | ERROR_RESTORING
  | ERROR_BACKING_UP | ERROR_EXTENDING
  | MANAGING | ATTACHING | DETACHING | MAINTENANCE | RESTORING_BACKUP
  | RESERVED | AWAITING_TRANSFER | BACKING_UP | DOWNLOADING | UPLOADING
  | RETYPING | EXTENDING.

Definition value (s : t) : string :=
  match s with
  | CREATING => "creating" | AVAILABLE => "available" | IN_USE => "in-use"
  | DELETING => "deleting"
  | ERROR => "error" | ERROR_DELETING => "error_deleting"
  | ERROR_MANAGING => "error_managing"
  | ERROR_RESTORING => "error_restoring"
  | ERROR_BACKING_UP => "error_backing-up"
  | ERROR_EXTENDING => "error_extending"
  | MANAGING => "managing" | ATTACHING => "attaching"
  | DETACHING => "detaching" | MAINTENANCE => "maintenance"
  | RESTORING_BACKUP => "restoring-backup" | RESERVED => "reserved"
  | AWAITING_TRANSFER => "awaiting-transfer" | BACKING_UP => "backing-up"
  | DOWNLOADING => "downloading" | UPLOADING => "uploading"
  | RETYPING => "retyping" | EXTENDING => "extending"
  end.

Definition members : list t :=
  [CREATING; AVAILABLE; IN_USE; DELETING; ERROR; ERROR_DELETING;
   ERROR_MANAGING; ERROR_RESTORING; ERROR_BACKING_UP; ERROR_EXTENDING;
   MANAGING; ATTACHING; DETACHING; MAINTENANCE; RESTORING_BACKUP; RESERVED;
   AWAITING_TRANSFER; BACKING_UP; DOWNLOADING; UPLOADING; RETYPING;
   EXTENDING].

Definition eqb (a b : t) : bool := String.eqb (value a) (value b).
End OpenStackVolumeStatus.

(** The Python objects that are used as dictionary keys by the status
    mappers: a [str] (what the provider's client library hands back) or a
    member of one of the two provider-side enums. *)
Inductive PyKey : Type :=
  | KStr (s : string)
  | KServer (m : OpenStackServerStatus.t)
  | KVolume (m : OpenStackVolumeStatus.t).

(** Python's [==] on such keys.  The enums are plain [Enum] classes (no [str]
    mix-in), so a member equals only itself and never a string. *)
Definition py_eq (a b : PyKey) : bool :=
  match a, b with
  | KStr s, KStr s' => String.eqb s s'
  | KServer m, KServer m' => OpenStackServerStatus.eqb m m'
  | KVolume m, KVolume m' => OpenStackVolumeStatus.eqb m m'
  | _, _ => false
  end.

(** [dict.get(key)] on a dictionary given by the list of its items. *)
Fixpoint dict_get {T : Type} (d : list (PyKey * T)) (key : PyKey) : option T :=
  match d with
  | [] => None
  | (k, v) :: d' => if py_eq k key then Some v else dict_get d' key
  end.

Module StatusMapper.
Section Mapper.
Context {T : Type}.
(** [bool(value)] for the mapped values. *)
Variable truthy : T -> bool.

Record t : Type := create {
  _status_mapping : list (PyKey * T);
  _default_value : T
}.

Definition _get_mapped_status (self : t) (status : PyKey) : option T :=
  dict_get (_status_mapping self) status.

Definition _get_default_value (self : t) : T := _default_value self.

Definition get_status (self : t) (status : PyKey) : T :=
  match _get_mapped_status self status with
  | Some value => if truthy value then value else _get_default_value self
  | None => _get_default_value self
  end.
End Mapper.
Arguments t : clear implicits.
End StatusMapper.

(** Members of a plain [Enum] are all truthy, whatever their value. *)
Definition enum_truthy {T : Type} (_ : T) : bool := true.

(** Metadata dictionaries of cloud objects: string keys, and values that
    are strings or integers. *)
Inductive PyVal : Type :=
  | VInt (z : Z)
  | VStr (s : string).

Definition Dict := list (string * PyVal).

(** [d.get(key, default)] *)
Fixpoint dict_get_default (d : Dict) (key : string) (default : PyVal) : PyVal :=
  match d with
  | [] => default
  | (k, v) :: d' => if String.eqb k key then v else dict_get_default d' key default
  end.

(** The cloud-side mirror objects ([Object] and its dataclass subclasses).
    [Server], [VolumeBackup], [Flavor] and [Network] add nothing that the
    embedded code reads, [Volume] adds [bootable]. *)
Record Object : Type := mkObject {
  id : UUID;
  name : option string;
  description : option string;
  metadata : option Dict;
  zone : option string;
  bootable : option bool
}.

Definition Server := Object.
Definition CloudVolume := Object.
Definition VolumeBackup := Object.

(** [Server(id=i)], [Volume(id=i)], [VolumeBackup(id=i)]: every other field
    takes its default [None]. *)
Definition Object_of_id (i : UUID) : Object :=
  mkObject i None None None None None.

(** ** openstack.py *)

Module OpenStack.

Definition OS_SERVER_STATUS_MAPPING : list (PyKey * ServerStatus.t) :=
  [ (KServer OpenStackServerStatus.UNKNOWN, ServerStatus.UNKNOWN);
    (KServer OpenStackServerStatus.ERROR, ServerStatus.ERROR);
    (KServer OpenStackServerStatus.DELETED, ServerStatus.DELETED);
    (KServer OpenStackServerStatus.ACTIVE, ServerStatus.ACTIVE);
    (KServer OpenStackServerStatus.BUILD, ServerStatus.BUILD);
    (KServer OpenStackServerStatus.REBUILD, ServerStatus.REBUILD);
    (KServer OpenStackServerStatus.RESIZE, ServerStatus.RESIZE);
    (KServer OpenStackServerStatus.VERIFY_RESIZE, ServerStatus.VERIFY_RESIZE);
    (KServer OpenStackServerStatus.MIGRATING, ServerStatus.MIGRATING);
    (KServer OpenStackServerStatus.RESCUE, ServerStatus.RESCUE);
    (KServer OpenStackServerStatus.REVERT_RESIZE, ServerStatus.REVERT_RESIZE);
    (KServer OpenStackServerStatus.SHELVED, ServerStatus.SHELVED);
    (KServer OpenStackServerStatus.SHELVED_OFFLOADED,
      ServerStatus.SHELVED_OFFLOADED);
    (KServer OpenStackServerStatus.SOFT_DELETED, ServerStatus.SOFT_DELETED);
    (KServer OpenStackServerStatus.PAUSED, ServerStatus.PAUSED);
    (KServer OpenStackServerStatus.SUSPENDED, ServerStatus.SUSPENDED);
    (KServer OpenStackServerStatus.SHUTOFF, ServerStatus.SHUTOFF);
    (KServer OpenStackServerStatus.REBOOT, ServerStatus.REBOOT);
    (KServer OpenStackServerStatus.HARD_REBOOT, ServerStatus.HARD_REBOOT);
    (KServer OpenStackServerStatus.PASSWORD, ServerStatus.PASSWORD) ].

Definition OS_SERVER_STATUS_MAPPER : StatusMapper.t ServerStatus.t :=
  StatusMapper.create OS_SERVER_STATUS_MAPPING ServerStatus.UNKNOWN.

Definition OS_VOLUME_STATUS_MAPPING : list (PyKey * VolumeStatus.t) :=
  [ (KVolume OpenStackVolumeStatus.CREATING, VolumeStatus.CREATING);
    (KVolume OpenStackVolumeStatus.AVAILABLE, VolumeStatus.AVAILABLE);
    (KVolume OpenStackVolumeStatus.IN_USE, VolumeStatus.IN_USE);
    (KVolume OpenStackVolumeStatus.DELETING, VolumeStatus.DELETING);
    (KVolume OpenStackVolumeStatus.ERROR, VolumeStatus.ERROR);
    (KVolume OpenStackVolumeStatus.ERROR_DELETING, VolumeStatus.ERROR_DELETING);
    (KVolume OpenStackVolumeStatus.ERROR_MANAGING, VolumeStatus.ERROR_MANAGING);
    (KVolume OpenStackVolumeStatus.ERROR_RESTORING,
      VolumeStatus.ERROR_RESTORING);
    (KVolume OpenStackVolumeStatus.ERROR_BACKING_UP,
      VolumeStatus.ERROR_BACKING_UP);
    (KVolume OpenStackVolumeStatus.ERROR_EXTENDING,
      VolumeStatus.ERROR_EXTENDING);
    (KVolume OpenStackVolumeStatus.MANAGING, VolumeStatus.MANAGING);
    (KVolume OpenStackVolumeStatus.ATTACHING, VolumeStatus.ATTACHING);
    (KVolume OpenStackVolumeStatus.DETACHING, VolumeStatus.DETACHING);
    (KVolume OpenStackVolumeStatus.MAINTENANCE, VolumeStatus.MAINTENANCE);
    (KVolume OpenStackVolumeStatus.RESTORING_BACKUP,
      VolumeStatus.RESTORING_BACKUP);
    (KVolume OpenStackVolumeStatus.RESERVED, VolumeStatus.RESERVED);
    (KVolume OpenStackVolumeStatus.AWAITING_TRANSFER,
      VolumeStatus.AWAITING_TRANSFER);
    (KVolume OpenStackVolumeStatus.BACKING_UP, VolumeStatus.BACKING_UP);
    (KVolume OpenStackVolumeStatus.DOWNLOADING, VolumeStatus.DOWNLOADING);
    (KVolume OpenStackVolumeStatus.UPLOADING, VolumeStatus.UPLOADING);
    (KVolume OpenStackVolumeStatus.RETYPING, VolumeStatus.RETYPING);
    (KVolume OpenStackVolumeStatus.EXTENDING, VolumeStatus.EXTENDING) ].

Definition OS_VOLUME_STATUS_MAPPER : StatusMapper.t VolumeStatus.t :=
  StatusMapper.create OS_VOLUME_STATUS_MAPPING VolumeStatus.UNKNOWN.

(** What the provider's client libraries hand back.  [status] is the
    provider's status word, a [str]. *)
Record NovaServer : Type := mkNovaServer {
  nova_id : UUID;
  nova_status : string;
  nova_flavor_id : UUID;
  nova_availability_zone : string
}.

Record CinderVolume : Type := mkCinderVolume {
  cinder_id : UUID;
  cinder_status : string;
  cinder_availability_zone : string
}.

(** The remote ends, as the answers they give to the connector's calls
    ([self.nova.servers.get], [self.nova.servers.delete], ...). *)
Record NovaClient : Type := mkNova {
  servers_get : UUID -> outcome NovaServer;
  servers_delete : NovaServer -> outcome unit
}.

Record CinderClient : Type := mkCinder {
  volumes_get : UUID -> outcome CinderVolume;
  volumes_delete : CinderVolume -> outcome unit;
  backup_get : UUID -> outcome unit
}.

Section Connector.
Variable nova : NovaClient.
Variable cinder : CinderClient.

Definition _get_nova_server (server : Server) : outcome NovaServer :=
  servers_get nova (id server).

Definition get_server_status (server : Server) : outcome ServerStatus.t :=
  match _get_nova_server server with
  | Returns nova_server =>
      Returns (StatusMapper.get_status enum_truthy OS_SERVER_STATUS_MAPPER
                 (KStr (nova_status nova_server)))
  | Raises e => Raises e
  end.

Definition is_server_created (server : Server) : outcome (option bool) :=
  match _get_nova_server server with
  | Returns _ => Returns (Some true)
  | Raises e =>
      if is_nova_NotFound e then Returns (Some false)
      else if is_nova_ClientException e then Returns None
      else Raises e
  end.

(** The [logger.exception] calls of the three branches are left out. *)
Definition delete_server (server : Server) : outcome (option bool) :=
  let body :=
    match _get_nova_server server with
    | Returns nova_server =>
        match servers_delete nova nova_server with
        | Returns _ => Returns (Some true)
        | Raises e => Raises e
        end
    | Raises e => Raises e
    end in
  match body with
  | Returns r => Returns r
  | Raises e =>
      if is_nova_NotFound e then Returns (Some true)
      else if is_nova_ClientException e then Returns None
      else Raises e
  end.

Definition _get_cinder_volume (volume : CloudVolume) : outcome CinderVolume :=
  volumes_get cinder (id volume).

Definition _get_cinder_volume_backup (backup : VolumeBackup) : outcome unit :=
  backup_get cinder (id backup).

Definition get_volume_status (volume : CloudVolume) : outcome VolumeStatus.t :=
  match _get_cinder_volume volume with
  | Returns cinder_volume =>
      Returns (StatusMapper.get_status enum_truthy OS_VOLUME_STATUS_MAPPER
                 (KStr (cinder_status cinder_volume)))
  | Raises e => Raises e
  end.

Definition get_volume_zone (volume : CloudVolume) : outcome string :=
  match _get_cinder_volume volume with
  | Returns cinder_volume => Returns (cinder_availability_zone cinder_volume)
  | Raises e => Raises e
  end.

Definition is_volume_created (volume : CloudVolume) : outcome (option bool) :=
  match _get_cinder_volume volume with
  | Returns _ => Returns (Some true)
  | Raises e =>
      if is_cinder_NotFound e then Returns (Some false)
      else if is_cinder_ClientException e then Returns None
      else Raises e
  end.

Definition is_backup_created (backup : VolumeBackup) : outcome (option bool) :=
  match _get_cinder_volume_backup backup with
  | Returns _ => Returns (Some true)
  | Raises e =>
      if is_cinder_NotFound e then Returns (Some false)
      else if is_cinder_ClientException e then Returns None
      else Raises e
  end.

(** The last [except] clause has no [return]: the method falls off its
    end and yields [None]. *)
Definition delete_volume (volume : CloudVolume) : outcome (option bool) :=
  let body :=
    match _get_cinder_volume volume with
    | Returns cinder_volume =>
        match volumes_delete cinder cinder_volume with
        | Returns _ => Returns (Some true)
        | Raises e => Raises e
        end
    | Raises e => Raises e
    end in
  match body with
  | Returns r => Returns r
  | Raises e =>
      if is_cinder_NotFound e then Returns (Some true)
      else if is_cinder_ClientException e then Returns None
      else Raises e
  end.
End Connector.

(** The status that the mapping table assigns to a provider status word:
    the entry of the member whose value is that word.  This is the reading
    of the table that the specification describes; it is compared with
    [get_server_status] below. *)
Definition table_server_status (word : string) : option ServerStatus.t :=
  match List.find (fun m => String.eqb (OpenStackServerStatus.value m) word)
          OpenStackServerStatus.members with
  | Some m => dict_get OS_SERVER_STATUS_MAPPING (KServer m)
  | None => None
  end.

Definition table_volume_status (word : string) : option VolumeStatus.t :=
  match List.find (fun m => String.eqb (OpenStackVolumeStatus.value m) word)
          OpenStackVolumeStatus.members with
  | Some m => dict_get OS_VOLUME_STATUS_MAPPING (KVolume m)
  | None => None
  end.

End OpenStack.

(** ** The abstract connector (connector.py)

    The capability that the workflows consume.  A method answers with a
    value or raises; the existence checks and the delete calls answer with
    Python's [Optional[bool]]: [Some true], [Some false] (confirmed absent)
    or [None] (unknown: the remote call itself failed).  The connector reads
    only the [id] of the mirror object it is handed. *)
Record CloudConnector : Type := mkCloud {
  is_server_created : Server -> outcome (option bool);
  get_server_status : Server -> outcome ServerStatus.t;
  stop_server : Server -> outcome unit;
  delete_server : Server -> outcome (option bool);
  is_volume_created : CloudVolume -> outcome (option bool);
  get_volume_status : CloudVolume -> outcome VolumeStatus.t;
  get_volume_zone : CloudVolume -> outcome string;
  get_volume_list : Dict -> outcome (option (list CloudVolume));
  create_volume_backup : CloudVolume -> string -> outcome VolumeBackup;
  delete_volume : CloudVolume -> outcome (option bool);
(** The two backup queries are handed [VolumeBackup(id=...)]; the id is
    that of the volume's backup and may be Python's [None]. *)
is_backup_created : option UUID -> outcome (option bool);
get_backup_status : option UUID -> outcome VolumeStatus.t;
delete_volume_backup : UUID -> outcome (option bool)
}.

(** The connector methods, as they appear in the trace of a step. *)
Inductive Method : Type :=
  | m_is_server_created | m_get_server_status | m_stop_server
  | m_delete_server | m_is_volume_created | m_get_volume_status
  | m_get_volume_zone | m_get_volume_list | m_create_volume_backup
  | m_delete_volume | m_is_backup_created | m_get_backup_status
  | m_delete_volume_backup | m_resize_server | m_get_server_flavor.

(** ** constants.py and models.py

    Neither file is among the sources.  The numeric constants are taken as
    parameters; the closed vocabularies are those the specification lists. *)

(** Modelled from the spec: the workflow results of vm_manager/constants.py,
    "one of a closed set CONTINUE, SUCCESS, FAIL, RETRY, SKIP". *)
Inductive WorkflowResult : Type :=
  | WF_CONTINUE | WF_SUCCESS | WF_FAIL | WF_RETRY | WF_SKIP.

(** Modelled from the spec: the stages of an Expiration of
    vm_manager/models.py, "stage in EXP_EXPIRING, EXP_EXPIRY_COMPLETED,
    EXP_EXPIRY_FAILED, EXP_EXPIRY_FAILED_RETRYABLE". *)
Inductive ExpStage : Type :=
  | EXP_EXPIRING | EXP_EXPIRY_COMPLETED | EXP_EXPIRY_FAILED
  | EXP_EXPIRY_FAILED_RETRYABLE.

(** Modelled from the spec: the states of a VMStatus of
    vm_manager/constants.py. *)
Inductive VMState : Type :=
  | NO_VM | VM_WAITING | VM_CREATING | VM_OKAY | VM_RESIZING | VM_SUPERSIZED
  | VM_SHELVED | VM_ERROR | VM_MISSING.

Definition ExpStage_eqb (a b : ExpStage) : bool :=
  match a, b with
  | EXP_EXPIRING, EXP_EXPIRING
  | EXP_EXPIRY_COMPLETED, EXP_EXPIRY_COMPLETED
  | EXP_EXPIRY_FAILED, EXP_EXPIRY_FAILED
  | EXP_EXPIRY_FAILED_RETRYABLE, EXP_EXPIRY_FAILED_RETRYABLE => true
  | _, _ => false
  end.

Definition VMState_eqb (a b : VMState) : bool :=
  match a, b with
  | NO_VM, NO_VM | VM_WAITING, VM_WAITING | VM_CREATING, VM_CREATING
  | VM_OKAY, VM_OKAY | VM_RESIZING, VM_RESIZING
  | VM_SUPERSIZED, VM_SUPERSIZED | VM_SHELVED, VM_SHELVED
  | VM_ERROR, VM_ERROR | VM_MISSING, VM_MISSING => true
  | _, _ => false
  end.

Record Constants : Type := mkConstants {
  INSTANCE_DELETION_RETRY_WAIT_TIME : Z;
  INSTANCE_DELETION_RETRY_COUNT : Z;
  VOLUME_DELETION_RETRY_WAIT_TIME : Z;
  VOLUME_DELETION_RETRY_COUNT : Z;
  BACKUP_DELETION_RETRY_WAIT_TIME : Z;
  BACKUP_DELETION_RETRY_COUNT : Z;
  INSTANCE_CHECK_SHUTOFF_RETRY_WAIT_TIME : Z;
  INSTANCE_CHECK_SHUTOFF_RETRY_COUNT : Z;
  ARCHIVE_POLL_SECONDS : Z;
  ARCHIVE_WAIT_SECONDS : Z;
  BACKUP_LIFETIME : Z
}.

(** Points in time ([datetime]), in seconds. *)
Definition datetime := Z.

Module Expiration.
Record t : Type := mk {
  stage : ExpStage;
  stage_date : option datetime
}.
End Expiration.

Module Volume.
(** A row of the Volume table.  [expiration] and [backup_expiration] are
    the primary keys of the linked Expiration rows. *)
Record t : Type := mk {
  id : UUID;
  requesting_feature : N;
  zone : string;
  hostname_id : string;
  backup_id : option UUID;
  shelved_at : option datetime;
  archived_at : option datetime;
  deleted : option datetime;
  marked_for_deletion : option datetime;
  error_message : option string;
  expiration : option N;
  backup_expiration : option N
}.

Definition set_deleted (x : option datetime) (v : t) : t :=
  mk (id v) (requesting_feature v) (zone v) (hostname_id v) (backup_id v)
     (shelved_at v) (archived_at v) x (marked_for_deletion v)
     (error_message v) (expiration v) (backup_expiration v).

Definition set_marked_for_deletion (x : option datetime) (v : t) : t :=
  mk (id v) (requesting_feature v) (zone v) (hostname_id v) (backup_id v)
     (shelved_at v) (archived_at v) (deleted v) x
     (error_message v) (expiration v) (backup_expiration v).

Definition set_error_message (x : option string) (v : t) : t :=
  mk (id v) (requesting_feature v) (zone v) (hostname_id v) (backup_id v)
     (shelved_at v) (archived_at v) (deleted v) (marked_for_deletion v)
     x (expiration v) (backup_expiration v).

Definition set_backup_id (x : option UUID) (v : t) : t :=
  mk (id v) (requesting_feature v) (zone v) (hostname_id v) x
     (shelved_at v) (archived_at v) (deleted v) (marked_for_deletion v)
     (error_message v) (expiration v) (backup_expiration v).

Definition set_archived_at (x : option datetime) (v : t) : t :=
  mk (id v) (requesting_feature v) (zone v) (hostname_id v) (backup_id v)
     (shelved_at v) x (deleted v) (marked_for_deletion v)
     (error_message v) (expiration v) (backup_expiration v).

Definition set_expiration (x : option N) (v : t) : t :=
  mk (id v) (requesting_feature v) (zone v) (hostname_id v) (backup_id v)
     (shelved_at v) (archived_at v) (deleted v) (marked_for_deletion v)
     (error_message v) x (backup_expiration v).

Definition set_backup_expiration (x : option N) (v : t) : t :=
  mk (id v) (requesting_feature v) (zone v) (hostname_id v) (backup_id v)
     (shelved_at v) (archived_at v) (deleted v) (marked_for_deletion v)
     (error_message v) (expiration v) x.
End Volume.

Module Instance.
(** A row of the Instance table.  [boot_volume] is the primary key of the
    Volume row, [guac_connection] that of the gateway connection. *)
Record t : Type := mk {
  id : UUID;
  boot_volume : UUID;
  guac_connection : option N;
  marked_for_deletion : option datetime;
  deleted : option datetime;
  error_message : option string
}.

Definition set_guac_connection (x : option N) (i : t) : t :=
  mk (id i) (boot_volume i) x (marked_for_deletion i) (deleted i)
     (error_message i).

Definition set_marked_for_deletion (x : option datetime) (i : t) : t :=
  mk (id i) (boot_volume i) (guac_connection i) x (deleted i)
     (error_message i).

Definition set_deleted (x : option datetime) (i : t) : t :=
  mk (id i) (boot_volume i) (guac_connection i) (marked_for_deletion i) x
     (error_message i).

Definition set_error_message (x : option string) (i : t) : t :=
  mk (id i) (boot_volume i) (guac_connection i) (marked_for_deletion i)
     (deleted i) x.
End Instance.

Module VMStatus.
Record t : Type := mk {
  pk : N;
  status : VMState;
  status_progress : Z;
  status_message : string
}.
End VMStatus.

(** ** The world of a workflow step *)

(** The callbacks that [delete_vm_worker] hands on as [func]. *)
Inductive Callback : Type :=
  | cb_dispose_volume_once_instance_is_deleted.

(** What [scheduler.enqueue_in] is given: a function of the workflow modules
    and its arguments.  The arguments are pickled with the job, so a job
    carries the objects as they were when it was enqueued.  In
    [_check_instance_is_shutoff_and_delete] the tuple [func_args] is
    [(instance, archive, retries)] with the very object that is also the
    first argument; the job keeps that object once, and [func_args] is the
    rest of the tuple. *)
Inductive Job : Type :=
  | job_check_instance_is_shutoff_and_delete
      (instance : Instance.t) (retries : Z)
      (func : Callback) (func_args : bool * Z)
  | job_dispose_volume_once_instance_is_deleted
      (instance : Instance.t) (archive : bool) (retries : Z)
  | job_wait_until_volume_is_deleted (volume : Volume.t) (retries : Z)
  | job_wait_until_backup_is_deleted (volume : Volume.t) (retries : Z)
  | job_wait_for_backup
      (volume : Volume.t) (backup_id : UUID) (deadline : option datetime)
  | job_wait_to_confirm_resize
      (instance : Instance.t) (flavor : UUID) (deadline : option datetime)
      (requesting_feature : N).

Inductive LogLevel : Type :=
  | DEBUG | INFO | ERROR_ | EXCEPTION.

(** What a step does that can be observed from outside, in the order in
    which it does it.  A log record keeps the text of its f-string, with the
    placeholders as they are written. *)
Inductive Event : Type :=
  | Ev_log (level : LogLevel) (msg : string)
  | Ev_cloud (m : Method) (target : option UUID)
  | Ev_save_instance (i : Instance.t)
  | Ev_save_volume (v : Volume.t)
  | Ev_save_expiration (pk : N) (e : Expiration.t)
  | Ev_save_vm_status (s : VMStatus.t)
  | Ev_delete_guac_connections (instance : UUID).

Record World : Type := mkWorld {
  db_instance : gmap N Instance.t;
  db_volume : gmap N Volume.t;
  db_expiration : gmap N Expiration.t;
  db_vm_status : gmap N VMStatus.t;
  scheduled : list (Z * Job);
  trace : list Event;
  now : datetime
}.

Definition emit (ev : Event) (w : World) : World :=
  mkWorld (db_instance w) (db_volume w) (db_expiration w) (db_vm_status w)
          (scheduled w) (trace w ++ [ev]) (now w).

(** Code that reads and changes the world and may raise.  An exception
    leaves the changes made before it in place. *)
Definition M (A : Type) : Type := World -> outcome A * World.

Definition ret {A : Type} (a : A) : M A := fun w => (Returns a, w).

Definition raise {A : Type} (e : exn) : M A := fun w => (Raises e, w).

Definition bind {A B : Type} (c : M A) (k : A -> M B) : M B :=
  fun w =>
    match c w with
    | (Returns a, w') => k a w'
    | (Raises e, w') => (Raises e, w')
    end.

(** [try: body  except <catches>: handler] *)
Definition try_except {A : Type} (body : M A) (catches : exn -> bool)
    (handler : M A) : M A :=
  fun w =>
    match body w with
    | (Returns a, w') => (Returns a, w')
    | (Raises e, w') => if catches e then handler w' else (Raises e, w')
    end.

Declare Scope wf_scope.
Delimit Scope wf_scope with wf.
Notation "'do' x <- c ; k" := (bind c (fun x => k))
  (at level 10, x name, c at level 100, k at level 200) : wf_scope.
Notation "'do' ' p <- c ; k" :=
  (bind c (fun x => match x with p => k end))
  (at level 10, p pattern, c at level 100, k at level 200) : wf_scope.
Notation "'run' c ; k" := (bind c (fun _ => k))
  (at level 10, c at level 100, k at level 200) : wf_scope.
Local Open Scope wf_scope.

Definition of_outcome {A : Type} (o : outcome A) : M A := fun w => (o, w).

Definition log (level : LogLevel) (msg : string) : M unit :=
  fun w => (Returns tt, emit (Ev_log level msg) w).

(** A query of the database as it is now. *)
Definition query {A : Type} (f : World -> A) : M A :=
  fun w => (Returns (f w), w).

(** [datetime.now(utc)] *)
Definition datetime_now : M datetime := fun w => (Returns (now w), w).

(** A call of a connector method: the call is recorded, then its answer is
    returned or its exception raised. *)
Definition cloud_call {A : Type} (m : Method) (target : option UUID)
    (answer : outcome A) : M A :=
  fun w => (answer, emit (Ev_cloud m target) w).

(** [scheduler.enqueue_in(timedelta(seconds=delay), ...)] *)
Definition enqueue_in (delay : Z) (job : Job) : M unit :=
  fun w =>
    (Returns tt,
     mkWorld (db_instance w) (db_volume w) (db_expiration w) (db_vm_status w)
             (scheduled w ++ [(delay, job)]) (trace w) (now w)).

(** [obj.save()] for the four models. *)
Definition Instance_save (i : Instance.t) : M unit :=
  fun w =>
    (Returns tt,
     emit (Ev_save_instance i)
       (mkWorld (<[Instance.id i := i]> (db_instance w)) (db_volume w)
                (db_expiration w) (db_vm_status w) (scheduled w) (trace w)
                (now w))).

Definition Volume_save (v : Volume.t) : M unit :=
  fun w =>
    (Returns tt,
     emit (Ev_save_volume v)
       (mkWorld (db_instance w) (<[Volume.id v := v]> (db_volume w))
                (db_expiration w) (db_vm_status w) (scheduled w) (trace w)
                (now w))).

Definition Expiration_save (pk : N) (e : Expiration.t) : M unit :=
  fun w =>
    (Returns tt,
     emit (Ev_save_expiration pk e)
       (mkWorld (db_instance w) (db_volume w)
                (<[pk := e]> (db_expiration w)) (db_vm_status w)
                (scheduled w) (trace w) (now w))).

Definition VMStatus_save (s : VMStatus.t) : M unit :=
  fun w =>
    (Returns tt,
     emit (Ev_save_vm_status s)
       (mkWorld (db_instance w) (db_volume w) (db_expiration w)
                (<[VMStatus.pk s := s]> (db_vm_status w)) (scheduled w)
                (trace w) (now w))).

(** [Expiration.objects.get(pk=pk)] *)
Definition Expiration_get (pk : N) : M Expiration.t :=
  fun w =>
    match db_expiration w !! pk with
    | Some e => (Returns e, w)
    | None => (Raises (DoesNotExist "Expiration"), w)
    end.

(** [instance.boot_volume]: the related row, fetched by its key. *)
Definition Instance_boot_volume (i : Instance.t) : M Volume.t :=
  fun w =>
    match db_volume w !! Instance.boot_volume i with
    | Some v => (Returns v, w)
    | None => (Raises (DoesNotExist "Volume"), w)
    end.

(** [GuacamoleConnection.objects.filter(instance=instance).delete()] *)
Definition GuacamoleConnection_delete_for (i : Instance.t) : M unit :=
  fun w => (Returns tt, emit (Ev_delete_guac_connections (Instance.id i)) w).

(** Modelled from the spec: [Instance.error] of vm_manager/models.py is not
    among the sources.  The specification has a permanent error "recorded on
    the owning Instance/Volume's error_message" (section 7) and a server that
    is confirmed absent marked deleted at once (section 4.3): the method
    stores the message, with [gone] also the deletion time, and saves. *)
Definition Instance_error (msg : string) (gone : bool) (i : Instance.t)
    : M Instance.t :=
  do t <- datetime_now;
  let i1 := Instance.set_error_message (Some msg) i in
  let i2 := if gone then Instance.set_deleted (Some t) i1 else i1 in
  run Instance_save i2;
  ret i2.

(** Modelled from the spec: [Volume.error] of vm_manager/models.py is not
    among the sources.  As for instances, the method stores the message on
    the row's error_message and saves. *)
Definition Volume_error (msg : string) (v : Volume.t) : M Volume.t :=
  let v1 := Volume.set_error_message (Some msg) v in
  run Volume_save v1;
  ret v1.

(** What the create workflow reads of its arguments. *)
Definition User := N.

Record DesktopType : Type := mkDesktopType {
  desktop_id : string;
  image_name : string;
  feature : N
}.

Record AvailabilityZone : Type := mkZone {
  zone_name : string
}.

(** Modelled from the spec: the volumes that a launch may reuse are those
    the manager of vm_manager/models.py (not among the sources) finds, the
    "active (not deleted, not marked_for_deletion)" ones of section 3. *)
Definition Volume_is_active (v : Volume.t) : bool :=
  match Volume.deleted v, Volume.marked_for_deletion v with
  | None, None => true
  | _, _ => false
  end.

(** Referential integrity of a volume's links: the Expiration rows that the
    volume points to are in the table. *)
Definition expirations_linked (v : Volume.t) (table : gmap N Expiration.t)
    : Prop :=
  (forall pk, Volume.expiration v = Some pk -> is_Some (table !! pk)) /\
  (forall pk, Volume.backup_expiration v = Some pk -> is_Some (table !! pk)).

(** The parts of vm_manager/models.py that the steps only call: queries of
    the model managers, which read the database, and methods whose bodies
    the sources do not show. *)
Record Models : Type := mkModels {
(** [instance.check_shutdown_status()] *)
check_shutdown_status : Instance.t -> bool;
(** [VMStatus.objects.get_vm_status_by_instance(instance, feature)];
    [None] when there is no such row. *)
get_vm_status_by_instance : World -> Instance.t -> N -> option VMStatus.t;
(** [VMStatus.objects.get_vm_status_by_volume(volume, feature)] *)
get_vm_status_by_volume : World -> Volume.t -> N -> option VMStatus.t;
(** [volume.set_backup_expires(when)]: the volume and the database
    afterwards. *)
set_backup_expires : datetime -> Volume.t -> World -> Volume.t * World;
(** [volume.set_expires(when)] *)
set_expires : option datetime -> Volume.t -> World -> Volume.t * World;
(** [Volume.objects.get_volume(user, desktop_type)] *)
get_volume : World -> User -> DesktopType -> option Volume.t;
(** [VMStatus.objects.get_latest_vm_status(user, desktop_type)] *)
get_latest_vm_status : World -> User -> DesktopType -> option VMStatus.t
}.

(** ** environment.py *)

(** The part of the cloud environment that the workflows use:
    [after_time(seconds)], given what the clock reads.  A deadline is
    whatever it hands back, possibly Python's [None]. *)
Record CloudEnvironment : Type := mkEnvironment {
  after_time : datetime -> Z -> option datetime
}.

(** The base class, which is what [get_cloud_environment] instantiates: its
    methods are [pass]. *)
Definition CloudEnvironment_base : CloudEnvironment :=
  mkEnvironment (fun _ _ => None).

(** nectar.py: [datetime.now(utc) + timedelta(seconds=seconds)] *)
Definition Nectar : CloudEnvironment :=
  mkEnvironment (fun t seconds => Some (t + seconds)).

(** ** delete_vm.py *)

Fixpoint for_each {A : Type} (l : list A) (body : A -> M unit) : M unit :=
  match l with
  | [] => ret tt
  | x :: l' => run body x; for_each l' body
  end.

(** [try: body  except <catches>: ...] where the handler leaves the
    function: [None] stands for "an exception was caught". *)
Definition catching {A : Type} (body : M A) (catches : exn -> bool)
    : M (option A) :=
  try_except (do a <- body; ret (Some a)) catches (ret None).

Module DeleteVM.
Section Steps.
Variable C : Constants.
Variable cloud : CloudConnector.
Variable cenv : CloudEnvironment.
Variable models : Models.
(** [str(volume.id)] *)
Variable str_of_id : UUID -> string.

(** The workflow results that the module's namespace binds: the names
    imported from vm_manager.constants in the [import] statement at the
    head of the file. *)
Definition module_globals : list (string * WorkflowResult) :=
  [ ("WF_RETRY", WF_RETRY); ("WF_SUCCESS", WF_SUCCESS);
    ("WF_FAIL", WF_FAIL); ("WF_CONTINUE", WF_CONTINUE) ].

(** Evaluation of a global name: a name that the module does not bind,
    and that is no builtin, raises [NameError]. *)
Definition load_global (name : string) : M WorkflowResult :=
  match List.find (fun b => String.eqb (fst b) name) module_globals with
  | Some b => ret (snd b)
  | None => raise (NameError name)
  end.

(** The body of the [for] loop of [_end_delete], for one of the two links
    of the volume. *)
Definition end_delete_expiration (wf_status : WorkflowResult)
    (expiration : option N) : M unit :=
  match expiration with
  | None => ret tt
  | Some pk =>
      do expiration <- Expiration_get pk;
      if ExpStage_eqb (Expiration.stage expiration) EXP_EXPIRING
      then
        let stage :=
          match wf_status with
          | WF_FAIL => EXP_EXPIRY_FAILED
          | WF_RETRY => EXP_EXPIRY_FAILED_RETRYABLE
          | WF_SUCCESS => EXP_EXPIRY_COMPLETED
          | _ => Expiration.stage expiration
          end in
        do t <- datetime_now;
        Expiration_save pk (Expiration.mk stage (Some t))
      else ret tt
  end.

Definition _end_delete (volume : Volume.t) (wf_status : WorkflowResult)
    : M WorkflowResult :=
  run for_each [Volume.expiration volume; Volume.backup_expiration volume]
        (end_delete_expiration wf_status);
  ret wf_status.

Definition delete_instance (instance : Instance.t)
    : M (bool * Instance.t) :=
  let server := Object_of_id (Instance.id instance) in
  do deleted <- cloud_call m_delete_server (Some (Instance.id instance))
                  (delete_server cloud server);
  run log INFO "Instructed cloud to delete {instance}";
  match deleted with
  | None | Some false => ret (false, instance)
  | Some true =>
      do t <- datetime_now;
      let instance := Instance.set_marked_for_deletion (Some t) instance in
      run Instance_save instance;
      ret (true, instance)
  end.

Definition delete_volume (volume : Volume.t) : M (bool * Volume.t) :=
  let cloud_volume := Object_of_id (Volume.id volume) in
  do deleted <- cloud_call m_delete_volume (Some (Volume.id volume))
                  (delete_volume cloud cloud_volume);
  run log INFO "Instructed cloud to delete {volume}";
  match deleted with
  | None | Some false => ret (false, volume)
  | Some true =>
      do t <- datetime_now;
      let volume := Volume.set_deleted (Some t) volume in
      run Volume_save volume;
      ret (true, volume)
  end.

Definition _wait_until_volume_is_deleted (volume : Volume.t) (retries : Z)
    : M WorkflowResult :=
  let cloud_volume := Object_of_id (Volume.id volume) in
  do volume_exist <- cloud_call m_is_volume_created (Some (Volume.id volume))
                       (is_volume_created cloud cloud_volume);
  match volume_exist with
  | None =>
      run log EXCEPTION "Volume get call for {volume} failed";
      _end_delete volume WF_RETRY
  | Some false =>
      run log INFO "Cinder volume deletion completed for {volume}";
      do t <- datetime_now;
      let volume := Volume.set_deleted (Some t) volume in
      run Volume_save volume;
      _end_delete volume WF_SUCCESS
  | Some true =>
      do volume_status <- cloud_call m_get_volume_status (Some (Volume.id volume))
                            (get_volume_status cloud cloud_volume);
      if negb (VolumeStatus.eqb volume_status VolumeStatus.DELETING) then
        run log ERROR_ ("Cloud volume delete failed for {volume}: "
                          +:+ "status is {volume_status}");
        _end_delete volume WF_RETRY
      else if Z.ltb 0 retries then
        run enqueue_in (VOLUME_DELETION_RETRY_WAIT_TIME C)
              (job_wait_until_volume_is_deleted volume (retries - 1));
        ret WF_CONTINUE
      else
        let error_message := "Ran out of retries trying to delete" in
        do volume <- Volume_error error_message volume;
        run log ERROR_ (error_message +:+ " {volume}");
        _end_delete volume WF_RETRY
  end.

Definition delete_volume_worker (volume : Volume.t) : M WorkflowResult :=
  do '(ok, volume) <- delete_volume volume;
  if ok then
    _wait_until_volume_is_deleted volume (VOLUME_DELETION_RETRY_COUNT C)
  else ret WF_FAIL.

Definition _wait_until_backup_is_deleted (volume : Volume.t) (retries : Z)
    : M WorkflowResult :=
  let cloud_volume_backup := Volume.backup_id volume in
  do backup_exist <- cloud_call m_is_backup_created cloud_volume_backup
                       (is_backup_created cloud cloud_volume_backup);
  match backup_exist with
  | None =>
      run log EXCEPTION ("Cinder backup get failed for {volume}, "
                           +:+ "backup {volume.backup_id}");
      _end_delete volume WF_RETRY
  | Some false =>
      run log INFO ("Cinder backup for {volume} has been deleted, "
                      +:+ "backup {volume.backup_id}");
      let volume := Volume.set_backup_id None volume in
      run Volume_save volume;
      _end_delete volume WF_SUCCESS
  | Some true =>
      if Z.ltb 0 retries then
        run enqueue_in (BACKUP_DELETION_RETRY_WAIT_TIME C)
              (job_wait_until_backup_is_deleted volume (retries - 1));
        ret WF_CONTINUE
      else
        run log INFO ("Cinder backup deletion took too long for {volume}, "
                        +:+ "backup {volume.backup_id}");
        _end_delete volume WF_RETRY
  end.

Definition delete_backup_worker (volume : Volume.t) : M WorkflowResult :=
  match Volume.backup_id volume with
  | None =>
      run log INFO "No backup to delete for {volume}";
      ret WF_SUCCESS
  | Some backup_id =>
      do deleted <- cloud_call m_delete_volume_backup (Some backup_id)
                      (delete_volume_backup cloud backup_id);
      run log INFO ("Cloud backup delete requested for {volume}, "
                      +:+ "backup {volume.backup_id}");
      match deleted with
      | None =>
          run log EXCEPTION ("Cinder backup delete failed for {volume}, "
                               +:+ "backup {volume.backup_id}");
          ret WF_RETRY
      | Some true =>
          run log INFO ("Cinder backup already deleted for {volume}, "
                          +:+ "backup {volume.backup_id}");
          let volume := Volume.set_backup_id None volume in
          run Volume_save volume;
          ret WF_SUCCESS
      | Some false =>
          run enqueue_in (BACKUP_DELETION_RETRY_WAIT_TIME C)
                (job_wait_until_backup_is_deleted volume
                   (BACKUP_DELETION_RETRY_COUNT C));
          ret WF_CONTINUE
      end
  end.
Definition archive_volume_worker (volume : Volume.t)
    (requesting_feature : N) : M WorkflowResult :=
  do t <- datetime_now;
  let volume := Volume.set_marked_for_deletion (Some t) volume in
  run Volume_save volume;
  let cloud_volume := Object_of_id (Volume.id volume) in
  do volume_exist <- cloud_call m_is_volume_created (Some (Volume.id volume))
                       (is_volume_created cloud cloud_volume);
  match volume_exist with
  | None | Some false =>
      do volume <- Volume_error "Cloud volume missing. Cannot be archived."
                     volume;
      run log ERROR_ ("Cloud volume missing for {volume}. "
                        +:+ "Cannot be archived.");
      _end_delete volume WF_SUCCESS
  | Some true =>
      do volume_status <- cloud_call m_get_volume_status
                            (Some (Volume.id volume))
                            (get_volume_status cloud cloud_volume);
      if negb (VolumeStatus.eqb volume_status VolumeStatus.AVAILABLE) then
        run log ERROR_ ("Cannot archive volume with cloud volume status "
                          +:+ "{volume_status}: {volume}. Manual cleanup needed.");
        _end_delete volume WF_RETRY
      else
        do created <-
          catching
            (do cloud_volume_backup <-
               cloud_call m_create_volume_backup (Some (Volume.id volume))
                 (create_volume_backup cloud cloud_volume
                    (str_of_id (Volume.id volume) +:+ "-archive"));
             run log INFO ("Cinder backup {cloud_volume_backup.id} started "
                             +:+ "for volume {volume.id}");
             ret cloud_volume_backup)
            is_CloudConnectorError;
        match created with
        | None =>
            do volume <- Volume_error "Cinder backup failed" volume;
            run log ERROR_ "Cinder backup failed for volume {volume.id}";
            _end_delete volume WF_RETRY
        | Some cloud_volume_backup =>
            do t <- datetime_now;
            let deadline := after_time cenv t (ARCHIVE_WAIT_SECONDS C) in
            run enqueue_in 5
                  (job_wait_for_backup volume (id cloud_volume_backup)
                     deadline);
            do vm_status <- query (fun w =>
                              get_vm_status_by_volume models w volume
                                requesting_feature);
            match vm_status with
            | Some vm_status =>
                run VMStatus_save
                      (VMStatus.mk (VMStatus.pk vm_status) NO_VM
                         (VMStatus.status_progress vm_status)
                         (VMStatus.status_message vm_status));
                ret WF_CONTINUE
            | None => ret WF_CONTINUE
            end
        end
  end.

Definition wait_for_backup (volume : Volume.t) (backup_id : UUID)
    (deadline : option datetime) : M WorkflowResult :=
  let cloud_backup := Some backup_id in
  do backup_exist <- cloud_call m_is_backup_created cloud_backup
                       (is_backup_created cloud cloud_backup);
  match backup_exist with
  | None | Some false =>
      run log ERROR_ ("Backup {backup_id} for volume {volume} not "
                        +:+ "found. Presumed failed.");
      _end_delete volume WF_RETRY
  | Some true =>
      do backup_status <- cloud_call m_get_backup_status cloud_backup
                            (get_backup_status cloud cloud_backup);
      if VolumeStatus.eqb backup_status VolumeStatus.BACKING_UP then
        do t <- datetime_now;
        match deadline with
        | None =>
            raise (TypeError "'>' not supported between datetime and None")
        | Some deadline' =>
            if Z.ltb deadline' t then
              run log ERROR_ ("Backup took too long: backup {backup_id}, "
                                +:+ "volume {volume}");
              _end_delete volume WF_RETRY
            else
              run enqueue_in (ARCHIVE_POLL_SECONDS C)
                    (job_wait_for_backup volume backup_id deadline);
              ret WF_CONTINUE
        end
      else if VolumeStatus.eqb backup_status VolumeStatus.AVAILABLE then
        run log INFO "Backup {backup_id} completed for volume {volume}";
        do t <- datetime_now;
        let volume := Volume.set_archived_at (Some t)
                        (Volume.set_backup_id (Some backup_id) volume) in
        run Volume_save volume;
        do t' <- datetime_now;
        do volume <- (fun w =>
                        let '(v, w') :=
                          set_backup_expires models
                            (t' + 86400 * BACKUP_LIFETIME C) volume w in
                        (Returns v, w'));
        run log INFO "About to delete the archived volume {volume}";
        do '(_, volume) <- delete_volume volume;
        _end_delete volume WF_SUCCESS
      else
        run log ERROR_ ("Backup {backup_id} for volume {volume} is in "
                          +:+ "unexpected state {backup_status}");
        _end_delete volume WF_FAIL
  end.

(** [except Exception] catches every exception of the model. *)
Definition is_Exception (_ : exn) : bool := true.

Definition archive_expired_volume (volume : Volume.t)
    (requesting_feature : N) : M WorkflowResult :=
  do returned <-
    catching
      (do found <- query (fun w =>
                     get_vm_status_by_volume models w volume
                       requesting_feature);
       match found with
       | None => raise (DoesNotExist "VMStatus")
       | Some vm_status =>
           if negb (VMState_eqb (VMStatus.status vm_status) VM_SHELVED) then
             run log INFO ("Skipping archiving of {volume} "
                             +:+ "in unexpected state: {vm_status}");
             load_global "WF_SKIP"
           else archive_volume_worker volume requesting_feature
       end)
      is_Exception;
  match returned with
  | Some wf_status => ret wf_status
  | None =>
      run log EXCEPTION "Cannot retrieve vm_status for {volume}";
      ret WF_FAIL
  end.

Definition _dispose_volume_once_instance_is_deleted
    (instance : Instance.t) (archive : bool) (retries : Z)
    : M WorkflowResult :=
  let server := Object_of_id (Instance.id instance) in
  do server_exist <- cloud_call m_is_server_created
                       (Some (Instance.id instance))
                       (is_server_created cloud server);
  let nova_still_has_the_instance (instance : Instance.t) :=
    if Z.ltb 0 retries then
      run enqueue_in (60 * INSTANCE_DELETION_RETRY_WAIT_TIME C)
            (job_dispose_volume_once_instance_is_deleted instance archive
               (retries - 1));
      ret WF_CONTINUE
    else
      let error_message := "Ran out of retries trying to delete" in
      do instance <- Instance_error error_message false instance;
      run log ERROR_ (error_message +:+ " {instance}");
      ret WF_RETRY in
  match server_exist with
  | None =>
      run log EXCEPTION "Instance get call for {instance} failed";
      ret WF_RETRY
  | Some true =>
      run log DEBUG ("Instance delete status is retries: {retries} "
                       +:+ "Cloud instance: {server.id}");
      nova_still_has_the_instance instance
  | Some false =>
      do t <- datetime_now;
      let instance := Instance.set_deleted (Some t) instance in
      run Instance_save instance;
      do volume <- Instance_boot_volume instance;
      if archive then
        run log INFO ("Instance {instance.id} successfully deleted. "
                        +:+ "Proceeding to archive {volume} now!");
        archive_volume_worker volume (Volume.requesting_feature volume)
      else
        run log INFO ("Instance {instance.id} successfully deleted. "
                        +:+ "Proceeding to delete {volume} now!");
        do '(ok, volume) <- delete_volume volume;
        if ok then
          run enqueue_in (VOLUME_DELETION_RETRY_WAIT_TIME C)
                (job_wait_until_volume_is_deleted volume
                   (VOLUME_DELETION_RETRY_COUNT C));
          ret WF_CONTINUE
        else _end_delete volume WF_RETRY
  end.

(** [func] applied to [func_args], with the shared instance put back in
    front. *)
Definition job_of (func : Callback) (instance : Instance.t)
    (func_args : bool * Z) : Job :=
  match func with
  | cb_dispose_volume_once_instance_is_deleted =>
      job_dispose_volume_once_instance_is_deleted instance
        (fst func_args) (snd func_args)
  end.

Definition _check_instance_is_shutoff_and_delete (instance : Instance.t)
    (retries : Z) (func : Callback) (func_args : bool * Z)
    : M WorkflowResult :=
  run log INFO "Checking whether {instance} is ShutOff.";
  if negb (check_shutdown_status models instance) && Z.ltb 0 retries then
    run log INFO ("{instance} is not yet SHUTOFF! Will check again "
                    +:+ "in {INSTANCE_CHECK_SHUTOFF_RETRY_WAIT_TIME} seconds with "
                    +:+ "{retries} retries remaining.");
    run enqueue_in (INSTANCE_CHECK_SHUTOFF_RETRY_WAIT_TIME C)
          (job_check_instance_is_shutoff_and_delete instance (retries - 1)
             func func_args);
    ret WF_CONTINUE
  else
    run (if Z.leb retries 0 then
           log INFO ("Ran out of retries shutting down {instance}. "
                       +:+ "Proceeding to delete Nova instance anyway!")
         else ret tt);
    do boot_volume <- Instance_boot_volume instance;
    do vm_status <- query (fun w =>
                      get_vm_status_by_instance models w instance
                        (Volume.requesting_feature boot_volume));
    run match vm_status with
        | Some vm_status =>
            if VMState_eqb (VMStatus.status vm_status) VM_WAITING then
              VMStatus_save
                (VMStatus.mk (VMStatus.pk vm_status)
                   (VMStatus.status vm_status) 66 "Instance shelving")
            else ret tt
        | None => ret tt
        end;
    do '(ok, instance) <- delete_instance instance;
    if negb ok then ret WF_FAIL
    else
      run enqueue_in (INSTANCE_DELETION_RETRY_WAIT_TIME C)
            (job_of func instance func_args);
      ret WF_CONTINUE.

Definition delete_vm_worker (instance : Instance.t) (archive : bool)
    : M WorkflowResult :=
  run log INFO "About to delete {instance}";
  do instance <-
    match Instance.guac_connection instance with
    | Some _ =>
        run GuacamoleConnection_delete_for instance;
        let instance := Instance.set_guac_connection None instance in
        run Instance_save instance;
        ret instance
    | None => ret instance
    end;
  let server := Object_of_id (Instance.id instance) in
  do server_exist <- cloud_call m_is_server_created
                       (Some (Instance.id instance))
                       (is_server_created cloud server);
  let next_step (instance : Instance.t) :=
    run enqueue_in (INSTANCE_CHECK_SHUTOFF_RETRY_WAIT_TIME C)
          (job_check_instance_is_shutoff_and_delete instance
             (INSTANCE_CHECK_SHUTOFF_RETRY_COUNT C)
             cb_dispose_volume_once_instance_is_deleted
             (archive, INSTANCE_DELETION_RETRY_COUNT C));
    ret WF_CONTINUE in
  match server_exist with
  | None | Some false =>
      run log ERROR_ ("Trying to delete {instance} but it is not "
                        +:+ "found in Nova.");
      do instance <- Instance_error "Nova instance is missing" true instance;
      next_step instance
  | Some true =>
      do status <- cloud_call m_get_server_status
                     (Some (Instance.id instance))
                     (get_server_status cloud server);
      if ServerStatus.eqb status ServerStatus.ACTIVE then
        run cloud_call m_stop_server (Some (Instance.id instance))
              (stop_server cloud server);
        next_step instance
      else if ServerStatus.eqb status ServerStatus.SHUTOFF then
        run log INFO "{instance} already shutdown in Nova.";
        next_step instance
      else
        run log ERROR_ ("Cloud instance for {instance} is in unexpected "
                          +:+ "state {status}. Needs manual cleanup.");
        do instance <- Instance_error
                         ("Nova instance state is " +:+ ServerStatus_str status)
                         false instance;
        ret WF_RETRY
  end.
End Steps.
End DeleteVM.

(** ** create_vm.py *)

Module CreateVM.
Section Steps.
Variable cloud : CloudConnector.
Variable models : Models.
(** Python's [int] on a [str]; [None] when it raises [ValueError]. *)
Variable int_of_str : string -> option Z.

(** [int(x)] *)
Definition int (x : PyVal) : outcome Z :=
  match x with
  | VInt z => Returns z
  | VStr s =>
      match int_of_str s with
      | Some z => Returns z
      | None => Raises (ValueError "invalid literal for int()")
      end
  end.

(** [[v for v in candidates if v.name.startswith(image_name)]] *)
Fixpoint prefix_matches (image_name : string) (candidates : list CloudVolume)
    : outcome (list CloudVolume) :=
  match candidates with
  | [] => Returns []
  | v :: rest =>
      match name v with
      | None =>
          Raises (AttributeError
                    "'NoneType' object has no attribute 'startswith'")
      | Some n =>
          match prefix_matches image_name rest with
          | Returns matches =>
              Returns (if String.prefix image_name n then v :: matches
                       else matches)
          | Raises e => Raises e
          end
      end
  end.

(** The candidates that the comprehension keeps: those whose name starts
    with the image name. *)
Definition is_match (image_name : string) (v : CloudVolume) : bool :=
  match name v with
  | Some n => String.prefix image_name n
  | None => false
  end.

(** [lambda v: int(v.metadata.get('nectar_build', 0))] *)
Definition build_key (v : CloudVolume) : outcome Z :=
  match metadata v with
  | None => Raises (AttributeError "'NoneType' object has no attribute 'get'")
  | Some d => int (dict_get_default d "nectar_build" (VInt 0))
  end.

(** [sorted] first computes the key of every element, in order. *)
Fixpoint decorate (l : list CloudVolume) : outcome (list (Z * CloudVolume)) :=
  match l with
  | [] => Returns []
  | v :: rest =>
      match build_key v with
      | Raises e => Raises e
      | Returns k =>
          match decorate rest with
          | Returns kvs => Returns ((k, v) :: kvs)
          | Raises e => Raises e
          end
      end
  end.

(** [sorted(..., reverse=True)] is stable: elements with equal keys keep
    the order they came in. *)
Fixpoint insert_desc (x : Z * CloudVolume) (l : list (Z * CloudVolume))
    : list (Z * CloudVolume) :=
  match l with
  | [] => [x]
  | y :: l' => if Z.ltb (fst x) (fst y) then y :: insert_desc x l'
               else x :: y :: l'
  end.

Definition sorted_desc (l : list (Z * CloudVolume)) : list (Z * CloudVolume) :=
  fold_right insert_desc [] l.

(** The selection made from the connector's answer [res], before it is
    logged and returned. *)
Definition select_source_volume (image_name : string)
    (res : option (list CloudVolume)) : outcome (option CloudVolume) :=
  (* [res or []]: [None], like the empty list, gives the empty list *)
  let candidates := match res with Some l => l | None => [] end in
  match prefix_matches image_name candidates with
  | Raises e => Raises e
  | Returns filtered =>
      match decorate filtered with
      | Raises e => Raises e
      | Returns kvs =>
          match sorted_desc kvs with
          | [] => Returns None
          | (_, v) :: _ => Returns (Some v)
          end
      end
  end.

Definition _get_source_volume (desktop_type : DesktopType)
    (zone : AvailabilityZone) : M CloudVolume :=
  do res <- cloud_call m_get_volume_list None
              (get_volume_list cloud
                 [ ("name~", VStr (image_name desktop_type));
                   ("availability_zone", VStr (zone_name zone));
                   ("status", VStr (VolumeStatus.name VolumeStatus.AVAILABLE)) ]);
  do matched <- of_outcome (select_source_volume (image_name desktop_type) res);
  match matched with
  | None =>
      let msg := "No source volume with image names starting with "
                   +:+ image_name desktop_type
                   +:+ " in availability zone " +:+ zone_name zone +:+ ")" in
      run log ERROR_ msg;
      raise (RuntimeWarning msg)
  | Some match_ =>
      run log DEBUG ("Found source volume: {match.name} ({match.id}) in "
                       +:+ "availability zone {zone.name}");
      ret match_
  end.

Definition _create_volume (user : User) (desktop_type : DesktopType)
    (zone : AvailabilityZone) : M (option Volume.t) :=
  do volume <- query (fun w => get_volume models w user desktop_type);
  match volume with
  | Some volume =>
      let cloud_volume := Object_of_id (Volume.id volume) in
      do volume_exist <- cloud_call m_is_volume_created
                           (Some (Volume.id volume))
                           (is_volume_created cloud cloud_volume);
      let vm_status_check :=
        do found <- query (fun w =>
                       get_vm_status_by_volume models w volume
                         (feature desktop_type));
        match found with
        | None => raise (DoesNotExist "VMStatus")
        | Some vm_status =>
            if VMState_eqb (VMStatus.status vm_status) VM_SHELVED then
              match Volume.archived_at volume with
              | Some _ =>
                  run log ERROR_ ("Cannot launch shelved volume marked as "
                                    +:+ "archived: {volume}");
                  ret None
              | None =>
                  do volume <- (fun w =>
                                  let '(v, w') :=
                                    set_expires models None volume w in
                                  (Returns v, w'));
                  ret (Some volume)
              end
            else
              run log ERROR_ ("VMstatus {vm_status.status} inconsistent with "
                                +:+ "existing {volume} in _create_volume.  Needs "
                                +:+ "manual cleanup.");
              ret None
        end in
      match volume_exist with
      | None | Some false =>
          run log ERROR_ ("Cinder volume missing for {volume}. "
                            +:+ "Needs manual cleanup.");
          do volume <- Volume_error "Cinder volume missing" volume;
          ret None
      | Some true =>
          do cloud_volume_status <- cloud_call m_get_volume_status
                                      (Some (Volume.id volume))
                                      (get_volume_status cloud cloud_volume);
          if negb (VolumeStatus.eqb cloud_volume_status
                     VolumeStatus.AVAILABLE) then
            run log ERROR_ ("Cinder volume for {volume} in wrong state "
                              +:+ "{cloud_volume_status}. Needs manual cleanup.");
            do volume <- Volume_error
                           ("Cinder volume in state VolumeStatus."
                              +:+ VolumeStatus.name cloud_volume_status)
                           volume;
            ret None
          else
            do cloud_volume_zone <- cloud_call m_get_volume_zone
                                      (Some (Volume.id volume))
                                      (get_volume_zone cloud cloud_volume);
            if negb (String.eqb cloud_volume_zone (zone_name zone)) then
              run log ERROR_ ("Cinder volume for {volume} in wrong AZ. "
                                +:+ "Needs manual cleanup");
              do volume <- Volume_error "Cinder volume in wrong AZ" volume;
              ret None
            else vm_status_check
      end
  | None =>
      do vm_status <- query (fun w =>
                        get_latest_vm_status models w user desktop_type);
      run match vm_status with
          | Some vm_status =>
              VMStatus_save
                (VMStatus.mk (VMStatus.pk vm_status)
                   (VMStatus.status vm_status) 25 "Creating volume")
          | None => ret tt
          end;
      do cloud_source_volume <- _get_source_volume desktop_type zone;
      (* the metadata dictionary is built from [volume.hostname_id], and
         [volume] is [None] on this path *)
      raise (AttributeError
               "'NoneType' object has no attribute 'hostname_id'")
  end.
End Steps.
End CreateVM.

(** ** resize_vm.py

    The module is not among the sources; its unit test
    (tests/unit/vm_functions/test_resize_vm.py) and the specification
    describe the resize step. *)

Module ResizeVM.
(** The two calls that the step makes on the provider's compute client. *)
Record NovaServers : Type := mkNovaServers {
(** the flavor id of [nova.servers.get(instance.id)] *)
server_flavor : UUID -> outcome UUID;
(** [nova.servers.resize(instance.id, flavor)] *)
servers_resize : UUID -> UUID -> outcome string
}.

Section Steps.
Variable nova : NovaServers.
Variable cenv : CloudEnvironment.
Variable str_of_id : UUID -> string.
Variable RESIZE_CONFIRM_WAIT_SECONDS : Z.

(** Modelled from the spec: [_resize_vm] of
    vm_manager/vm_functions/resize_vm.py is not among the sources.  The
    specification (section 4.4) has it "short-circuit if the remote server
    already has the target flavor (no-op, returns descriptive no-op
    message); else issue resize and schedule confirmation after a fixed
    settle delay"; the unit test fixes the message, the result of the other
    branch (what the remote resize call returned) and the scheduled call
    ([_wait_to_confirm_resize], five seconds later, with the deadline that
    [after_time] gave). *)
Definition _resize_vm (instance : Instance.t) (flavor : UUID)
    (requesting_feature : N) : M string :=
  do current <- cloud_call m_get_server_flavor (Some (Instance.id instance))
                  (server_flavor nova (Instance.id instance));
  if N.eqb current flavor then
    ret ("Instance " +:+ str_of_id (Instance.id instance)
           +:+ " already has flavor " +:+ str_of_id flavor
           +:+ ". Skipping the resize.")
  else
    do resize_result <- cloud_call m_resize_server
                          (Some (Instance.id instance))
                          (servers_resize nova (Instance.id instance) flavor);
    do t <- datetime_now;
    let deadline := after_time cenv t RESIZE_CONFIRM_WAIT_SECONDS in
    run enqueue_in 5
          (job_wait_to_confirm_resize instance flavor deadline
             requesting_feature);
    ret resize_result.
End Steps.
End ResizeVM.

(** ** Notions used in the statements *)

(** A dictionary whose keys are all enum members holds no string. *)
Definition enum_keyed {T : Type} (d : list (PyKey * T)) : Prop :=
  Forall (fun kv => match fst kv with KStr _ => False | _ => True end) d.

(** The trace records that are saves of Expiration rows. *)
Definition is_expiration_save (ev : Event) : Prop :=
  match ev with Ev_save_expiration _ _ => True | _ => False end.


(** A list of decorated candidates in which no key is larger than a key
    before it. *)
Fixpoint descending (l : list (Z * CloudVolume)) : Prop :=
  match l with
  | [] => True
  | x :: l' => Forall (fun y => fst y <= fst x) l' /\ descending l'
  end.

(** The stage that a terminal result gives to an expiration in progress
    (the assignments of [_end_delete]); the other results give none. *)
Definition stage_after (r : WorkflowResult) : option ExpStage :=
  match r with
  | WF_FAIL => Some EXP_EXPIRY_FAILED
  | WF_RETRY => Some EXP_EXPIRY_FAILED_RETRYABLE
  | WF_SUCCESS => Some EXP_EXPIRY_COMPLETED
  | _ => None
  end.

Definition is_save_of (pk : N) (ev : Event) : bool :=
  match ev with
  | Ev_save_expiration pk' _ => N.eqb pk pk'
  | _ => false
  end.

(** How often the Expiration row [pk] was saved in a trace. *)
Definition count_saves (pk : N) (tr : list Event) : nat :=
  length (List.filter (is_save_of pk) tr).

(** The two links of a volume to Expiration rows. *)
Definition volume_links (v : Volume.t) : list (option N) :=
  [Volume.expiration v; Volume.backup_expiration v].

(** Between the worlds [w] and [w'], every Expiration row that one of
    [links] points to and that was EXP_EXPIRING has been saved exactly once,
    with the stage that the result [r] gives and the time of [w]; every
    other row has not been saved and is as it was. *)
Definition advanced_once (links : list (option N)) (r : WorkflowResult)
    (w w' : World) : Prop :=
  forall pk e,
    db_expiration w !! pk = Some e ->
    (In (Some pk) links -> Expiration.stage e = EXP_EXPIRING ->
     exists s,
       stage_after r = Some s /\ s <> EXP_EXPIRING /\
       db_expiration w' !! pk = Some (Expiration.mk s (Some (now w))) /\
       count_saves pk (trace w') = S (count_saves pk (trace w))) /\
    (~ (In (Some pk) links /\ Expiration.stage e = EXP_EXPIRING) ->
     db_expiration w' !! pk = Some e /\
     count_saves pk (trace w') = count_saves pk (trace w)).

(** ** Counting connector calls in a trace *)

Definition Method_eq_dec (a b : Method) : {a = b} + {a <> b}.
Proof. decide equality. Defined.

Definition is_call (m : Method) (ev : Event) : bool :=
  match ev with
  | Ev_cloud m' _ => if Method_eq_dec m m' then true else false
  | _ => false
  end.

Definition count_calls (m : Method) (tr : list Event) : nat :=
  length (List.filter (is_call m) tr).

(** ** Fixtures

    Stand-ins for the remote end, in the manner of tests/fakes.py: a
    connector that gives the same, chosen answer to each kind of call. *)
Module Fake.
Definition uuid1 : UUID := 1%N.
Definition uuid2 : UUID := 2%N.

Definition constants : Constants :=
  mkConstants 30 5 30 5 30 5 10 3 30 3600 90.

Definition cloud (server_exist : option bool) (server_status : ServerStatus.t)
    (server_deleted : option bool) (volume_exist : option bool)
    (volume_status : VolumeStatus.t) (volume_deleted : option bool)
    (backup_exist : option bool) : CloudConnector :=
  mkCloud (fun _ => Returns server_exist)
          (fun _ => Returns server_status)
          (fun _ => Returns tt)
          (fun _ => Returns server_deleted)
          (fun _ => Returns volume_exist)
          (fun _ => Returns volume_status)
          (fun _ => Returns "fake_nova_zone")
          (fun _ => Returns None)
          (fun _ _ => Returns (Object_of_id uuid2))
          (fun _ => Returns volume_deleted)
          (fun _ => Returns backup_exist)
          (fun _ => Returns VolumeStatus.AVAILABLE)
          (fun _ => Returns (Some false)).

(** The same connector, with a list of volumes to answer
    [get_volume_list] with. *)
Definition with_volume_list (l : list CloudVolume) (c : CloudConnector)
    : CloudConnector :=
  mkCloud (is_server_created c) (get_server_status c) (stop_server c)
          (delete_server c) (is_volume_created c) (get_volume_status c)
          (get_volume_zone c) (fun _ => Returns (Some l))
          (create_volume_backup c) (delete_volume c) (is_backup_created c)
          (get_backup_status c) (delete_volume_backup c).

(** [int] on strings of decimal digits. *)
Fixpoint digits (s : string) (acc : Z) : option Z :=
  match s with
  | EmptyString => Some acc
  | String c s' =>
      let n := Z.of_nat (nat_of_ascii c) in
      if Z.leb 48 n && Z.leb n 57 then digits s' (10 * acc + (n - 48))
      else None
  end.

Definition int_of_str (s : string) : option Z :=
  match s with
  | EmptyString => None
  | _ => digits s 0
  end.

(** Four volumes: two builds of the image, an unrelated volume without
    metadata, and an image volume that carries no build number. *)
Definition image_build_3 : CloudVolume :=
  mkObject 3%N (Some "ubuntu-22.04-a") None
           (Some [("nectar_build", VStr "3")]) None None.
Definition image_build_12 : CloudVolume :=
  mkObject 4%N (Some "ubuntu-22.04-b") None
           (Some [("readonly", VStr "False"); ("nectar_build", VStr "12")])
           None None.
Definition unrelated : CloudVolume :=
  mkObject 5%N (Some "centos-9") None None None None.
Definition image_no_build : CloudVolume :=
  mkObject 6%N (Some "ubuntu-22.04") None (Some []) None None.

Definition volume_list : list CloudVolume :=
  [image_build_3; image_build_12; unrelated; image_no_build].

Definition ubuntu : DesktopType := mkDesktopType "ubuntu" "ubuntu-22.04" 0%N.
Definition zone : AvailabilityZone := mkZone "fake_nova_zone".

(** A database in which every volume has the one VMStatus [vm_status]. *)
Definition models (shut_off : bool) (vm_status : option VMStatus.t) : Models :=
  mkModels (fun _ => shut_off)
           (fun _ _ _ => vm_status)
           (fun _ _ _ => vm_status)
           (fun _ v w => (v, w))
           (fun _ v w => (v, w))
           (fun _ _ _ => None)
           (fun _ _ _ => vm_status).

Definition str_of_id (i : UUID) : string :=
  if N.eqb i 1 then "fa13b725-635a-4f8c-9f40-6b6c85642500"
  else "4aa4d0c9-9ed5-4e3c-85fa-bbf8e483bd45".

(** A volume with an expiration in progress (row 7) and no backup. *)
Definition volume : Volume.t :=
  Volume.mk uuid1 0%N "fake_nova_zone" "x" None None None None None None
            (Some 7%N) None.

Definition instance : Instance.t :=
  Instance.mk uuid2 uuid1 None None None None.

Definition world : World :=
  mkWorld {[ uuid2 := instance ]} {[ uuid1 := volume ]}
          {[ 7%N := Expiration.mk EXP_EXPIRING None ]} ∅ [] [] 1000.
End Fake.

(** ** The connector class in use (connector.py, openstack.py)

    [get_cloud_connector] instantiates one of the two classes that
    [__CLOUD_CONNECTORS__] lists, both subclasses of [OpenStack]. *)
Module OpenStackConnector.

Inductive Class : Type :=
  | OpenStackVncServer | OpenStackVncHypervisor.

Definition class_name (cls : Class) : string :=
  match cls with
  | OpenStackVncServer => "OpenStackVncServer"
  | OpenStackVncHypervisor => "OpenStackVncHypervisor"
  end.

(** The attribute lookup of a method that no class on the way from the
    instance's class to [object] defines. *)
Definition no_attribute (cls : Class) (attr : string) : exn :=
  AttributeError
    ("'" +:+ class_name cls +:+ "' object has no attribute '" +:+ attr +:+ "'").

Section Instance.
Variable cls : Class.
Variable nova : OpenStack.NovaClient.
Variable cinder : OpenStack.CinderClient.

(** [cloud] answers as an instance of the class does, over the clients
    [nova] and [cinder]:
    - the methods that [OpenStack] defines, as modelled above;
    - [stop_server], which [OpenStack] does not define and inherits from
      [CloudConnector], where its body is [pass];
    - [get_backup_status] and [delete_volume_backup], which delete_vm.py
      calls and which neither [OpenStack], its two subclasses nor
      [CloudConnector] define.
    [get_volume_list] and [create_volume_backup], and the backup query for
    a missing id, are left open. *)
Definition is_instance (cloud : CloudConnector) : Prop :=
  is_server_created cloud = OpenStack.is_server_created nova /\
  get_server_status cloud = OpenStack.get_server_status nova /\
  (forall server, stop_server cloud server = Returns tt) /\
  delete_server cloud = OpenStack.delete_server nova /\
  is_volume_created cloud = OpenStack.is_volume_created cinder /\
  get_volume_status cloud = OpenStack.get_volume_status cinder /\
  get_volume_zone cloud = OpenStack.get_volume_zone cinder /\
  delete_volume cloud = OpenStack.delete_volume cinder /\
  (forall backup_id,
      is_backup_created cloud (Some backup_id)
      = OpenStack.is_backup_created cinder (Object_of_id backup_id)) /\
  (forall backup,
      get_backup_status cloud backup
      = Raises (no_attribute cls "get_backup_status")) /\
  (forall backup_id,
      delete_volume_backup cloud backup_id
      = Raises (no_attribute cls "delete_volume_backup")).

(** An instance, with the methods that are left open taken from [other]. *)
Definition instance_with (other : CloudConnector) : CloudConnector :=
  mkCloud (OpenStack.is_server_created nova)
          (OpenStack.get_server_status nova)
          (fun _ => Returns tt)
          (OpenStack.delete_server nova)
          (OpenStack.is_volume_created cinder)
          (OpenStack.get_volume_status cinder)
          (OpenStack.get_volume_zone cinder)
          (get_volume_list other)
          (create_volume_backup other)
          (OpenStack.delete_volume cinder)
          (fun backup =>
             match backup with
             | Some backup_id =>
                 OpenStack.is_backup_created cinder (Object_of_id backup_id)
             | None => is_backup_created other None
             end)
          (fun _ => Raises (no_attribute cls "get_backup_status"))
          (fun _ => Raises (no_attribute cls "delete_volume_backup")).
End Instance.
End OpenStackConnector.

(** ** The scheduler at work

    The delay scheduler (django_rq) is a library: [enqueue_in] hands it a
    job, and it calls the job's function, with the arguments kept in the
    job, once the delay has passed.  A run of a workflow is followed here
    as long as exactly one job is pending: that job is taken off the queue
    and run against what the remote end and the clock are at that time. *)
Module Scheduler.

(** What a job finds when its time has come: the answers of the remote end
    (to the connector and to the queries of the models) and the time. *)
Record Tick : Type := mkTick {
  tick_cloud : CloudConnector;
  tick_models : Models;
  tick_now : datetime
}.

Section Run.
Variable C : Constants.
Variable cenv : CloudEnvironment.
Variable str_of_id : UUID -> string.

(** The function of delete_vm.py that a job names, applied to the job's
    arguments; [None] for the job of another module. *)
Definition run_job (cloud : CloudConnector) (models : Models) (job : Job)
    : option (M WorkflowResult) :=
  match job with
  | job_check_instance_is_shutoff_and_delete instance retries func func_args =>
      Some (DeleteVM._check_instance_is_shutoff_and_delete C cloud models
              instance retries func func_args)
  | job_dispose_volume_once_instance_is_deleted instance archive retries =>
      Some (DeleteVM._dispose_volume_once_instance_is_deleted C cloud cenv
              models str_of_id instance archive retries)
  | job_wait_until_volume_is_deleted volume retries =>
      Some (DeleteVM._wait_until_volume_is_deleted C cloud volume retries)
  | job_wait_until_backup_is_deleted volume retries =>
      Some (DeleteVM._wait_until_backup_is_deleted C cloud volume retries)
  | job_wait_for_backup volume backup_id deadline =>
      Some (DeleteVM.wait_for_backup C cloud models volume backup_id deadline)
  | job_wait_to_confirm_resize _ _ _ _ => None
  end.

(** The world in which a job that was taken off the queue starts. *)
Definition dequeued (t : datetime) (w : World) : World :=
  mkWorld (db_instance w) (db_volume w) (db_expiration w) (db_vm_status w)
          [] (trace w) t.

(** The results of the jobs run, one per tick, and the world at the end.
    The run stops when no job, or more than one, is pending. *)
Fixpoint drain (ticks : list Tick) (w : World)
    : list (outcome WorkflowResult) * World :=
  match ticks with
  | [] => ([], w)
  | tick :: ticks' =>
      match scheduled w with
      | [(_, job)] =>
          match run_job (tick_cloud tick) (tick_models tick) job with
          | Some step =>
              let '(o, w1) := step (dequeued (tick_now tick) w) in
              let '(os, w2) := drain ticks' w1 in
              (o :: os, w2)
          | None => ([], w)
          end
      | _ => ([], w)
      end
  end.
End Run.
End Scheduler.

(** A step keeps to the convention of the workflow results: it has handed
    a continuation to the scheduler, one job, exactly when what it returns
    is WF_CONTINUE; with any other result, or an exception, the queue is as
    it was. *)
Definition continues_iff_scheduled (step : M WorkflowResult) : Prop :=
  forall w o w',
    step w = (o, w') ->
    (o = Returns WF_CONTINUE ->
     exists delay job, scheduled w' = (scheduled w ++ [(delay, job)])%list) /\
    (o <> Returns WF_CONTINUE -> scheduled w' = scheduled w).

(** ** More fixtures *)
Module FakeRun.
(** A compute client and a volume client that know every id asked for. *)
Definition nova : OpenStack.NovaClient :=
  OpenStack.mkNova
    (fun i => Returns (OpenStack.mkNovaServer i "SHUTOFF" 9%N "fake_nova_zone"))
    (fun _ => Returns tt).

Definition cinder : OpenStack.CinderClient :=
  OpenStack.mkCinder
    (fun i => Returns (OpenStack.mkCinderVolume i "available" "fake_nova_zone"))
    (fun _ => Returns tt)
    (fun _ => Returns tt).

Definition openstack : CloudConnector :=
  OpenStackConnector.instance_with OpenStackConnector.OpenStackVncServer
    nova cinder
    (Fake.cloud (Some true) ServerStatus.SHUTOFF (Some true) (Some true)
       VolumeStatus.AVAILABLE (Some true) (Some true)).

(** The database of the fixtures, with a volume for every user. *)
Definition models_with_volume : Models :=
  mkModels (fun _ => true)
           (fun _ _ _ => None)
           (fun _ _ _ => Some (VMStatus.mk 1 VM_SHELVED 100 "Shelved"))
           (fun _ v w => (v, w))
           (fun _ v w => (v, w))
           (fun _ _ _ => Some Fake.volume)
           (fun _ _ _ => None).

(** The world of the fixtures with one job pending. *)
Definition pending (job : Job) : World :=
  mkWorld (db_instance Fake.world) (db_volume Fake.world)
          (db_expiration Fake.world) (db_vm_status Fake.world)
          [(30, job)] [] 1000.

(** A tick of the clock at [t], with [cloud] for the remote end. *)
Definition tick (cloud : CloudConnector) (t : datetime) : Scheduler.Tick :=
  Scheduler.mkTick cloud (Fake.models true None) t.

(** Remote ends: a server that is still there; a server that is gone; a
    volume that is being deleted; a volume that is gone; a backup that is
    being made. *)
Definition server_there : CloudConnector :=
  Fake.cloud (Some true) ServerStatus.SHUTOFF (Some true) (Some true)
    VolumeStatus.AVAILABLE (Some true) (Some true).

Definition server_gone : CloudConnector :=
  Fake.cloud (Some false) ServerStatus.UNKNOWN (Some true) (Some true)
    VolumeStatus.AVAILABLE (Some true) (Some true).

Definition volume_deleting : CloudConnector :=
  Fake.cloud (Some false) ServerStatus.UNKNOWN (Some true) (Some true)
    VolumeStatus.DELETING (Some true) (Some true).

Definition volume_gone : CloudConnector :=
  Fake.cloud (Some false) ServerStatus.UNKNOWN (Some true) (Some false)
    VolumeStatus.UNKNOWN (Some true) (Some true).

Definition backing_up : CloudConnector :=
  mkCloud (fun _ => Returns (Some false))
          (fun _ => Returns ServerStatus.UNKNOWN)
          (fun _ => Returns tt)
          (fun _ => Returns (Some true))
          (fun _ => Returns (Some true))
          (fun _ => Returns VolumeStatus.AVAILABLE)
          (fun _ => Returns "fake_nova_zone")
          (fun _ => Returns None)
          (fun _ _ => Returns (Object_of_id Fake.uuid2))
          (fun _ => Returns (Some true))
          (fun _ => Returns (Some true))
          (fun _ => Returns VolumeStatus.BACKING_UP)
          (fun _ => Returns (Some false)).

(** Two builds of the image with the same build number, and a lower one
    before them. *)
Definition image_build_12_again : CloudVolume :=
  mkObject 7%N (Some "ubuntu-22.04-c") None
           (Some [("nectar_build", VInt 12)]) None None.

Definition tied_volume_list : list CloudVolume :=
  [Fake.image_build_3; Fake.unrelated; Fake.image_build_12;
   image_build_12_again].
End FakeRun.

(** * Properties *)

(** ** Status translation *)

Lemma ServerStatus_eqb_eq (a b : ServerStatus.t) :
  ServerStatus.eqb a b = true <-> a = b.
Proof.
  unfold ServerStatus.eqb; split; [|intros ->; apply Z.eqb_refl].
  destruct a, b; simpl; intros H; try reflexivity; discriminate H.
Qed.

Lemma VolumeStatus_eqb_eq (a b : VolumeStatus.t) :
  VolumeStatus.eqb a b = true <-> a = b.
Proof.
  unfold VolumeStatus.eqb; split; [|intros ->; apply Z.eqb_refl].
  destruct a, b; simpl; intros H; try reflexivity; discriminate H.
Qed.

Lemma dict_get_str_enum_keyed {T : Type} (d : list (PyKey * T)) (word : string) :
  enum_keyed d -> dict_get d (KStr word) = None.
Proof.
  induction 1 as [|[k v] d Hk _ IH]; simpl; [reflexivity|].
  destruct k; simpl in *; [contradiction| |]; exact IH.
Qed.

Lemma server_mapping_enum_keyed : enum_keyed OpenStack.OS_SERVER_STATUS_MAPPING.
Proof. unfold enum_keyed, OpenStack.OS_SERVER_STATUS_MAPPING. repeat constructor. Qed.

Lemma volume_mapping_enum_keyed : enum_keyed OpenStack.OS_VOLUME_STATUS_MAPPING.
Proof. unfold enum_keyed, OpenStack.OS_VOLUME_STATUS_MAPPING. repeat constructor. Qed.

(** C3.  The provider reports the status word "ACTIVE" (in fact: whatever
    word it reports), and the translation answers UNKNOWN, for servers and
    for volumes alike, although the table holds ACTIVE for the member whose
    value is "ACTIVE": the keys of the table are enum members, the lookup is
    made with the string, and a string never equals a member. *)
Theorem status_translation_of_every_word_is_UNKNOWN :
  (forall nova server nova_server,
      OpenStack.servers_get nova (id server) = Returns nova_server ->
      OpenStack.get_server_status nova server = Returns ServerStatus.UNKNOWN) /\
  (forall cinder volume cinder_volume,
      OpenStack.volumes_get cinder (id volume) = Returns cinder_volume ->
      OpenStack.get_volume_status cinder volume = Returns VolumeStatus.UNKNOWN) /\
  OpenStack.table_server_status "ACTIVE" = Some ServerStatus.ACTIVE /\
  OpenStack.table_volume_status "available" = Some VolumeStatus.AVAILABLE.
Proof.
  repeat split.
  - intros nova server ns Hget.
    unfold OpenStack.get_server_status, OpenStack._get_nova_server.
    rewrite Hget. unfold StatusMapper.get_status, StatusMapper._get_mapped_status.
    simpl StatusMapper._status_mapping.
    rewrite (dict_get_str_enum_keyed _ _ server_mapping_enum_keyed).
    reflexivity.
  - intros cinder volume cv Hget.
    unfold OpenStack.get_volume_status, OpenStack._get_cinder_volume.
    rewrite Hget. unfold StatusMapper.get_status, StatusMapper._get_mapped_status.
    simpl StatusMapper._status_mapping.
    rewrite (dict_get_str_enum_keyed _ _ volume_mapping_enum_keyed).
    reflexivity.
Qed.

(** The failing input of C3, evaluated: a server that the provider reports
    as "ACTIVE". *)
Lemma status_translation_of_every_word_is_UNKNOWN_witness :
  let nova :=
    OpenStack.mkNova
      (fun i => Returns (OpenStack.mkNovaServer i "ACTIVE" Fake.uuid1 "az"))
      (fun _ => Returns tt) in
  OpenStack.get_server_status nova (Object_of_id Fake.uuid2)
    = Returns ServerStatus.UNKNOWN.
Proof.
  intros nova.
  exact (proj1 status_translation_of_every_word_is_UNKNOWN nova
           (Object_of_id Fake.uuid2) _ eq_refl).
Defined.

(** ** Deleting an instance *)

(** C4.  When the provider no longer knows the server (its [get] raises
    [NotFound]), the OpenStack connector's [delete_server] answers [True];
    and with a connector that answers so, [delete_instance] returns [True]
    without raising, whatever the instance row holds (deleted already or
    not), and stamps and saves the row. *)
Theorem delete_instance_of_absent_server_succeeds :
  forall (nova : OpenStack.NovaClient) (cloud : CloudConnector)
         (instance : Instance.t) (w : World),
    let server := Object_of_id (Instance.id instance) in
    OpenStack.servers_get nova (id server) = Raises NovaNotFound ->
    delete_server cloud server = OpenStack.delete_server nova server ->
    OpenStack.delete_server nova server = Returns (Some true) /\
    exists w',
      DeleteVM.delete_instance cloud instance w
      = (Returns (true,
                  Instance.set_marked_for_deletion (Some (now w)) instance), w')
      /\ db_instance w' !! Instance.id instance
         = Some (Instance.set_marked_for_deletion (Some (now w)) instance).
Proof.
  intros nova cloud instance w server Hget Hcloud.
  assert (Hdel : OpenStack.delete_server nova server = Returns (Some true)).
  { unfold OpenStack.delete_server, OpenStack._get_nova_server.
    rewrite Hget. reflexivity. }
  split; [exact Hdel|].
  unfold DeleteVM.delete_instance, bind, cloud_call.
  fold server. rewrite Hcloud, Hdel. cbn.
  eexists; split; [reflexivity|]. cbn.
  apply lookup_insert_eq.
Qed.

Lemma delete_instance_of_absent_server_succeeds_witness :
  let nova := OpenStack.mkNova (fun _ => Raises NovaNotFound)
                               (fun _ => Returns tt) in
  let cloud :=
    mkCloud (OpenStack.is_server_created nova)
            (OpenStack.get_server_status nova)
            (fun _ => Returns tt)
            (OpenStack.delete_server nova)
            (fun _ => Returns None) (fun _ => Returns VolumeStatus.UNKNOWN)
            (fun _ => Returns "") (fun _ => Returns None)
            (fun _ _ => Raises (CloudConnectorError ""))
            (fun _ => Returns None) (fun _ => Returns None)
            (fun _ => Returns VolumeStatus.UNKNOWN) (fun _ => Returns None) in
  let deleted_already := Instance.set_deleted (Some 5) Fake.instance in
  fst (DeleteVM.delete_instance cloud deleted_already Fake.world)
  = Returns (true, Instance.set_marked_for_deletion (Some 1000) deleted_already).
Proof.
  intros nova cloud deleted_already.
  destruct (delete_instance_of_absent_server_succeeds nova cloud
              deleted_already Fake.world eq_refl eq_refl) as [_ [w' [H _]]].
  rewrite H. reflexivity.
Defined.

(** ** Archiving an expired volume *)

Lemma VMState_eqb_eq (a b : VMState) : VMState_eqb a b = true <-> a = b.
Proof. destruct a, b; simpl; split; intros H; try reflexivity; discriminate H. Qed.

Lemma VMState_eqb_neq (a b : VMState) : a <> b -> VMState_eqb a b = false.
Proof.
  intros Hne. destruct (VMState_eqb a b) eqn:E; [|reflexivity].
  apply VMState_eqb_eq in E. contradiction.
Qed.

(** C5.  For a volume whose VMStatus is not VM_SHELVED,
    [archive_expired_volume] archives nothing (it only writes two log
    records: no save, no connector call, nothing scheduled), but what it
    returns is WF_FAIL: the name WF_SKIP is not bound in the module, its
    evaluation raises [NameError], and the [except Exception] clause of the
    function catches it. *)
Theorem archive_expired_volume_not_shelved_returns_WF_FAIL :
  forall (C : Constants) (cloud : CloudConnector) (cenv : CloudEnvironment)
         (models : Models) (str_of_id : UUID -> string)
         (volume : Volume.t) (requesting_feature : N) (w : World)
         (vm_status : VMStatus.t),
    get_vm_status_by_volume models w volume requesting_feature
      = Some vm_status ->
    VMStatus.status vm_status <> VM_SHELVED ->
    DeleteVM.archive_expired_volume C cloud cenv models str_of_id
      volume requesting_feature w
    = (Returns WF_FAIL,
       emit (Ev_log EXCEPTION "Cannot retrieve vm_status for {volume}")
         (emit (Ev_log INFO
                  "Skipping archiving of {volume} in unexpected state: {vm_status}")
            w)).
Proof.
  intros C cloud cenv models str_of_id volume feature w vm_status Hq Hne.
  unfold DeleteVM.archive_expired_volume, catching, try_except, bind, query.
  rewrite Hq. rewrite (VMState_eqb_neq _ _ Hne). reflexivity.
Qed.

Lemma archive_expired_volume_not_shelved_returns_WF_FAIL_witness :
  fst (DeleteVM.archive_expired_volume Fake.constants
         (Fake.cloud (Some true) ServerStatus.ACTIVE (Some true) (Some true)
            VolumeStatus.AVAILABLE (Some true) (Some true))
         Nectar (Fake.models true (Some (VMStatus.mk 1 VM_OKAY 100 "Instance ready")))
         Fake.str_of_id Fake.volume 0%N Fake.world)
  = Returns WF_FAIL.
Proof.
  rewrite (archive_expired_volume_not_shelved_returns_WF_FAIL
             Fake.constants _ Nectar
             (Fake.models true (Some (VMStatus.mk 1 VM_OKAY 100 "Instance ready")))
             Fake.str_of_id Fake.volume 0%N Fake.world
             (VMStatus.mk 1 VM_OKAY 100 "Instance ready") eq_refl);
    [reflexivity | discriminate].
Defined.

(** ** Atomicity of the two delete calls *)

(** C9.  When the connector's delete call answers anything but [True]
    ([None] or [False]), [delete_instance] and [delete_volume] return
    [False], hand the object back as it was and leave every table of the
    database as it was; when it answers [True] they return [True] and the
    row is stamped ([marked_for_deletion] for the instance, [deleted] for
    the volume) and saved. *)
Theorem delete_calls_are_atomic_on_failure :
  forall (cloud : CloudConnector) (w : World),
    (forall (instance : Instance.t) (answer : option bool),
        delete_server cloud (Object_of_id (Instance.id instance))
          = Returns answer ->
        exists instance' w',
          DeleteVM.delete_instance cloud instance w
            = (Returns
                 (match answer with Some true => true | _ => false end,
                  instance'), w') /\
          (answer <> Some true ->
             instance' = instance /\
             db_instance w' = db_instance w /\ db_volume w' = db_volume w /\
             db_expiration w' = db_expiration w /\
             db_vm_status w' = db_vm_status w) /\
          (answer = Some true ->
             Instance.marked_for_deletion instance' = Some (now w) /\
             db_instance w' !! Instance.id instance = Some instance')) /\
    (forall (volume : Volume.t) (answer : option bool),
        delete_volume cloud (Object_of_id (Volume.id volume))
          = Returns answer ->
        exists volume' w',
          DeleteVM.delete_volume cloud volume w
            = (Returns
                 (match answer with Some true => true | _ => false end,
                  volume'), w') /\
          (answer <> Some true ->
             volume' = volume /\
             db_instance w' = db_instance w /\ db_volume w' = db_volume w /\
             db_expiration w' = db_expiration w /\
             db_vm_status w' = db_vm_status w) /\
          (answer = Some true ->
             Volume.deleted volume' = Some (now w) /\
             db_volume w' !! Volume.id volume = Some volume')).
Proof.
  intros cloud w; split.
  - intros instance answer Hans.
    unfold DeleteVM.delete_instance, bind, cloud_call. rewrite Hans.
    destruct answer as [[|]|]; cbn; do 2 eexists;
      (split; [reflexivity|]); split; intros H; try congruence; cbn.
    + split; [reflexivity | apply lookup_insert_eq].
    + auto.
    + auto.
  - intros volume answer Hans.
    unfold DeleteVM.delete_volume, bind, cloud_call. rewrite Hans.
    destruct answer as [[|]|]; cbn; do 2 eexists;
      (split; [reflexivity|]); split; intros H; try congruence; cbn.
    + split; [reflexivity | apply lookup_insert_eq].
    + auto.
    + auto.
Qed.

Lemma delete_calls_are_atomic_on_failure_witness :
  let cloud := Fake.cloud (Some true) ServerStatus.SHUTOFF None (Some true)
                 VolumeStatus.AVAILABLE (Some false) None in
  fst (DeleteVM.delete_instance cloud Fake.instance Fake.world)
    = Returns (false, Fake.instance) /\
  fst (DeleteVM.delete_volume cloud Fake.volume Fake.world)
    = Returns (false, Fake.volume).
Proof.
  intros cloud.
  destruct (delete_calls_are_atomic_on_failure cloud Fake.world) as [Hi Hv].
  destruct (Hi Fake.instance None eq_refl) as (i' & w1 & E1 & F1 & _).
  destruct (Hv Fake.volume (Some false) eq_refl) as (v' & w2 & E2 & F2 & _).
  rewrite E1, E2; cbn.
  destruct (F1 ltac:(discriminate)) as [-> _].
  destruct (F2 ltac:(discriminate)) as [-> _].
  split; reflexivity.
Defined.

(** ** The finalization step *)

(** [_end_delete] touches nothing but the Expiration table, and writes
    nothing into the trace but saves of expirations. *)
Lemma end_delete_frame (volume : Volume.t) (wf_status : WorkflowResult)
    (w : World) :
  exists o w' evs,
    DeleteVM._end_delete volume wf_status w = (o, w') /\
    db_volume w' = db_volume w /\ db_instance w' = db_instance w /\
    db_vm_status w' = db_vm_status w /\ scheduled w' = scheduled w /\
    now w' = now w /\ trace w' = (trace w ++ evs)%list /\
    Forall is_expiration_save evs.
Proof.
  unfold DeleteVM._end_delete, DeleteVM.end_delete_expiration, for_each, bind,
    Expiration_get, Expiration_save,
    datetime_now, ret, emit.
  destruct (Volume.expiration volume) as [pk1|];
    destruct (Volume.backup_expiration volume) as [pk2|]; cbn;
    repeat match goal with
      | |- context [match ?m !! ?k with _ => _ end] =>
          destruct (m !! k) as [?|] eqn:?; cbn
      | |- context [if ExpStage_eqb ?a ?b then _ else _] =>
          destruct (ExpStage_eqb a b); cbn
      end;
    eexists _, _, _; (split; [reflexivity|]); cbn;
    do 5 (split; [reflexivity|]);
    (split;
     [ first [ reflexivity
             | rewrite <- !app_assoc; reflexivity
             | symmetry; apply app_nil_r ]
     | repeat constructor ]).
Qed.

(** ** Archiving a volume *)

Lemma Volume_marked_not_active (v : Volume.t) (t : datetime) :
  Volume.marked_for_deletion v = Some t -> Volume_is_active v = false.
Proof.
  unfold Volume_is_active. intros ->. destruct (Volume.deleted v); reflexivity.
Qed.

(** Case analysis on what the connector and the database answer in
    [archive_volume_worker]. *)
Ltac archive_cases :=
  repeat (cbn;
    match goal with
    | |- context [match is_volume_created ?c ?x with _ => _ end] =>
        destruct (is_volume_created c x) as [[[|]|]|?]
    | |- context [match get_volume_status ?c ?x with _ => _ end] =>
        destruct (get_volume_status c x) as [?|?]
    | |- context [VolumeStatus.eqb ?a ?b] =>
        destruct (VolumeStatus.eqb a b) eqn:?
    | |- context [match create_volume_backup ?c ?x ?n with _ => _ end] =>
        destruct (create_volume_backup c x n) as [?|?]
    | |- context [is_CloudConnectorError ?e] =>
        destruct (is_CloudConnectorError e)
    | |- context [match get_vm_status_by_volume ?m ?w ?v ?f with _ => _ end] =>
        destruct (get_vm_status_by_volume m w v f)
    end); cbn.

(** C10.  Whatever the connector answers and however the run ends (with a
    result or with an exception), the first thing [archive_volume_worker]
    does is to save the volume with [marked_for_deletion] set to the present
    time, so before any connector call, and the row that the database holds
    for the volume afterwards still carries that timestamp: the volume is
    not one that a later launch may reuse. *)
Theorem archive_volume_worker_marks_volume_first :
  forall (C : Constants) (cloud : CloudConnector) (cenv : CloudEnvironment)
         (models : Models) (str_of_id : UUID -> string)
         (volume : Volume.t) (requesting_feature : N) (w : World),
  exists o w' rest v',
    DeleteVM.archive_volume_worker C cloud cenv models str_of_id
      volume requesting_feature w = (o, w') /\
    trace w'
    = (trace w
         ++ Ev_save_volume
              (Volume.set_marked_for_deletion (Some (now w)) volume)
         :: rest)%list /\
    db_volume w' !! Volume.id volume = Some v' /\
    Volume.marked_for_deletion v' = Some (now w) /\
    Volume_is_active v' = false.
Proof.
  intros C cloud cenv models str_of_id volume feature w.
  unfold DeleteVM.archive_volume_worker, bind, cloud_call, datetime_now,
    Volume_save, Volume_error, log, catching, try_except, enqueue_in, query,
    VMStatus_save, ret, emit.
  archive_cases;
    first
      [ match goal with
        | |- context [DeleteVM._end_delete ?v ?r ?W] =>
            destruct (end_delete_frame v r W)
              as (o & w' & evs & E & Hv & _ & _ & _ & _ & Ht & _);
            rewrite E; exists o, w'; eexists; eexists;
            split; [reflexivity|]; rewrite Ht, Hv; cbn;
            split; [rewrite <- !app_assoc; cbn; reflexivity|];
            split; [apply lookup_insert_eq|];
            split; [reflexivity|];
            apply (Volume_marked_not_active _ (now w)); reflexivity
        end
      | eexists _, _, _, _; split; [reflexivity|]; cbn;
        split; [rewrite <- ?app_assoc; cbn; reflexivity|];
        split; [apply lookup_insert_eq|];
        split; [reflexivity|];
        apply (Volume_marked_not_active _ (now w)); reflexivity ].
Qed.

(** ** Exhausted retry budgets *)

(** With the volume's links intact, [_end_delete] returns the result it was
    given. *)
Lemma end_delete_returns (volume : Volume.t) (wf_status : WorkflowResult)
    (w : World) :
  expirations_linked volume (db_expiration w) ->
  exists w', DeleteVM._end_delete volume wf_status w = (Returns wf_status, w').
Proof.
  intros [H1 H2].
  unfold DeleteVM._end_delete, DeleteVM.end_delete_expiration, for_each, bind,
    Expiration_get, Expiration_save,
    datetime_now, ret, emit.
  destruct (Volume.expiration volume) as [pk1|];
    destruct (Volume.backup_expiration volume) as [pk2|]; cbn.
  - destruct (H1 pk1 eq_refl) as [e1 E1]. destruct (H2 pk2 eq_refl) as [e2 E2].
    rewrite E1; cbn.
    destruct (ExpStage_eqb (Expiration.stage e1) EXP_EXPIRING); cbn.
    + rewrite lookup_insert. destruct (decide (pk1 = pk2)); cbn.
      * match goal with
        | |- context [if ExpStage_eqb ?a ?b then _ else _] =>
            destruct (ExpStage_eqb a b)
        end; cbn; eexists; reflexivity.
      * rewrite E2; cbn.
        destruct (ExpStage_eqb (Expiration.stage e2) EXP_EXPIRING); cbn;
          eexists; reflexivity.
    + rewrite E2; cbn.
      destruct (ExpStage_eqb (Expiration.stage e2) EXP_EXPIRING); cbn;
        eexists; reflexivity.
  - destruct (H1 pk1 eq_refl) as [e1 E1]. rewrite E1; cbn.
    destruct (ExpStage_eqb (Expiration.stage e1) EXP_EXPIRING); cbn;
      eexists; reflexivity.
  - destruct (H2 pk2 eq_refl) as [e2 E2]. rewrite E2; cbn.
    destruct (ExpStage_eqb (Expiration.stage e2) EXP_EXPIRING); cbn;
      eexists; reflexivity.
  - eexists; reflexivity.
Qed.

(** C6.  With no retries left,
    - the shutoff check goes on to delete the instance, shut off or not: it
      logs that it ran out of retries and calls the connector's
      [delete_server]; when that call succeeds it schedules the next step
      and returns WF_CONTINUE (when the call itself fails, WF_FAIL);
    - the poll for the volume's deletion, with the volume still there and
      DELETING, stops: it schedules nothing, makes no further connector call
      and returns the failure result WF_RETRY;
    - the poll for the backup's deletion, with the backup still there, does
      the same. *)
Theorem exhausted_retries_shutoff_proceeds_polls_fail :
  forall (C : Constants) (cloud : CloudConnector) (models : Models)
         (retries : Z) (w : World),
    retries <= 0 ->
    (forall instance func func_args boot_volume answer,
        db_volume w !! Instance.boot_volume instance = Some boot_volume ->
        delete_server cloud (Object_of_id (Instance.id instance))
          = Returns answer ->
        exists w' before between after instance',
          DeleteVM._check_instance_is_shutoff_and_delete C cloud models
            instance retries func func_args w
          = (Returns (match answer with
                      | Some true => WF_CONTINUE
                      | _ => WF_FAIL
                      end), w') /\
          trace w'
          = (trace w ++ before
               ++ Ev_log INFO
                    ("Ran out of retries shutting down {instance}. "
                       +:+ "Proceeding to delete Nova instance anyway!")
               :: between
               ++ Ev_cloud m_delete_server (Some (Instance.id instance))
               :: after)%list /\
          (answer = Some true ->
           scheduled w'
           = (scheduled w
                ++ [(INSTANCE_DELETION_RETRY_WAIT_TIME C,
                     DeleteVM.job_of func instance' func_args)])%list)) /\
    (forall volume,
        is_volume_created cloud (Object_of_id (Volume.id volume))
          = Returns (Some true) ->
        get_volume_status cloud (Object_of_id (Volume.id volume))
          = Returns VolumeStatus.DELETING ->
        expirations_linked volume (db_expiration w) ->
        exists w' evs,
          DeleteVM._wait_until_volume_is_deleted C cloud volume retries w
            = (Returns WF_RETRY, w') /\
          scheduled w' = scheduled w /\
          trace w'
          = (trace w
               ++ Ev_cloud m_is_volume_created (Some (Volume.id volume))
               :: Ev_cloud m_get_volume_status (Some (Volume.id volume))
               :: evs)%list /\
          Forall (fun ev => match ev with Ev_cloud _ _ => False | _ => True end)
                 evs) /\
    (forall volume,
        is_backup_created cloud (Volume.backup_id volume)
          = Returns (Some true) ->
        expirations_linked volume (db_expiration w) ->
        exists w' evs,
          DeleteVM._wait_until_backup_is_deleted C cloud volume retries w
            = (Returns WF_RETRY, w') /\
          scheduled w' = scheduled w /\
          trace w'
          = (trace w
               ++ Ev_cloud m_is_backup_created (Volume.backup_id volume)
               :: evs)%list /\
          Forall (fun ev => match ev with Ev_cloud _ _ => False | _ => True end)
                 evs).
Proof.
  intros C cloud models retries w Hretries.
  assert (Hlt : Z.ltb 0 retries = false) by (apply Z.ltb_ge; exact Hretries).
  assert (Hle : Z.leb retries 0 = true) by (apply Z.leb_le; exact Hretries).
  split; [|split].
  - intros instance func func_args boot_volume answer Hbv Hdel.
    unfold DeleteVM._check_instance_is_shutoff_and_delete,
      DeleteVM.delete_instance, bind, log, enqueue_in, Instance_boot_volume,
      query, cloud_call, VMStatus_save, Instance_save, datetime_now, ret, emit.
    cbn. rewrite Hlt, Hle, andb_false_r. cbn. rewrite Hbv. cbn.
    destruct (get_vm_status_by_instance models _ instance
                (Volume.requesting_feature boot_volume)) as [vs|]; cbn;
      [destruct (VMState_eqb (VMStatus.status vs) VM_WAITING); cbn|];
      rewrite Hdel; destruct answer as [[|]|]; cbn;
      first
        [ eexists _, [_], [_], [_; _], _;
          (split; [reflexivity|]); cbn; rewrite <- !app_assoc; cbn;
          split; [reflexivity | intros _; reflexivity]
        | eexists _, [_], [], [_; _], _;
          (split; [reflexivity|]); cbn; rewrite <- !app_assoc; cbn;
          split; [reflexivity | intros _; reflexivity]
        | eexists _, [_], [_], [_], instance;
          (split; [reflexivity|]); cbn; rewrite <- !app_assoc; cbn;
          split; [reflexivity | intros H; discriminate H]
        | eexists _, [_], [], [_], instance;
          (split; [reflexivity|]); cbn; rewrite <- !app_assoc; cbn;
          split; [reflexivity | intros H; discriminate H] ].
  - intros volume Hexist Hstatus Hlinked.
    unfold DeleteVM._wait_until_volume_is_deleted, bind, cloud_call, log,
      Volume_error, Volume_save, ret, emit.
    rewrite Hexist. cbn. rewrite Hstatus. cbn. rewrite Hlt. cbn.
    match goal with
    | |- context [DeleteVM._end_delete ?v ?r ?W] =>
        destruct (end_delete_frame v r W)
          as (o & w' & evs & E & _ & _ & _ & Hs & _ & Ht & Hevs);
        destruct (end_delete_returns v r W Hlinked) as (w'' & E')
    end.
    rewrite E in E'. injection E' as -> <-.
    cbn in Hs, Ht. rewrite <- !app_assoc in Ht. cbn in Ht.
    rewrite E. eexists _, _; split; [reflexivity|].
    split; [exact Hs|]. split; [exact Ht|].
    repeat constructor.
    eapply Forall_impl; [exact Hevs|]. intros [] Hev; cbn in *; tauto.
  - intros volume Hexist Hlinked.
    unfold DeleteVM._wait_until_backup_is_deleted, bind, cloud_call, log,
      ret, emit.
    rewrite Hexist. cbn. rewrite Hlt. cbn.
    match goal with
    | |- context [DeleteVM._end_delete ?v ?r ?W] =>
        destruct (end_delete_frame v r W)
          as (o & w' & evs & E & _ & _ & _ & Hs & _ & Ht & Hevs);
        destruct (end_delete_returns v r W Hlinked) as (w'' & E')
    end.
    rewrite E in E'. injection E' as -> <-.
    cbn in Hs, Ht. rewrite <- !app_assoc in Ht. cbn in Ht.
    rewrite E. eexists _, _; split; [reflexivity|].
    split; [exact Hs|]. split; [exact Ht|].
    repeat constructor.
    eapply Forall_impl; [exact Hevs|]. intros [] Hev; cbn in *; tauto.
Qed.

Lemma Fake_volume_linked :
  expirations_linked Fake.volume (db_expiration Fake.world).
Proof.
  split; intros pk H; cbn in H; [|discriminate H].
  injection H as <-. eexists. apply lookup_singleton_eq.
Qed.

Lemma exhausted_retries_shutoff_proceeds_polls_fail_witness :
  let cloud := Fake.cloud (Some true) ServerStatus.ACTIVE (Some true)
                 (Some true) VolumeStatus.DELETING (Some true) (Some true) in
  let models := Fake.models false None in
  fst (DeleteVM._check_instance_is_shutoff_and_delete Fake.constants cloud
         models Fake.instance 0 cb_dispose_volume_once_instance_is_deleted
         (false, 5) Fake.world) = Returns WF_CONTINUE /\
  fst (DeleteVM._wait_until_volume_is_deleted Fake.constants cloud
         Fake.volume 0 Fake.world) = Returns WF_RETRY /\
  fst (DeleteVM._wait_until_backup_is_deleted Fake.constants cloud
         Fake.volume 0 Fake.world) = Returns WF_RETRY.
Proof.
  intros cloud models.
  destruct (exhausted_retries_shutoff_proceeds_polls_fail Fake.constants
              cloud models 0 Fake.world ltac:(lia)) as (H1 & H2 & H3).
  destruct (H1 Fake.instance cb_dispose_volume_once_instance_is_deleted
              (false, 5) Fake.volume (Some true) (lookup_singleton_eq _ _)
              eq_refl)
    as (w1 & ? & ? & ? & ? & E1 & _).
  destruct (H2 Fake.volume eq_refl eq_refl Fake_volume_linked)
    as (w2 & ? & E2 & _).
  destruct (H3 Fake.volume eq_refl Fake_volume_linked) as (w3 & ? & E3 & _).
  rewrite E1, E2, E3. repeat split.
Defined.

(** ** The resize step *)

(** C8.  When the remote server already has the flavor that is asked for,
    [_resize_vm] returns the no-op message and does nothing else than the
    query of the server's flavor: no resize call is made and nothing is
    scheduled. *)
Theorem resize_vm_same_flavor_is_noop :
  forall (nova : ResizeVM.NovaServers) (cenv : CloudEnvironment)
         (str_of_id : UUID -> string) (RESIZE_CONFIRM_WAIT_SECONDS : Z)
         (instance : Instance.t) (flavor : UUID) (requesting_feature : N)
         (w : World),
    ResizeVM.server_flavor nova (Instance.id instance) = Returns flavor ->
    exists w',
      ResizeVM._resize_vm nova cenv str_of_id RESIZE_CONFIRM_WAIT_SECONDS
        instance flavor requesting_feature w
      = (Returns ("Instance " +:+ str_of_id (Instance.id instance)
                    +:+ " already has flavor " +:+ str_of_id flavor
                    +:+ ". Skipping the resize."), w') /\
      trace w'
      = (trace w
           ++ [Ev_cloud m_get_server_flavor (Some (Instance.id instance))])%list /\
      count_calls m_resize_server (trace w')
      = count_calls m_resize_server (trace w) /\
      scheduled w' = scheduled w /\
      db_instance w' = db_instance w /\ db_volume w' = db_volume w /\
      db_vm_status w' = db_vm_status w.
Proof.
  intros nova cenv str_of_id W instance flavor feature w Hflavor.
  unfold ResizeVM._resize_vm, bind, cloud_call. rewrite Hflavor.
  rewrite N.eqb_refl. cbn. eexists; split; [reflexivity|]. cbn.
  repeat split.
  unfold count_calls. rewrite List.filter_app, length_app. cbn. lia.
Qed.

Lemma resize_vm_same_flavor_is_noop_witness :
  let nova := ResizeVM.mkNovaServers (fun _ => Returns Fake.uuid1)
                (fun _ _ => Returns "whatever") in
  fst (ResizeVM._resize_vm nova Nectar Fake.str_of_id 240 Fake.instance
         Fake.uuid1 0%N Fake.world)
  = Returns ("Instance 4aa4d0c9-9ed5-4e3c-85fa-bbf8e483bd45 already has flavor "
               +:+ "fa13b725-635a-4f8c-9f40-6b6c85642500. Skipping the resize.").
Proof.
  intros nova.
  destruct (resize_vm_same_flavor_is_noop nova Nectar Fake.str_of_id 240
              Fake.instance Fake.uuid1 0%N Fake.world eq_refl) as (w' & E & _).
  rewrite E. reflexivity.
Defined.

(** ** Selecting the source volume *)

Section SourceVolume.
Variable int_of_str : string -> option Z.

Lemma prefix_matches_named (image_name : string) (l : list CloudVolume) :
  (forall v, In v l -> name v <> None) ->
  CreateVM.prefix_matches image_name l
  = Returns (List.filter (CreateVM.is_match image_name) l).
Proof.
  induction l as [|v l IH]; intros Hnamed; cbn; [reflexivity|].
  unfold CreateVM.is_match at 1.
  destruct (name v) as [n|] eqn:En.
  - rewrite IH by (intros v' Hv'; apply Hnamed; right; exact Hv').
    destruct (String.prefix image_name n); reflexivity.
  - exfalso. apply (Hnamed v); [left; reflexivity | exact En].
Qed.

Lemma decorate_keyed (l : list CloudVolume) :
  (forall v, In v l -> exists k, CreateVM.build_key int_of_str v = Returns k) ->
  exists kvs,
    CreateVM.decorate int_of_str l = Returns kvs /\
    map snd kvs = l /\
    Forall (fun kv => CreateVM.build_key int_of_str (snd kv) = Returns (fst kv))
           kvs.
Proof.
  induction l as [|v l IH]; intros Hkeys; cbn.
  - exists []. repeat split. constructor.
  - destruct (Hkeys v (or_introl eq_refl)) as [k Ek]. rewrite Ek.
    destruct IH as (kvs & E & Hmap & Hall).
    { intros v' Hv'. apply Hkeys. right. exact Hv'. }
    rewrite E. exists ((k, v) :: kvs). cbn. repeat split.
    + rewrite Hmap. reflexivity.
    + constructor; [exact Ek | exact Hall].
Qed.

Lemma insert_desc_In (x y : Z * CloudVolume) (l : list (Z * CloudVolume)) :
  In y (CreateVM.insert_desc x l) <-> y = x \/ In y l.
Proof.
  induction l as [|z l IH]; cbn.
  - intuition.
  - destruct (Z.ltb (fst x) (fst z)); cbn; rewrite ?IH; intuition.
Qed.

Lemma sorted_desc_In (y : Z * CloudVolume) (l : list (Z * CloudVolume)) :
  In y (CreateVM.sorted_desc l) <-> In y l.
Proof.
  induction l as [|x l IH]; cbn; [reflexivity|].
  rewrite insert_desc_In, IH. intuition.
Qed.

Lemma insert_desc_descending (x : Z * CloudVolume) (l : list (Z * CloudVolume)) :
  descending l -> descending (CreateVM.insert_desc x l).
Proof.
  induction l as [|z l IH]; cbn; intros Hl.
  - split; [constructor | exact I].
  - destruct Hl as [Hz Hl].
    destruct (Z.ltb (fst x) (fst z)) eqn:E; cbn.
    + apply Z.ltb_lt in E. split; [|apply IH; exact Hl].
      apply List.Forall_forall. intros y Hy.
      apply insert_desc_In in Hy. destruct Hy as [-> | Hy]; [lia|].
      rewrite List.Forall_forall in Hz. apply Hz. exact Hy.
    + apply Z.ltb_ge in E. split; [|split; [exact Hz | exact Hl]].
      constructor; [exact E|].
      eapply List.Forall_impl; [|exact Hz]. cbn. intros y Hy. lia.
Qed.

Lemma sorted_desc_descending (l : list (Z * CloudVolume)) :
  descending (CreateVM.sorted_desc l).
Proof.
  induction l as [|x l IH]; cbn; [exact I|].
  apply insert_desc_descending. exact IH.
Qed.

(** The head of the sorted list is an element with the largest key. *)
Lemma sorted_desc_head (l : list (Z * CloudVolume)) :
  match CreateVM.sorted_desc l with
  | [] => l = []
  | x :: _ => In x l /\ forall y, In y l -> fst y <= fst x
  end.
Proof.
  pose proof (sorted_desc_descending l) as Hd.
  pose proof (fun y => sorted_desc_In y l) as Hin.
  destruct (CreateVM.sorted_desc l) as [|x rest].
  - destruct l as [|y l]; [reflexivity|].
    exfalso. apply (Hin y). left. reflexivity.
  - split; [apply Hin; left; reflexivity|].
    intros y Hy. apply Hin in Hy. destruct Hd as [Hx _].
    destruct Hy as [<- | Hy]; [lia|].
    rewrite List.Forall_forall in Hx. apply Hx. exact Hy.
Qed.

(** C7, amended.  Let the connector answer with a list of candidates that
    all have a name and whose candidates with the image-name prefix have a
    numeric build value (the metadata entry [nectar_build], 0 when it is
    absent).
    If some candidate has the prefix, [_get_source_volume] returns a
    candidate that has it and whose build value is the largest among those
    that have it; if none has, it raises the failure [RuntimeWarning]. *)
Theorem get_source_volume_picks_highest_build :
  forall (cloud : CloudConnector) (desktop_type : DesktopType)
         (zone : AvailabilityZone) (w : World)
         (res : option (list CloudVolume)),
    get_volume_list cloud
      [ ("name~", VStr (image_name desktop_type));
        ("availability_zone", VStr (zone_name zone));
        ("status", VStr "AVAILABLE") ] = Returns res ->
    let candidates := match res with Some l => l | None => [] end in
    let has_prefix := CreateVM.is_match (image_name desktop_type) in
    (forall v, In v candidates -> name v <> None) ->
    (forall v, In v candidates -> has_prefix v = true ->
               exists k, CreateVM.build_key int_of_str v = Returns k) ->
    if existsb has_prefix candidates then
      exists chosen build w',
        CreateVM._get_source_volume cloud int_of_str desktop_type zone w
          = (Returns chosen, w') /\
        In chosen candidates /\ has_prefix chosen = true /\
        CreateVM.build_key int_of_str chosen = Returns build /\
        forall v k, In v candidates -> has_prefix v = true ->
                    CreateVM.build_key int_of_str v = Returns k -> k <= build
    else
      exists msg w',
        CreateVM._get_source_volume cloud int_of_str desktop_type zone w
          = (Raises (RuntimeWarning msg), w').
Proof.
  intros cloud desktop_type zone w res Hres candidates has_prefix Hnamed Hkeys.
  assert (Hsel : CreateVM.select_source_volume int_of_str
                   (image_name desktop_type) res
                 = match CreateVM.decorate int_of_str
                           (List.filter has_prefix candidates) with
                   | Returns kvs =>
                       match CreateVM.sorted_desc kvs with
                       | [] => Returns None
                       | (_, v) :: _ => Returns (Some v)
                       end
                   | Raises e => Raises e
                   end).
  { unfold CreateVM.select_source_volume. fold candidates.
    rewrite (prefix_matches_named _ _ Hnamed). reflexivity. }
  destruct (decorate_keyed (List.filter has_prefix candidates))
    as (kvs & Edec & Hmap & Hall).
  { intros v Hv. apply List.filter_In in Hv. destruct Hv as [Hv Hp].
    apply Hkeys; assumption. }
  rewrite Edec in Hsel.
  pose proof (sorted_desc_head kvs) as Hhead.
  unfold CreateVM._get_source_volume, bind, cloud_call, of_outcome, log, raise,
    ret.
  change (VolumeStatus.name VolumeStatus.AVAILABLE) with "AVAILABLE".
  rewrite Hres, Hsel.
  destruct (existsb has_prefix candidates) eqn:Eex.
  - destruct (CreateVM.sorted_desc kvs) as [|[k chosen] rest].
    + exfalso. subst kvs. cbn in Hmap.
      apply List.existsb_exists in Eex. destruct Eex as (v & Hv & Hp).
      assert (Hin : In v (List.filter has_prefix candidates))
        by (apply List.filter_In; split; assumption).
      rewrite <- Hmap in Hin. exact Hin.
    + destruct Hhead as [Hin Hmax].
      rewrite List.Forall_forall in Hall.
      assert (Hc : In chosen (List.filter has_prefix candidates)).
      { rewrite <- Hmap. apply (List.in_map snd _ _ Hin). }
      apply List.filter_In in Hc. destruct Hc as [Hc Hp].
      exists chosen, k. eexists. split; [reflexivity|].
      split; [exact Hc|]. split; [exact Hp|].
      split; [exact (Hall _ Hin)|].
      intros v k' Hv Hpv Hk'.
      assert (Hvin : In v (map snd kvs)).
      { rewrite Hmap. apply List.filter_In. split; assumption. }
      apply List.in_map_iff in Hvin. destruct Hvin as ([k'' v'] & Ev & Hkv).
      cbn in Ev. subst v'.
      pose proof (Hall _ Hkv) as Hk''. cbn in Hk''.
      rewrite Hk' in Hk''. injection Hk'' as ->.
      exact (Hmax _ Hkv).
  - assert (Hnil : List.filter has_prefix candidates = []).
    { destruct (List.filter has_prefix candidates) as [|v l] eqn:Ef;
        [reflexivity|].
      assert (Hv : In v (List.filter has_prefix candidates))
        by (rewrite Ef; left; reflexivity).
      apply List.filter_In in Hv.
      assert (existsb has_prefix candidates = true)
        by (apply List.existsb_exists; exists v; exact Hv).
      congruence. }
    rewrite Hnil in Hmap. destruct kvs; [|discriminate Hmap].
    cbn. eexists _, _. reflexivity.
Qed.
End SourceVolume.

Lemma get_source_volume_picks_highest_build_witness :
  let cloud :=
    Fake.with_volume_list Fake.volume_list
      (Fake.cloud None ServerStatus.UNKNOWN None None VolumeStatus.UNKNOWN
         None None) in
  (exists chosen build w',
      CreateVM._get_source_volume cloud Fake.int_of_str Fake.ubuntu Fake.zone
        Fake.world = (Returns chosen, w') /\
      In chosen Fake.volume_list /\
      CreateVM.is_match "ubuntu-22.04" chosen = true /\
      CreateVM.build_key Fake.int_of_str chosen = Returns build /\
      forall v k, In v Fake.volume_list ->
                  CreateVM.is_match "ubuntu-22.04" v = true ->
                  CreateVM.build_key Fake.int_of_str v = Returns k ->
                  k <= build) /\
  fst (CreateVM._get_source_volume cloud Fake.int_of_str Fake.ubuntu Fake.zone
         Fake.world) = Returns Fake.image_build_12.
Proof.
  intros cloud. split; [|reflexivity].
  refine (get_source_volume_picks_highest_build Fake.int_of_str cloud
            Fake.ubuntu Fake.zone Fake.world (Some Fake.volume_list)
            eq_refl _ _).
  - intros v [<-|[<-|[<-|[<-|[]]]]]; discriminate.
  - intros v [<-|[<-|[<-|[<-|[]]]]] Hp; try discriminate Hp;
      eexists; reflexivity.
Defined.

(** C7 as stated fails: not every candidate list gives a candidate or the
    failure for "no match".  The comprehension reads [v.name.startswith] of
    every candidate, so one candidate without a name makes the step raise
    [AttributeError] although another candidate has the prefix; and the
    key of the sort converts the build value of every candidate with the
    prefix, so one such value that is no number makes it raise
    [ValueError] although another candidate has a build number. *)
Lemma get_source_volume_raises_on_a_malformed_candidate :
  let unnamed := mkObject 8%N None None None None None in
  let odd_build :=
    mkObject 9%N (Some "ubuntu-22.04-d") None
             (Some [("nectar_build", VStr "latest")]) None None in
  let cloud l :=
    Fake.with_volume_list l
      (Fake.cloud None ServerStatus.UNKNOWN None None VolumeStatus.UNKNOWN
         None None) in
  existsb (CreateVM.is_match "ubuntu-22.04") [Fake.image_build_12; unnamed]
    = true /\
  fst (CreateVM._get_source_volume (cloud [Fake.image_build_12; unnamed])
         Fake.int_of_str Fake.ubuntu Fake.zone Fake.world)
    = Raises (AttributeError
                "'NoneType' object has no attribute 'startswith'") /\
  CreateVM.build_key Fake.int_of_str Fake.image_build_12 = Returns 12 /\
  fst (CreateVM._get_source_volume (cloud [Fake.image_build_12; odd_build])
         Fake.int_of_str Fake.ubuntu Fake.zone Fake.world)
    = Raises (ValueError "invalid literal for int()").
Proof.
  intros unnamed odd_build cloud.
  split; [reflexivity|]. split; [reflexivity|]. split; reflexivity.
Qed.

(** ** Expiration bookkeeping *)

Lemma ExpStage_eqb_eq (a b : ExpStage) : ExpStage_eqb a b = true <-> a = b.
Proof. destruct a, b; simpl; split; intros H; try reflexivity; discriminate H. Qed.

Lemma stage_after_not_expiring (r : WorkflowResult) (s : ExpStage) :
  stage_after r = Some s -> s <> EXP_EXPIRING.
Proof. destruct r; cbn; intros H; inversion H; discriminate. Qed.

Lemma count_saves_app (pk : N) (tr tr' : list Event) :
  count_saves pk (tr ++ tr') = (count_saves pk tr + count_saves pk tr')%nat.
Proof. unfold count_saves. rewrite List.filter_app, length_app. reflexivity. Qed.

(** One turn of the loop. *)
Lemma end_delete_expiration_advances (r : WorkflowResult) (link : option N)
    (w w' : World) :
  DeleteVM.end_delete_expiration r link w = (Returns tt, w') ->
  stage_after r <> None ->
  advanced_once [link] r w w' /\ now w' = now w.
Proof.
  intros Hrun Hterminal.
  unfold DeleteVM.end_delete_expiration, bind, Expiration_get, Expiration_save,
    datetime_now, ret, emit in Hrun.
  destruct link as [pk1|].
  - destruct (db_expiration w !! pk1) as [e1|] eqn:E1; [|discriminate Hrun].
    destruct (ExpStage_eqb (Expiration.stage e1) EXP_EXPIRING) eqn:Es;
      cbn in Hrun; injection Hrun as <-; (split; [|reflexivity]).
    + apply ExpStage_eqb_eq in Es. intros pk e He. split.
      * intros [Hin|[]] Hstage. injection Hin as ->.
        rewrite E1 in He. injection He as <-.
        destruct (stage_after r) as [s|] eqn:Er; [|contradiction].
        exists s. split; [reflexivity|].
        split; [exact (stage_after_not_expiring _ _ Er)|].
        cbn [trace db_expiration now].
        split.
        -- rewrite lookup_insert_eq. destruct r; cbn in Er; congruence.
        -- rewrite count_saves_app. unfold count_saves at 2. cbn.
           rewrite N.eqb_refl. cbn. lia.
      * intros Hnot. cbn [trace db_expiration now].
        assert (Hne : pk1 <> pk).
        { intros ->. apply Hnot. rewrite E1 in He. injection He as <-.
          split; [left; reflexivity | exact Es]. }
        rewrite lookup_insert_ne by exact Hne. split; [exact He|].
        rewrite count_saves_app. unfold count_saves at 2. cbn.
        destruct (N.eqb_spec pk pk1) as [->|_]; [congruence|]. cbn. lia.
    + intros pk e He. split.
      * intros [Hin|[]] Hstage. injection Hin as ->.
        rewrite E1 in He. injection He as <-.
        apply ExpStage_eqb_eq in Hstage. congruence.
      * intros _. split; [exact He | reflexivity].
  - injection Hrun as <-. split; [|reflexivity].
    intros pk e He. split.
    + intros [Hin|[]]. discriminate Hin.
    + intros _. split; [exact He | reflexivity].
Qed.

(** Two runs of bookkeeping, one after the other. *)
Lemma advanced_once_app (l1 l2 : list (option N)) (r : WorkflowResult)
    (w w1 w2 : World) :
  advanced_once l1 r w w1 -> now w1 = now w -> advanced_once l2 r w1 w2 ->
  advanced_once (l1 ++ l2) r w w2.
Proof.
  intros H1 Hnow H2 pk e He.
  destruct (H1 pk e He) as [A1 B1].
  assert (Hdec : (In (Some pk) l1 /\ Expiration.stage e = EXP_EXPIRING) \/
                 ~ (In (Some pk) l1 /\ Expiration.stage e = EXP_EXPIRING)).
  { destruct (in_dec (option_eq_dec (A := N)) (Some pk) l1) as [Hin|Hnin];
      [|right; tauto].
    destruct (ExpStage_eqb (Expiration.stage e) EXP_EXPIRING) eqn:Es.
    - left. split; [exact Hin | apply ExpStage_eqb_eq; exact Es].
    - right. intros [_ Hs]. apply ExpStage_eqb_eq in Hs. congruence. }
  destruct Hdec as [[Hin Hs]|Hno].
  - destruct (A1 Hin Hs) as (s & Er & Hne & Hrow & Hcount).
    destruct (H2 pk _ Hrow) as [_ B2].
    destruct B2 as [Hrow2 Hcount2]; [cbn; tauto|].
    split.
    + intros _ _. exists s. repeat split; try assumption. congruence.
    + intros Hnot. exfalso. apply Hnot. split; [|exact Hs].
      apply List.in_or_app. left. exact Hin.
  - destruct (B1 Hno) as [Hrow Hcount].
    destruct (H2 pk e Hrow) as [A2 B2].
    split.
    + intros Hin Hs. apply List.in_app_or in Hin.
      destruct Hin as [Hin|Hin]; [tauto|].
      destruct (A2 Hin Hs) as (s & Er & Hne & Hrow2 & Hcount2).
      exists s. rewrite Hnow in Hrow2. repeat split; try assumption. congruence.
    + intros Hnot. destruct B2 as [Hrow2 Hcount2].
      { intros [Hin Hs]. apply Hnot. split; [|exact Hs].
        apply List.in_or_app. right. exact Hin. }
      split; congruence.
Qed.

(** The loop, by induction on the links it visits. *)
Lemma for_each_expiration_advances (r : WorkflowResult)
    (links : list (option N)) :
  stage_after r <> None ->
  forall w w',
    for_each links (DeleteVM.end_delete_expiration r) w = (Returns tt, w') ->
    advanced_once links r w w' /\ now w' = now w.
Proof.
  intros Hterminal. induction links as [|link links IH]; intros w w' Hrun.
  - cbn in Hrun. injection Hrun as <-. split; [|reflexivity].
    intros pk e He. split; [intros []|]. intros _. split; [exact He|reflexivity].
  - cbn in Hrun. unfold bind in Hrun.
    destruct (DeleteVM.end_delete_expiration r link w) as [[[]|ex] w1] eqn:E1;
      [|discriminate Hrun].
    destruct (end_delete_expiration_advances _ _ _ _ E1 Hterminal) as [H1 Hn1].
    destruct (IH _ _ Hrun) as [H2 Hn2].
    split; [|congruence].
    exact (advanced_once_app [link] links r w w1 w' H1 Hn1 H2).
Qed.

Lemma end_delete_advances (volume : Volume.t) (r r' : WorkflowResult)
    (w w' : World) :
  DeleteVM._end_delete volume r w = (Returns r', w') ->
  r' = r /\
  (stage_after r <> None -> advanced_once (volume_links volume) r w w').
Proof.
  unfold DeleteVM._end_delete, bind. intros Hrun.
  destruct (for_each _ (DeleteVM.end_delete_expiration r) w)
    as [[[]|ex] w1] eqn:E; [|discriminate Hrun].
  cbn in Hrun. injection Hrun as <- <-. split; [reflexivity|].
  intros Hterminal.
  exact (proj1 (for_each_expiration_advances r _ Hterminal _ _ E)).
Qed.

(** What precedes the finalization in a step leaves the Expiration table
    and the count of saves as they are. *)
Lemma advanced_once_after (links : list (option N)) (r : WorkflowResult)
    (w w0 w' : World) :
  advanced_once links r w0 w' ->
  db_expiration w0 = db_expiration w -> now w0 = now w ->
  (forall pk, count_saves pk (trace w0) = count_saves pk (trace w)) ->
  advanced_once links r w w'.
Proof.
  intros H Hdb Hnow Hcount pk e He. rewrite <- Hdb in He.
  destruct (H pk e He) as [A B]. rewrite Hnow, Hcount in A. rewrite Hcount in B.
  split; assumption.
Qed.

(** Case analysis on the answers of the connector and of the database in a
    hypothesis that runs a step. *)
Ltac step_cases H :=
  repeat (cbn in H;
    match type of H with
    | context [match is_server_created ?c ?x with _ => _ end] =>
        destruct (is_server_created c x) as [[[|]|]|?]
    | context [match get_server_status ?c ?x with _ => _ end] =>
        destruct (get_server_status c x) as [?|?]
    | context [match stop_server ?c ?x with _ => _ end] =>
        destruct (stop_server c x) as [?|?]
    | context [match is_volume_created ?c ?x with _ => _ end] =>
        destruct (is_volume_created c x) as [[[|]|]|?]
    | context [match is_backup_created ?c ?x with _ => _ end] =>
        destruct (is_backup_created c x) as [[[|]|]|?]
    | context [match get_volume_status ?c ?x with _ => _ end] =>
        destruct (get_volume_status c x) as [?|?]
    | context [match get_backup_status ?c ?x with _ => _ end] =>
        destruct (get_backup_status c x) as [?|?]
    | context [match delete_volume ?c ?x with _ => _ end] =>
        destruct (delete_volume c x) as [[[|]|]|?]
    | context [match create_volume_backup ?c ?x ?n with _ => _ end] =>
        destruct (create_volume_backup c x n) as [?|?]
    | context [set_backup_expires ?m ?t ?v ?w] =>
        destruct (set_backup_expires m t v w) as [? ?] eqn:?
    | context [match get_vm_status_by_volume ?m ?w ?v ?f with _ => _ end] =>
        destruct (get_vm_status_by_volume m w v f)
    | context [VolumeStatus.eqb ?a ?b] =>
        destruct (VolumeStatus.eqb a b) eqn:?
    | context [ServerStatus.eqb ?a ?b] =>
        destruct (ServerStatus.eqb a b) eqn:?
    | context [is_CloudConnectorError ?e] =>
        destruct (is_CloudConnectorError e)
    | context [Z.ltb ?a ?b] => destruct (Z.ltb a b)
    | context [match Instance.guac_connection ?i with _ => _ end] =>
        destruct (Instance.guac_connection i)
    end); cbn in H.

Ltac count_saves_same :=
  intros ?; unfold count_saves; cbn [trace];
  rewrite ?List.filter_app, ?length_app; cbn; lia.

(** A leaf of the case analysis: the step has ended in [_end_delete], in a
    scheduled continuation, or in an exception. *)
Ltac finalize_leaf H :=
  match type of H with
  | DeleteVM._end_delete ?v ?r0 ?W = (Returns ?r, ?w') =>
      let Hr := fresh "Hr" in
      let Hadv := fresh "Hadv" in
      destruct (end_delete_advances v r0 r W w' H) as [Hr Hadv];
      subst r;
      first
        [ congruence
        | apply (advanced_once_after _ _ _ W);
          [ apply Hadv; discriminate | reflexivity | reflexivity
          | count_saves_same ] ]
  | _ => first [ discriminate H | injection H as <- <-; congruence ]
  end.

(** [delete_vm_worker] does no bookkeeping of expirations at all. *)
Lemma delete_vm_worker_leaves_expirations (C : Constants)
    (cloud : CloudConnector) (instance : Instance.t) (archive : bool)
    (w : World) :
  let w' := snd (DeleteVM.delete_vm_worker C cloud instance archive w) in
  db_expiration w' = db_expiration w /\
  forall pk, count_saves pk (trace w') = count_saves pk (trace w).
Proof.
  destruct (DeleteVM.delete_vm_worker C cloud instance archive w)
    as [o w'] eqn:Hrun. cbn.
  unfold DeleteVM.delete_vm_worker, Instance_error, bind, cloud_call,
    datetime_now, Instance_save, GuacamoleConnection_delete_for, log,
    enqueue_in, ret, emit in Hrun.
  step_cases Hrun; injection Hrun as <- <-; cbn;
    (split; [reflexivity | count_saves_same]).
Qed.

(** C2, amended.  The finalization step [_end_delete], given a terminal
    result (SUCCESS, FAIL or RETRY) and a volume whose links are intact,
    returns that result and saves each Expiration row that the volume
    points to (its expiration and its backup expiration) exactly once if
    the row was EXP_EXPIRING, with the stage of the result, and not at all
    otherwise.  Every terminal result of [_wait_until_volume_is_deleted],
    of [_wait_until_backup_is_deleted] and of [archive_volume_worker], and
    every failure result of [wait_for_backup], is returned through that
    step, with that effect on the run's world.  The entry point
    [delete_vm_worker] never goes through it: whatever it returns, no
    Expiration row is saved or changed. *)
Theorem expiration_advanced_once_by_end_delete :
  forall (C : Constants) (cloud : CloudConnector) (cenv : CloudEnvironment)
         (models : Models) (str_of_id : UUID -> string),
    (forall volume r w,
        stage_after r <> None ->
        expirations_linked volume (db_expiration w) ->
        exists w',
          DeleteVM._end_delete volume r w = (Returns r, w') /\
          advanced_once (volume_links volume) r w w') /\
    (forall volume retries w r w',
        DeleteVM._wait_until_volume_is_deleted C cloud volume retries w
          = (Returns r, w') ->
        r <> WF_CONTINUE ->
        advanced_once (volume_links volume) r w w') /\
    (forall volume retries w r w',
        DeleteVM._wait_until_backup_is_deleted C cloud volume retries w
          = (Returns r, w') ->
        r <> WF_CONTINUE ->
        advanced_once (volume_links volume) r w w') /\
    (forall volume requesting_feature w r w',
        DeleteVM.archive_volume_worker C cloud cenv models str_of_id
          volume requesting_feature w = (Returns r, w') ->
        r <> WF_CONTINUE ->
        advanced_once (volume_links volume) r w w') /\
    (forall volume backup_id deadline w r w',
        DeleteVM.wait_for_backup C cloud models volume backup_id deadline w
          = (Returns r, w') ->
        r <> WF_CONTINUE -> r <> WF_SUCCESS ->
        advanced_once (volume_links volume) r w w') /\
    (forall instance archive w o w',
        DeleteVM.delete_vm_worker C cloud instance archive w = (o, w') ->
        db_expiration w' = db_expiration w /\
        forall pk, count_saves pk (trace w') = count_saves pk (trace w)).
Proof.
  intros C cloud cenv models str_of_id.
  split; [|split; [|split; [|split; [|split]]]].
  - intros volume r w Hterminal Hlinked.
    destruct (end_delete_returns volume r w Hlinked) as [w' E].
    exists w'. split; [exact E|].
    exact (proj2 (end_delete_advances _ _ _ _ _ E) Hterminal).
  - intros volume retries w r w' Hrun Hr.
    unfold DeleteVM._wait_until_volume_is_deleted, bind, cloud_call, log,
      Volume_error, Volume_save, datetime_now, enqueue_in, ret, emit in Hrun.
    step_cases Hrun; finalize_leaf Hrun.
  - intros volume retries w r w' Hrun Hr.
    unfold DeleteVM._wait_until_backup_is_deleted, bind, cloud_call, log,
      Volume_error, Volume_save, datetime_now, enqueue_in, ret, emit in Hrun.
    step_cases Hrun; finalize_leaf Hrun.
  - intros volume feature w r w' Hrun Hr.
    unfold DeleteVM.archive_volume_worker, bind, cloud_call, datetime_now,
      Volume_save, Volume_error, log, catching, try_except, enqueue_in, query,
      VMStatus_save, ret, emit in Hrun.
    step_cases Hrun; finalize_leaf Hrun.
  - intros volume backup_id deadline w r w' Hrun Hr Hs.
    unfold DeleteVM.wait_for_backup, DeleteVM.delete_volume, bind, cloud_call,
      datetime_now, Volume_save, log, enqueue_in, raise, ret, emit in Hrun.
    step_cases Hrun; try destruct deadline; step_cases Hrun; finalize_leaf Hrun.
  - intros instance archive w o w' Hrun.
    pose proof (delete_vm_worker_leaves_expirations C cloud instance archive w)
      as H.
    rewrite Hrun in H. exact H.
Qed.

Lemma expiration_advanced_once_by_end_delete_witness :
  let cloud := Fake.cloud (Some false) ServerStatus.UNKNOWN (Some true)
                 (Some false) VolumeStatus.UNKNOWN (Some true) None in
  (exists w',
      DeleteVM._end_delete Fake.volume WF_FAIL Fake.world
        = (Returns WF_FAIL, w') /\
      db_expiration w' !! 7%N
        = Some (Expiration.mk EXP_EXPIRY_FAILED (Some 1000)) /\
      count_saves 7 (trace w') = 1%nat) /\
  (exists w',
      DeleteVM._wait_until_volume_is_deleted Fake.constants cloud Fake.volume
        5 Fake.world = (Returns WF_SUCCESS, w') /\
      db_expiration w' !! 7%N
        = Some (Expiration.mk EXP_EXPIRY_COMPLETED (Some 1000)) /\
      count_saves 7 (trace w') = 1%nat).
Proof.
  intros cloud.
  destruct (expiration_advanced_once_by_end_delete Fake.constants cloud
              Nectar (Fake.models true None) Fake.str_of_id)
    as (Hend & Hvol & _).
  split.
  - destruct (Hend Fake.volume WF_FAIL Fake.world ltac:(discriminate)
                Fake_volume_linked) as (w' & E & Hadv).
    exists w'. split; [exact E|].
    destruct (Hadv 7%N _ (lookup_singleton_eq _ _)) as [A _].
    destruct (A (or_introl eq_refl) eq_refl) as (s & Es & _ & Hrow & Hcount).
    injection Es as <-. split; [exact Hrow | exact Hcount].
  - destruct (DeleteVM._wait_until_volume_is_deleted Fake.constants cloud
                Fake.volume 5 Fake.world) as [o w'] eqn:E.
    assert (Ho : o = Returns WF_SUCCESS).
    { change o with (fst (o, w')). rewrite <- E. reflexivity. }
    subst o. exists w'. split; [reflexivity|].
    pose proof (Hvol Fake.volume 5 Fake.world WF_SUCCESS w' E
                  ltac:(discriminate)) as Hadv.
    destruct (Hadv 7%N _ (lookup_singleton_eq _ _)) as [A _].
    destruct (A (or_introl eq_refl) eq_refl) as (s & Es & _ & Hrow & Hcount).
    injection Es as <-. split; [exact Hrow | exact Hcount].
Defined.

(** C2 as stated fails: a delete run that ends at once with the terminal
    result RETRY (the server is in an unexpected state) while the
    expiration of the instance's volume is EXP_EXPIRING; the expiration is
    not advanced. *)
Lemma delete_vm_worker_retry_does_not_advance_expiration :
  let cloud := Fake.cloud (Some true) ServerStatus.PAUSED (Some true)
                 (Some true) VolumeStatus.AVAILABLE (Some true) None in
  let ran := DeleteVM.delete_vm_worker Fake.constants cloud Fake.instance
               false Fake.world in
  fst ran = Returns WF_RETRY /\
  db_volume Fake.world !! Instance.boot_volume Fake.instance
    = Some Fake.volume /\
  Volume.expiration Fake.volume = Some 7%N /\
  db_expiration Fake.world !! 7%N = Some (Expiration.mk EXP_EXPIRING None) /\
  db_expiration (snd ran) !! 7%N = Some (Expiration.mk EXP_EXPIRING None) /\
  count_saves 7 (trace (snd ran)) = 0%nat /\
  ~ advanced_once (volume_links Fake.volume) WF_RETRY Fake.world (snd ran).
Proof.
  intros cloud ran.
  destruct (delete_vm_worker_leaves_expirations Fake.constants cloud
              Fake.instance false Fake.world) as [Hdb Hcount].
  fold ran in Hdb, Hcount.
  assert (Hrow : db_expiration (snd ran) !! 7%N
                 = Some (Expiration.mk EXP_EXPIRING None)).
  { rewrite Hdb. apply lookup_singleton_eq. }
  split; [reflexivity|].
  split; [apply lookup_singleton_eq|].
  split; [reflexivity|].
  split; [apply lookup_singleton_eq|].
  split; [exact Hrow|].
  split; [rewrite Hcount; reflexivity|].
  intros Hadv.
  destruct (Hadv 7%N _ (lookup_singleton_eq _ _)) as [A _].
  destruct (A (or_introl eq_refl) eq_refl) as (s & _ & Hne & Hrow' & _).
  rewrite Hrow in Hrow'. injection Hrow' as <-. apply Hne. reflexivity.
Qed.

(** ** Unknown and absent *)


(** Whatever happens in [archive_volume_worker], the Volume row has been
    saved as marked for deletion. *)
Lemma archive_volume_worker_leaves_the_mark (C : Constants)
    (cloud : CloudConnector) (cenv : CloudEnvironment) (models : Models)
    (str_of_id : UUID -> string) (volume : Volume.t) (feature : N) (w : World) :
  exists volume',
    db_volume
      (snd (DeleteVM.archive_volume_worker C cloud cenv models str_of_id
              volume feature w))
      !! Volume.id volume = Some volume' /\
    Volume.marked_for_deletion volume' = Some (now w).
Proof.
  destruct (DeleteVM.archive_volume_worker C cloud cenv models str_of_id
              volume feature w) as [o w'] eqn:H. cbn [snd].
  unfold DeleteVM.archive_volume_worker, bind, cloud_call, datetime_now,
    Volume_save, Volume_error, log, catching, try_except, enqueue_in, query,
    VMStatus_save, ret, emit in H.
  step_cases H;
    match type of H with
    | DeleteVM._end_delete ?v ?r ?W = _ =>
        destruct (end_delete_frame v r W)
          as (o1 & w1 & evs & E & Hv & _);
        rewrite E in H; injection H as <- <-; rewrite Hv; cbn -[lookup insert]
    | _ => injection H as <- <-; cbn -[lookup insert]
    end;
    eexists; (split; [rewrite lookup_insert_eq; reflexivity|]); reflexivity.
Qed.

Lemma count_calls_app (m : Method) (tr tr' : list Event) :
  count_calls m (tr ++ tr') = (count_calls m tr + count_calls m tr')%nat.
Proof. unfold count_calls. rewrite List.filter_app, length_app. reflexivity. Qed.

Lemma count_calls_expiration_saves (m : Method) (evs : list Event) :
  Forall is_expiration_save evs -> count_calls m evs = 0%nat.
Proof.
  induction 1 as [|ev evs Hev _ IH]; [reflexivity|].
  unfold count_calls in *. cbn. destruct ev; cbn in *; try contradiction.
  exact IH.
Qed.





(** * Further properties *)

(** ** The status mapper and the answers of the OpenStack connector *)

Lemma dict_get_Some_In {T : Type} (d : list (PyKey * T)) (key : PyKey) (v : T) :
  dict_get d key = Some v -> exists k, In (k, v) d /\ py_eq k key = true.
Proof.
  induction d as [|[k' v'] d IH]; cbn; [discriminate|].
  destruct (py_eq k' key) eqn:E.
  - intros H. injection H as <-. exists k'. split; [left; reflexivity | exact E].
  - intros H. destruct (IH H) as (k & Hin & Hk). exists k. split; [right|]; assumption.
Qed.

(** X1.  What [StatusMapper.get_status] returns is the default value or
    a value of the table, stored under a key that equals the status asked
    for, and truthy; and when the table has no truthy value under such a
    key, it returns the default value. *)
Theorem get_status_is_default_or_truthy_entry :
  forall (T : Type) (truthy : T -> bool) (self : StatusMapper.t T)
         (status : PyKey),
    (StatusMapper.get_status truthy self status
       = StatusMapper._default_value self \/
     exists k,
       In (k, StatusMapper.get_status truthy self status)
          (StatusMapper._status_mapping self) /\
       py_eq k status = true /\
       truthy (StatusMapper.get_status truthy self status) = true) /\
    ((forall k v, In (k, v) (StatusMapper._status_mapping self) ->
                  py_eq k status = false \/ truthy v = false) ->
     StatusMapper.get_status truthy self status
       = StatusMapper._default_value self).
Proof.
  intros T truthy self status.
  unfold StatusMapper.get_status, StatusMapper._get_mapped_status,
    StatusMapper._get_default_value.
  destruct (dict_get (StatusMapper._status_mapping self) status) as [v|] eqn:E.
  - destruct (dict_get_Some_In _ _ _ E) as (k & Hin & Hk).
    destruct (truthy v) eqn:Ev.
    + split.
      * right. exists k. repeat split; assumption.
      * intros H. destruct (H k v Hin) as [H'|H']; congruence.
    + split; [left; reflexivity | intros _; reflexivity].
  - split; [left; reflexivity | intros _; reflexivity].
Qed.

(** X2.  Looked up with the members of the provider's enums themselves,
    the two OpenStack status tables translate by name: every member of
    [OpenStackServerStatus] is mapped to the member of [ServerStatus] that
    carries its name, no member of [OpenStackVolumeStatus] is mapped to
    UNKNOWN, and no two members are mapped to the same status. *)
Theorem status_tables_by_member :
  (forall m : OpenStackServerStatus.t,
      exists s,
        StatusMapper.get_status enum_truthy OpenStack.OS_SERVER_STATUS_MAPPER
          (KServer m) = s /\
        ServerStatus_str s = "ServerStatus." +:+ OpenStackServerStatus.value m) /\
  (forall m m' : OpenStackServerStatus.t,
      StatusMapper.get_status enum_truthy OpenStack.OS_SERVER_STATUS_MAPPER
        (KServer m)
      = StatusMapper.get_status enum_truthy OpenStack.OS_SERVER_STATUS_MAPPER
          (KServer m') -> m = m') /\
  (forall m : OpenStackVolumeStatus.t,
      StatusMapper.get_status enum_truthy OpenStack.OS_VOLUME_STATUS_MAPPER
        (KVolume m) <> VolumeStatus.UNKNOWN) /\
  (forall m m' : OpenStackVolumeStatus.t,
      StatusMapper.get_status enum_truthy OpenStack.OS_VOLUME_STATUS_MAPPER
        (KVolume m)
      = StatusMapper.get_status enum_truthy OpenStack.OS_VOLUME_STATUS_MAPPER
          (KVolume m') -> m = m').
Proof.
  repeat split.
  - intros m. eexists. split; [reflexivity|]. destruct m; reflexivity.
  - intros m m'. destruct m, m'; cbn; intros H; try reflexivity; discriminate H.
  - intros m. destruct m; cbn; discriminate.
  - intros m m'. destruct m, m'; cbn; intros H; try reflexivity; discriminate H.
Qed.

(** X3.  The OpenStack connector never answers [False] to a request to
    delete a server; a server that its existence check reports absent is
    one whose deletion it reports done; the existence check answers [False]
    exactly when the compute client's [get] raises [NotFound]; and neither
    method lets an exception of the compute client's [ClientException]
    family through. *)
Theorem openstack_server_answers :
  forall (nova : OpenStack.NovaClient) (server : Server),
    OpenStack.delete_server nova server <> Returns (Some false) /\
    (OpenStack.is_server_created nova server = Returns (Some false) ->
     OpenStack.delete_server nova server = Returns (Some true)) /\
    (OpenStack.is_server_created nova server = Returns (Some false) <->
     OpenStack.servers_get nova (id server) = Raises NovaNotFound) /\
    (forall e, OpenStack.is_server_created nova server = Raises e ->
               is_nova_ClientException e = false) /\
    (forall e, OpenStack.delete_server nova server = Raises e ->
               is_nova_ClientException e = false).
Proof.
  intros nova server.
  unfold OpenStack.delete_server, OpenStack.is_server_created,
    OpenStack._get_nova_server.
  destruct (OpenStack.servers_get nova (id server)) as [ns|e] eqn:Eget.
  - destruct (OpenStack.servers_delete nova ns) as [[]|e] eqn:Edel.
    + repeat split; try discriminate; intros; discriminate.
    + destruct e; cbn; repeat split; try discriminate; intros; try discriminate;
        match goal with H : Raises _ = Raises _ |- _ =>
          injection H as <-; reflexivity end.
  - destruct e; cbn; repeat split; try discriminate; intros; try discriminate;
      try reflexivity;
      match goal with H : Raises _ = Raises _ |- _ =>
        injection H as <-; reflexivity end.
Qed.

(** X4.  The same for volumes: [delete_volume] never answers [False]
    (its last handler falls off the end and yields [None]); a volume that
    [is_volume_created] reports absent is one whose deletion is reported
    done; [is_volume_created] answers [None] exactly when the volume
    client's [get] raises a [ClientException] other than [NotFound]; and
    [delete_volume] lets no exception of that family through. *)
Theorem openstack_volume_answers :
  forall (cinder : OpenStack.CinderClient) (volume : CloudVolume),
    OpenStack.delete_volume cinder volume <> Returns (Some false) /\
    (OpenStack.is_volume_created cinder volume = Returns (Some false) ->
     OpenStack.delete_volume cinder volume = Returns (Some true)) /\
    (OpenStack.is_volume_created cinder volume = Returns None <->
     OpenStack.volumes_get cinder (id volume) = Raises CinderClientException) /\
    (forall e, OpenStack.delete_volume cinder volume = Raises e ->
               is_cinder_ClientException e = false).
Proof.
  intros cinder volume.
  unfold OpenStack.delete_volume, OpenStack.is_volume_created,
    OpenStack._get_cinder_volume.
  destruct (OpenStack.volumes_get cinder (id volume)) as [cv|e] eqn:Eget.
  - destruct (OpenStack.volumes_delete cinder cv) as [[]|e] eqn:Edel.
    + repeat split; try discriminate; intros; discriminate.
    + destruct e; cbn; repeat split; try discriminate; intros; try discriminate;
        match goal with H : Raises _ = Raises _ |- _ =>
          injection H as <-; reflexivity end.
  - destruct e; cbn; repeat split; try discriminate; intros; try discriminate;
      try reflexivity;
      match goal with H : Raises _ = Raises _ |- _ =>
        injection H as <-; reflexivity end.
Qed.

(** ** The workflows over the OpenStack connector *)

(** Whatever status word the compute client reports, the connector's
    answer is UNKNOWN: the mapper looks the word up in a table whose keys
    are enum members. *)
Lemma openstack_server_status_UNKNOWN (nova : OpenStack.NovaClient)
    (server : Server) (nova_server : OpenStack.NovaServer) :
  OpenStack.servers_get nova (id server) = Returns nova_server ->
  OpenStack.get_server_status nova server = Returns ServerStatus.UNKNOWN.
Proof.
  intros Hget.
  unfold OpenStack.get_server_status, OpenStack._get_nova_server.
  rewrite Hget. unfold StatusMapper.get_status, StatusMapper._get_mapped_status.
  simpl StatusMapper._status_mapping.
  rewrite (dict_get_str_enum_keyed _ _ server_mapping_enum_keyed). reflexivity.
Qed.

Lemma openstack_volume_status_UNKNOWN (cinder : OpenStack.CinderClient)
    (volume : CloudVolume) (cinder_volume : OpenStack.CinderVolume) :
  OpenStack.volumes_get cinder (id volume) = Returns cinder_volume ->
  OpenStack.get_volume_status cinder volume = Returns VolumeStatus.UNKNOWN.
Proof.
  intros Hget.
  unfold OpenStack.get_volume_status, OpenStack._get_cinder_volume.
  rewrite Hget. unfold StatusMapper.get_status, StatusMapper._get_mapped_status.
  simpl StatusMapper._status_mapping.
  rewrite (dict_get_str_enum_keyed _ _ volume_mapping_enum_keyed). reflexivity.
Qed.

Lemma FakeRun_openstack_is_instance :
  OpenStackConnector.is_instance OpenStackConnector.OpenStackVncServer
    FakeRun.nova FakeRun.cinder FakeRun.openstack.
Proof. repeat split. Qed.

(** X5.  With an instance of the OpenStack connector for the remote end,
    [delete_vm_worker] never gets a server that exists on its way: whatever
    status the compute client reports for it, the connector's answer is
    UNKNOWN, so the worker takes the branch of the unexpected state, returns
    WF_RETRY, schedules no next step and never asks for the server to be
    stopped. *)
Theorem delete_vm_worker_over_openstack_never_proceeds :
  forall (C : Constants) (cls : OpenStackConnector.Class)
         (nova : OpenStack.NovaClient) (cinder : OpenStack.CinderClient)
         (cloud : CloudConnector) (instance : Instance.t) (archive : bool)
         (w : World) (nova_server : OpenStack.NovaServer),
    OpenStackConnector.is_instance cls nova cinder cloud ->
    OpenStack.servers_get nova (Instance.id instance) = Returns nova_server ->
    exists w',
      DeleteVM.delete_vm_worker C cloud instance archive w
        = (Returns WF_RETRY, w') /\
      scheduled w' = scheduled w /\
      count_calls m_stop_server (trace w')
        = count_calls m_stop_server (trace w).
Proof.
  intros C cls nova cinder cloud instance archive w ns
    (Hexist & Hstatus & _) Hget.
  unfold DeleteVM.delete_vm_worker, Instance_error, bind, cloud_call,
    datetime_now, Instance_save, GuacamoleConnection_delete_for, log,
    enqueue_in, ret, emit.
  rewrite Hexist, Hstatus.
  destruct (Instance.guac_connection instance); cbn -[lookup];
    unfold OpenStack.is_server_created, OpenStack._get_nova_server;
    cbn -[lookup]; rewrite Hget; cbn -[lookup];
    rewrite (openstack_server_status_UNKNOWN nova
               (Object_of_id (Instance.id instance)) ns Hget);
    cbn -[lookup];
    (eexists; split; [reflexivity|]; split; [reflexivity|]; cbn [trace];
     rewrite !count_calls_app; cbn; lia).
Qed.

Lemma delete_vm_worker_over_openstack_never_proceeds_witness :
  fst (DeleteVM.delete_vm_worker Fake.constants FakeRun.openstack
         Fake.instance false Fake.world)
  = Returns WF_RETRY.
Proof.
  destruct (delete_vm_worker_over_openstack_never_proceeds Fake.constants
              OpenStackConnector.OpenStackVncServer FakeRun.nova
              FakeRun.cinder FakeRun.openstack Fake.instance false Fake.world
              (OpenStack.mkNovaServer Fake.uuid2 "SHUTOFF" 9%N "fake_nova_zone")
              FakeRun_openstack_is_instance eq_refl) as (w' & E & _).
  rewrite E. reflexivity.
Defined.

(** X6.  With an instance of the OpenStack connector, the steps that ask
    for the status of a volume that exists get UNKNOWN for it, whatever the
    volume client reports.  So [archive_volume_worker] returns WF_RETRY
    without asking for a backup; [_wait_until_volume_is_deleted] returns
    WF_RETRY, whatever retries are left, without enqueuing another poll; and
    [_create_volume] returns [None] for a user's existing volume without
    looking at its zone. *)
Theorem volume_steps_over_openstack_never_proceed :
  forall (C : Constants) (cenv : CloudEnvironment) (models : Models)
         (str_of_id : UUID -> string) (int_of_str : string -> option Z)
         (cls : OpenStackConnector.Class) (nova : OpenStack.NovaClient)
         (cinder : OpenStack.CinderClient) (cloud : CloudConnector)
         (volume : Volume.t) (cinder_volume : OpenStack.CinderVolume),
    OpenStackConnector.is_instance cls nova cinder cloud ->
    OpenStack.volumes_get cinder (Volume.id volume) = Returns cinder_volume ->
    (forall requesting_feature w,
        expirations_linked volume (db_expiration w) ->
        exists w',
          DeleteVM.archive_volume_worker C cloud cenv models str_of_id volume
            requesting_feature w = (Returns WF_RETRY, w') /\
          scheduled w' = scheduled w /\
          count_calls m_create_volume_backup (trace w')
            = count_calls m_create_volume_backup (trace w)) /\
    (forall retries w,
        expirations_linked volume (db_expiration w) ->
        exists w',
          DeleteVM._wait_until_volume_is_deleted C cloud volume retries w
            = (Returns WF_RETRY, w') /\
          scheduled w' = scheduled w) /\
    (forall user desktop_type zone w,
        get_volume models w user desktop_type = Some volume ->
        exists w',
          CreateVM._create_volume cloud models int_of_str user desktop_type
            zone w = (Returns None, w') /\
          count_calls m_get_volume_zone (trace w')
            = count_calls m_get_volume_zone (trace w)).
Proof.
  intros C cenv models str_of_id int_of_str cls nova cinder cloud volume cv
    (_ & _ & _ & _ & Hexist & Hstatus & _) Hget.
  assert (Hex : OpenStack.is_volume_created cinder
                  (Object_of_id (Volume.id volume)) = Returns (Some true)).
  { unfold OpenStack.is_volume_created, OpenStack._get_cinder_volume.
    cbn. rewrite Hget. reflexivity. }
  pose proof (openstack_volume_status_UNKNOWN cinder
                (Object_of_id (Volume.id volume)) cv Hget) as Hst.
  split; [|split].
  - intros feature w Hlinked.
    unfold DeleteVM.archive_volume_worker, bind, cloud_call, datetime_now,
      Volume_save, log, ret, emit.
    rewrite Hexist, Hstatus. cbn -[lookup]. rewrite Hex. cbn -[lookup].
    rewrite Hst. cbn -[lookup].
    match goal with
    | |- context [DeleteVM._end_delete ?v ?r ?W] =>
        destruct (end_delete_frame v r W)
          as (o & w' & evs & E & _ & _ & _ & Hs & _ & Ht & Hevs);
        destruct (end_delete_returns v r W Hlinked) as (w'' & E')
    end.
    rewrite E in E'. injection E' as -> <-. rewrite E.
    exists w'. split; [reflexivity|]. split; [exact Hs|].
    rewrite Ht. cbn [trace]. rewrite !count_calls_app.
    rewrite (count_calls_expiration_saves _ _ Hevs). cbn. lia.
  - intros retries w Hlinked.
    unfold DeleteVM._wait_until_volume_is_deleted, bind, cloud_call, log, ret,
      emit.
    rewrite Hexist, Hstatus, Hex. cbn -[lookup]. rewrite Hst. cbn -[lookup].
    match goal with
    | |- context [DeleteVM._end_delete ?v ?r ?W] =>
        destruct (end_delete_frame v r W)
          as (o & w' & evs & E & _ & _ & _ & Hs & _);
        destruct (end_delete_returns v r W Hlinked) as (w'' & E')
    end.
    rewrite E in E'. injection E' as -> <-. rewrite E.
    exists w'. split; [reflexivity | exact Hs].
  - intros user desktop_type zone w Hvol.
    unfold CreateVM._create_volume, bind, cloud_call, query, Volume_error,
      Volume_save, log, ret, emit.
    rewrite Hvol. cbn -[lookup]. rewrite Hexist, Hstatus, Hex. cbn -[lookup].
    rewrite Hst. cbn -[lookup].
    eexists. split; [reflexivity|]. cbn [trace].
    rewrite !count_calls_app. cbn. lia.
Qed.

Lemma volume_steps_over_openstack_never_proceed_witness :
  fst (DeleteVM._wait_until_volume_is_deleted Fake.constants FakeRun.openstack
         Fake.volume 5 Fake.world) = Returns WF_RETRY /\
  fst (CreateVM._create_volume FakeRun.openstack FakeRun.models_with_volume
         Fake.int_of_str 0%N Fake.ubuntu Fake.zone Fake.world) = Returns None.
Proof.
  destruct (volume_steps_over_openstack_never_proceed Fake.constants Nectar
              FakeRun.models_with_volume Fake.str_of_id Fake.int_of_str
              OpenStackConnector.OpenStackVncServer FakeRun.nova
              FakeRun.cinder FakeRun.openstack Fake.volume
              (OpenStack.mkCinderVolume Fake.uuid1 "available" "fake_nova_zone")
              FakeRun_openstack_is_instance eq_refl) as (_ & Hwait & Hcreate).
  split.
  - destruct (Hwait 5 Fake.world Fake_volume_linked) as (w' & E & _).
    rewrite E. reflexivity.
  - destruct (Hcreate 0%N Fake.ubuntu Fake.zone Fake.world eq_refl)
      as (w' & E & _).
    rewrite E. reflexivity.
Defined.

(** X7.  With an instance of the OpenStack connector, the two steps that
    deal with a backup cannot do their work: the methods they call,
    [delete_volume_backup] and [get_backup_status], are defined by no class
    of the connector.  [delete_backup_worker], for a volume that has a
    backup, raises [AttributeError] at that call, before anything is saved
    or scheduled; [wait_for_backup], for a backup that the volume client
    finds, raises it after the existence check; and whatever
    [wait_for_backup] returns without raising is WF_RETRY. *)
Theorem backup_steps_over_openstack_raise :
  forall (C : Constants) (models : Models) (cls : OpenStackConnector.Class)
         (nova : OpenStack.NovaClient) (cinder : OpenStack.CinderClient)
         (cloud : CloudConnector),
    OpenStackConnector.is_instance cls nova cinder cloud ->
    (forall volume backup_id w,
        Volume.backup_id volume = Some backup_id ->
        DeleteVM.delete_backup_worker C cloud volume w
        = (Raises (OpenStackConnector.no_attribute cls "delete_volume_backup"),
           emit (Ev_cloud m_delete_volume_backup (Some backup_id)) w)) /\
    (forall volume backup_id deadline w,
        OpenStack.backup_get cinder backup_id = Returns tt ->
        DeleteVM.wait_for_backup C cloud models volume backup_id deadline w
        = (Raises (OpenStackConnector.no_attribute cls "get_backup_status"),
           emit (Ev_cloud m_get_backup_status (Some backup_id))
             (emit (Ev_cloud m_is_backup_created (Some backup_id)) w))) /\
    (forall volume backup_id deadline w r w',
        DeleteVM.wait_for_backup C cloud models volume backup_id deadline w
        = (Returns r, w') ->
        r = WF_RETRY).
Proof.
  intros C models cls nova cinder cloud
    (_ & _ & _ & _ & _ & _ & _ & _ & Hexist & Hstatus & Hdelete).
  split; [|split].
  - intros volume backup_id w Hb.
    unfold DeleteVM.delete_backup_worker, bind, cloud_call.
    rewrite Hb, Hdelete. reflexivity.
  - intros volume backup_id deadline w Hget.
    unfold DeleteVM.wait_for_backup, bind, cloud_call.
    rewrite Hexist, Hstatus.
    unfold OpenStack.is_backup_created, OpenStack._get_cinder_volume_backup.
    cbn. rewrite Hget. reflexivity.
  - intros volume backup_id deadline w r w' H.
    unfold DeleteVM.wait_for_backup, bind, cloud_call, log, emit in H.
    rewrite Hexist, Hstatus in H.
    destruct (OpenStack.is_backup_created cinder (Object_of_id backup_id))
      as [[[|]|]|e]; cbn in H; try discriminate H;
      apply end_delete_advances in H; destruct H as [-> _]; reflexivity.
Qed.

Lemma backup_steps_over_openstack_raise_witness :
  fst (DeleteVM.delete_backup_worker Fake.constants FakeRun.openstack
         (Volume.set_backup_id (Some 9%N) Fake.volume) Fake.world)
  = Raises (AttributeError
              "'OpenStackVncServer' object has no attribute 'delete_volume_backup'").
Proof.
  destruct (backup_steps_over_openstack_raise Fake.constants
              (Fake.models true None) OpenStackConnector.OpenStackVncServer
              FakeRun.nova FakeRun.cinder FakeRun.openstack
              FakeRun_openstack_is_instance) as (Hdelete & _).
  rewrite (Hdelete (Volume.set_backup_id (Some 9%N) Fake.volume) 9%N
             Fake.world eq_refl).
  reflexivity.
Defined.

(** ** Polling, tick by tick *)

Lemma drain_nothing_pending (C : Constants) (cenv : CloudEnvironment)
    (str_of_id : UUID -> string) (ticks : list Scheduler.Tick) (w : World) :
  scheduled w = [] -> Scheduler.drain C cenv str_of_id ticks w = ([], w).
Proof. intros H. destruct ticks; cbn; [reflexivity|]. rewrite H. reflexivity. Qed.

(** One poll for the volume's deletion, with the volume still there and
    DELETING: with retries left the step enqueues itself again, with one
    retry less; without, it gives up. *)
Lemma wait_until_volume_is_deleted_polls (C : Constants)
    (cloud : CloudConnector) (volume : Volume.t) (retries : Z) (w : World) :
  is_volume_created cloud (Object_of_id (Volume.id volume))
    = Returns (Some true) ->
  get_volume_status cloud (Object_of_id (Volume.id volume))
    = Returns VolumeStatus.DELETING ->
  expirations_linked volume (db_expiration w) ->
  exists w',
    DeleteVM._wait_until_volume_is_deleted C cloud volume retries w
    = (Returns (if Z.ltb 0 retries then WF_CONTINUE else WF_RETRY), w') /\
    scheduled w'
    = (if Z.ltb 0 retries
       then scheduled w
              ++ [(VOLUME_DELETION_RETRY_WAIT_TIME C,
                   job_wait_until_volume_is_deleted volume (retries - 1))]
       else scheduled w)%list /\
    (Z.ltb 0 retries = true -> db_expiration w' = db_expiration w) /\
    count_calls m_is_volume_created (trace w')
    = S (count_calls m_is_volume_created (trace w)).
Proof.
  intros Hexist Hstatus Hlinked.
  unfold DeleteVM._wait_until_volume_is_deleted, bind, cloud_call, log,
    Volume_error, Volume_save, enqueue_in, ret, emit.
  rewrite Hexist. cbn. rewrite Hstatus. cbn.
  destruct (Z.ltb 0 retries); cbn.
  - eexists. split; [reflexivity|]. split; [reflexivity|].
    split; [reflexivity|].
    cbn [trace]. rewrite !count_calls_app. cbn. lia.
  - match goal with
    | |- context [DeleteVM._end_delete ?v ?r ?W] =>
        destruct (end_delete_frame v r W)
          as (o & w' & evs & E & _ & _ & _ & Hs & _ & Ht & Hevs);
        destruct (end_delete_returns v r W Hlinked) as (w'' & E')
    end.
    rewrite E in E'. injection E' as -> <-. rewrite E.
    exists w'. split; [reflexivity|]. split; [exact Hs|].
    split; [discriminate|].
    rewrite Ht. cbn [trace]. rewrite !count_calls_app. cbn.
    assert (Hz : count_calls m_is_volume_created evs = 0%nat).
    { clear -Hevs. induction Hevs as [|ev evs Hev _ IH]; [reflexivity|].
      unfold count_calls in *. cbn. destruct ev; cbn in *; try contradiction.
      exact IH. }
    rewrite Hz. lia.
Qed.

(** X8.  The poll for the deletion of a volume is bounded.  Let the job
    [_wait_until_volume_is_deleted] be pending with [n] retries, and let the
    remote end answer every poll with a volume that still exists and is
    DELETING.  Then the job runs [n + 1] times: [n] times it enqueues itself
    again and returns WF_CONTINUE, the last time it returns WF_RETRY and
    leaves the queue empty; the existence of the volume has been asked for
    [n + 1] times. *)
Theorem volume_deletion_poll_is_bounded :
  forall (C : Constants) (cenv : CloudEnvironment) (str_of_id : UUID -> string)
         (volume : Volume.t) (n : nat) (ticks : list Scheduler.Tick)
         (delay : Z) (w : World),
    scheduled w
      = [(delay, job_wait_until_volume_is_deleted volume (Z.of_nat n))] ->
    (n < length ticks)%nat ->
    Forall (fun tick =>
              is_volume_created (Scheduler.tick_cloud tick)
                (Object_of_id (Volume.id volume)) = Returns (Some true) /\
              get_volume_status (Scheduler.tick_cloud tick)
                (Object_of_id (Volume.id volume))
              = Returns VolumeStatus.DELETING) ticks ->
    expirations_linked volume (db_expiration w) ->
    exists w',
      Scheduler.drain C cenv str_of_id ticks w
      = ((repeat (Returns WF_CONTINUE) n ++ [Returns WF_RETRY])%list, w') /\
      scheduled w' = [] /\
      count_calls m_is_volume_created (trace w')
      = (count_calls m_is_volume_created (trace w) + n + 1)%nat.
Proof.
  intros C cenv str_of_id volume n.
  induction n as [|n IH]; intros ticks delay w Hq Hlen Hticks Hlinked;
    (destruct ticks as [|tick ticks]; [cbn in Hlen; lia|]);
    inversion Hticks as [|? ? [Hexist Hstatus] Hrest]; subst;
    cbn [Scheduler.drain]; rewrite Hq; cbn [Scheduler.run_job];
    match goal with
    | |- context [DeleteVM._wait_until_volume_is_deleted _ _ _ ?r _] =>
        destruct (wait_until_volume_is_deleted_polls C
                    (Scheduler.tick_cloud tick) volume r
                    (Scheduler.dequeued (Scheduler.tick_now tick) w)
                    Hexist Hstatus Hlinked)
          as (w1 & E & Hs & Hdb & Hcount)
    end;
    rewrite E.
  - cbn in Hs. cbn.
    rewrite (drain_nothing_pending _ _ _ _ _ Hs).
    exists w1. split; [reflexivity|]. split; [exact Hs|].
    unfold Scheduler.dequeued in Hcount. cbn [trace] in Hcount. lia.
  - assert (Hpos : Z.ltb 0 (Z.of_nat (S n)) = true) by (apply Z.ltb_lt; lia).
    rewrite Hpos in *. cbn in Hs.
    replace (Z.of_nat (S n) - 1) with (Z.of_nat n) in Hs by lia.
    destruct (IH ticks _ w1 Hs) as (w' & E' & Hs' & Hcount').
    + cbn in Hlen. lia.
    + exact Hrest.
    + rewrite (Hdb eq_refl). exact Hlinked.
    + rewrite E'. exists w'. split; [reflexivity|]. split; [exact Hs'|].
      unfold Scheduler.dequeued in Hcount. cbn [trace] in Hcount. lia.
Qed.

Lemma volume_deletion_poll_is_bounded_witness :
  fst (Scheduler.drain Fake.constants Nectar Fake.str_of_id
         [FakeRun.tick FakeRun.volume_deleting 1030;
          FakeRun.tick FakeRun.volume_deleting 1060;
          FakeRun.tick FakeRun.volume_deleting 1090]
         (FakeRun.pending (job_wait_until_volume_is_deleted Fake.volume 2)))
  = [Returns WF_CONTINUE; Returns WF_CONTINUE; Returns WF_RETRY].
Proof.
  destruct (volume_deletion_poll_is_bounded Fake.constants Nectar
              Fake.str_of_id Fake.volume 2
              [FakeRun.tick FakeRun.volume_deleting 1030;
               FakeRun.tick FakeRun.volume_deleting 1060;
               FakeRun.tick FakeRun.volume_deleting 1090]
              30
              (FakeRun.pending (job_wait_until_volume_is_deleted Fake.volume 2)))
    as (w' & E & _);
    [ reflexivity | cbn; lia | repeat constructor | exact Fake_volume_linked
    | rewrite E; reflexivity ].
Defined.

(** One check of the shutoff state of an instance that is not shut off. *)
Lemma check_instance_is_shutoff_polls (C : Constants) (cloud : CloudConnector)
    (models : Models) (instance : Instance.t) (retries : Z) (func : Callback)
    (func_args : bool * Z) (w : World) (boot_volume : Volume.t) :
  check_shutdown_status models instance = false ->
  db_volume w !! Instance.boot_volume instance = Some boot_volume ->
  delete_server cloud (Object_of_id (Instance.id instance))
    = Returns (Some true) ->
  exists w',
    DeleteVM._check_instance_is_shutoff_and_delete C cloud models instance
      retries func func_args w = (Returns WF_CONTINUE, w') /\
    scheduled w'
    = (scheduled w
         ++ [if Z.ltb 0 retries
             then (INSTANCE_CHECK_SHUTOFF_RETRY_WAIT_TIME C,
                   job_check_instance_is_shutoff_and_delete instance
                     (retries - 1) func func_args)
             else (INSTANCE_DELETION_RETRY_WAIT_TIME C,
                   DeleteVM.job_of func
                     (Instance.set_marked_for_deletion (Some (now w)) instance)
                     func_args)])%list /\
    db_volume w' = db_volume w /\
    count_calls m_delete_server (trace w')
    = (count_calls m_delete_server (trace w)
         + if Z.ltb 0 retries then 0 else 1)%nat.
Proof.
  intros Hshut Hbv Hdel.
  unfold DeleteVM._check_instance_is_shutoff_and_delete,
    DeleteVM.delete_instance, bind, log, enqueue_in, Instance_boot_volume,
    query, cloud_call, VMStatus_save, Instance_save, datetime_now, ret, emit.
  rewrite Hshut. cbn [negb andb].
  destruct (Z.ltb 0 retries) eqn:Hlt.
  - eexists. split; [reflexivity|]. split; [reflexivity|].
    split; [reflexivity|]. cbn [trace]. rewrite !count_calls_app. cbn. lia.
  - cbn -[lookup]. destruct (Z.leb retries 0); cbn -[lookup]; rewrite Hbv;
      cbn;
      (destruct (get_vm_status_by_instance models _ instance
                   (Volume.requesting_feature boot_volume)) as [vs|]; cbn;
       [destruct (VMState_eqb (VMStatus.status vs) VM_WAITING); cbn|]);
      rewrite Hdel; cbn;
      (eexists; split; [reflexivity|]; split; [reflexivity|];
       split; [reflexivity|];
       cbn [trace]; rewrite !count_calls_app; cbn; lia).
Qed.

(** X9.  The wait for the shutdown is bounded, and the server is deleted
    at its end even if it never shut down.  Let the job
    [_check_instance_is_shutoff_and_delete] be pending with [n] retries, for
    an instance that is never reported shut off, and let the remote end
    accept the deletion.  Then the job runs [n + 1] times, each time with
    the result WF_CONTINUE; [delete_server] is called once, in the last run,
    and what is pending at the end is the callback [func], with the instance
    marked for deletion. *)
Theorem shutoff_poll_deletes_after_last_retry :
  forall (C : Constants) (cenv : CloudEnvironment) (str_of_id : UUID -> string)
         (instance : Instance.t) (func : Callback) (func_args : bool * Z)
         (boot_volume : Volume.t) (n : nat) (ticks : list Scheduler.Tick)
         (delay : Z) (w : World),
    scheduled w
      = [(delay, job_check_instance_is_shutoff_and_delete instance
                   (Z.of_nat n) func func_args)] ->
    length ticks = S n ->
    Forall (fun tick =>
              check_shutdown_status (Scheduler.tick_models tick) instance
              = false /\
              delete_server (Scheduler.tick_cloud tick)
                (Object_of_id (Instance.id instance)) = Returns (Some true))
           ticks ->
    db_volume w !! Instance.boot_volume instance = Some boot_volume ->
    exists w' t,
      Scheduler.drain C cenv str_of_id ticks w
      = (repeat (Returns WF_CONTINUE) (S n), w') /\
      scheduled w'
      = [(INSTANCE_DELETION_RETRY_WAIT_TIME C,
          DeleteVM.job_of func
            (Instance.set_marked_for_deletion (Some t) instance) func_args)] /\
      count_calls m_delete_server (trace w')
      = S (count_calls m_delete_server (trace w)).
Proof.
  intros C cenv str_of_id instance func func_args boot_volume n.
  induction n as [|n IH]; intros ticks delay w Hq Hlen Hticks Hbv;
    (destruct ticks as [|tick ticks]; [discriminate Hlen|]);
    inversion Hticks as [|? ? [Hshut Hdel] Hrest]; subst;
    cbn [Scheduler.drain]; rewrite Hq; cbn [Scheduler.run_job];
    match goal with
    | |- context [DeleteVM._check_instance_is_shutoff_and_delete
                    _ _ _ _ ?r _ _ _] =>
        destruct (check_instance_is_shutoff_polls C
                    (Scheduler.tick_cloud tick) (Scheduler.tick_models tick)
                    instance r func func_args
                    (Scheduler.dequeued (Scheduler.tick_now tick) w)
                    boot_volume Hshut Hbv Hdel)
          as (w1 & E & Hs & Hdb & Hcount)
    end;
    rewrite E; unfold Scheduler.dequeued in Hs, Hdb, Hcount;
    cbn [scheduled trace db_volume now app] in Hs, Hdb, Hcount.
  - destruct ticks; [|discriminate Hlen]. cbn [Scheduler.drain repeat].
    change (Z.ltb 0 (Z.of_nat 0)) with false in Hs, Hcount.
    exists w1, (Scheduler.tick_now tick).
    split; [reflexivity|]. split; [exact Hs|]. cbv iota in Hcount. lia.
  - assert (Hpos : Z.ltb 0 (Z.of_nat (S n)) = true) by (apply Z.ltb_lt; lia).
    rewrite Hpos in Hs, Hcount.
    replace (Z.of_nat (S n) - 1) with (Z.of_nat n) in Hs by lia.
    destruct (IH ticks _ w1 Hs) as (w' & t & E' & Hs' & Hcount').
    + cbn in Hlen. lia.
    + exact Hrest.
    + rewrite Hdb. exact Hbv.
    + rewrite E'. exists w', t. split; [reflexivity|]. split; [exact Hs'|].
      cbv iota in Hcount. lia.
Qed.

Lemma shutoff_poll_deletes_after_last_retry_witness :
  fst (Scheduler.drain Fake.constants Nectar Fake.str_of_id
         [Scheduler.mkTick FakeRun.server_there (Fake.models false None) 1030;
          Scheduler.mkTick FakeRun.server_there (Fake.models false None) 1060]
         (FakeRun.pending
            (job_check_instance_is_shutoff_and_delete Fake.instance 1
               cb_dispose_volume_once_instance_is_deleted (false, 5))))
  = [Returns WF_CONTINUE; Returns WF_CONTINUE].
Proof.
  destruct (shutoff_poll_deletes_after_last_retry Fake.constants Nectar
              Fake.str_of_id Fake.instance
              cb_dispose_volume_once_instance_is_deleted (false, 5)
              Fake.volume 1
              [Scheduler.mkTick FakeRun.server_there (Fake.models false None)
                 1030;
               Scheduler.mkTick FakeRun.server_there (Fake.models false None)
                 1060]
              30
              (FakeRun.pending
                 (job_check_instance_is_shutoff_and_delete Fake.instance 1
                    cb_dispose_volume_once_instance_is_deleted (false, 5))))
    as (w' & t & E & _);
    [ reflexivity | reflexivity | repeat constructor | reflexivity
    | rewrite E; reflexivity ].
Defined.

(** One poll for the backup, which is still being made: before the
    deadline the step enqueues itself again, after it, it gives up. *)
Lemma wait_for_backup_polls (C : Constants) (cloud : CloudConnector)
    (models : Models) (volume : Volume.t) (backup_id : UUID)
    (deadline : datetime) (w : World) :
  is_backup_created cloud (Some backup_id) = Returns (Some true) ->
  get_backup_status cloud (Some backup_id) = Returns VolumeStatus.BACKING_UP ->
  expirations_linked volume (db_expiration w) ->
  exists w',
    DeleteVM.wait_for_backup C cloud models volume backup_id (Some deadline) w
    = (Returns (if Z.ltb deadline (now w) then WF_RETRY else WF_CONTINUE), w') /\
    scheduled w'
    = (if Z.ltb deadline (now w) then scheduled w
       else scheduled w
              ++ [(ARCHIVE_POLL_SECONDS C,
                   job_wait_for_backup volume backup_id (Some deadline))])%list /\
    (Z.ltb deadline (now w) = false -> db_expiration w' = db_expiration w) /\
    db_volume w' = db_volume w.
Proof.
  intros Hexist Hstatus Hlinked.
  unfold DeleteVM.wait_for_backup, bind, cloud_call, log, datetime_now,
    enqueue_in, ret, emit.
  rewrite Hexist. cbn. rewrite Hstatus. cbn.
  destruct (Z.ltb deadline (now w)); cbn.
  - match goal with
    | |- context [DeleteVM._end_delete ?v ?r ?W] =>
        destruct (end_delete_frame v r W)
          as (o & w' & evs & E & Hv & _ & _ & Hs & _);
        destruct (end_delete_returns v r W Hlinked) as (w'' & E')
    end.
    rewrite E in E'. injection E' as -> <-. rewrite E.
    exists w'. split; [reflexivity|]. split; [exact Hs|].
    split; [discriminate | exact Hv].
  - eexists. repeat split; reflexivity.
Qed.

(** X10.  The wait for a backup ends at its deadline.  Let the job
    [wait_for_backup] be pending with the deadline [deadline], and let the
    remote end answer every poll with a backup that exists and is
    BACKING_UP.  Every run at a time up to the deadline enqueues the job
    again and returns WF_CONTINUE; the first run at a later time returns
    WF_RETRY, leaves the queue empty and has left the Volume table as it
    was. *)
Theorem backup_poll_gives_up_after_the_deadline :
  forall (C : Constants) (cenv : CloudEnvironment) (str_of_id : UUID -> string)
         (volume : Volume.t) (backup_id : UUID) (deadline : datetime)
         (early : list Scheduler.Tick) (late : Scheduler.Tick)
         (rest : list Scheduler.Tick) (delay : Z) (w : World),
    scheduled w
      = [(delay, job_wait_for_backup volume backup_id (Some deadline))] ->
    Forall (fun tick =>
              is_backup_created (Scheduler.tick_cloud tick) (Some backup_id)
                = Returns (Some true) /\
              get_backup_status (Scheduler.tick_cloud tick) (Some backup_id)
                = Returns VolumeStatus.BACKING_UP) (early ++ [late]) ->
    Forall (fun tick => Scheduler.tick_now tick <= deadline) early ->
    deadline < Scheduler.tick_now late ->
    expirations_linked volume (db_expiration w) ->
    exists w',
      Scheduler.drain C cenv str_of_id (early ++ late :: rest) w
      = ((repeat (Returns WF_CONTINUE) (length early) ++ [Returns WF_RETRY])%list,
         w') /\
      scheduled w' = [] /\ db_volume w' = db_volume w.
Proof.
  intros C cenv str_of_id volume backup_id deadline early.
  induction early as [|tick early IH];
    intros late rest delay w Hq Hticks Hearly Hlate Hlinked;
    cbn [app] in *;
    inversion Hticks as [|? ? [Hexist Hstatus] Hrest]; subst;
    cbn [Scheduler.drain]; rewrite Hq; cbn [Scheduler.run_job];
    match goal with
    | |- context [DeleteVM.wait_for_backup _ _ ?m _ _ _ (Scheduler.dequeued ?t _)] =>
        destruct (wait_for_backup_polls C _ m volume backup_id deadline
                    (Scheduler.dequeued t w) Hexist Hstatus Hlinked)
          as (w1 & E & Hs & Hdb & Hv)
    end;
    rewrite E; cbn [now Scheduler.dequeued] in *.
  - assert (Hgone : Z.ltb deadline (Scheduler.tick_now late) = true)
      by (apply Z.ltb_lt; exact Hlate).
    rewrite Hgone in *. cbn in Hs.
    rewrite (drain_nothing_pending _ _ _ _ _ Hs).
    exists w1. repeat split; assumption.
  - inversion Hearly as [|? ? Hnow Hearly']; subst.
    assert (Hstill : Z.ltb deadline (Scheduler.tick_now tick) = false)
      by (apply Z.ltb_ge; exact Hnow).
    rewrite Hstill in *. cbn in Hs.
    destruct (IH late rest _ w1 Hs Hrest Hearly' Hlate) as (w' & E' & Hs' & Hv').
    + rewrite (Hdb eq_refl). exact Hlinked.
    + rewrite E'. cbn. exists w'. split; [reflexivity|].
      split; [exact Hs'|]. rewrite Hv', Hv. reflexivity.
Qed.

Lemma backup_poll_gives_up_after_the_deadline_witness :
  fst (Scheduler.drain Fake.constants Nectar Fake.str_of_id
         [FakeRun.tick FakeRun.backing_up 1030;
          FakeRun.tick FakeRun.backing_up 1100;
          FakeRun.tick FakeRun.backing_up 1101]
         (FakeRun.pending
            (job_wait_for_backup Fake.volume Fake.uuid2 (Some 1100))))
  = [Returns WF_CONTINUE; Returns WF_CONTINUE; Returns WF_RETRY].
Proof.
  destruct (backup_poll_gives_up_after_the_deadline Fake.constants Nectar
              Fake.str_of_id Fake.volume Fake.uuid2 1100
              [FakeRun.tick FakeRun.backing_up 1030;
               FakeRun.tick FakeRun.backing_up 1100]
              (FakeRun.tick FakeRun.backing_up 1101) [] 30
              (FakeRun.pending
                 (job_wait_for_backup Fake.volume Fake.uuid2 (Some 1100))))
    as (w' & E & _);
    [ reflexivity | repeat constructor
    | repeat constructor; cbn; lia | cbn; lia | exact Fake_volume_linked
    | cbn [app] in E; rewrite E; reflexivity ].
Defined.

(** X11.  With the cloud environment that [get_cloud_environment]
    instantiates, the base class whose [after_time] is [pass],
    [archive_volume_worker] hands [wait_for_backup] the deadline [None].
    The first poll that finds the backup still BACKING_UP then compares the
    time with [None] and raises [TypeError]: nothing is pending afterwards,
    and no Expiration row has been touched. *)
Theorem archive_under_the_base_environment_breaks_at_the_first_poll :
  forall (C : Constants) (cloud : CloudConnector) (models : Models)
         (str_of_id : UUID -> string) (volume : Volume.t) (feature : N)
         (backup : VolumeBackup) (tick : Scheduler.Tick)
         (rest : list Scheduler.Tick) (w : World),
    scheduled w = [] ->
    is_volume_created cloud (Object_of_id (Volume.id volume))
      = Returns (Some true) ->
    get_volume_status cloud (Object_of_id (Volume.id volume))
      = Returns VolumeStatus.AVAILABLE ->
    create_volume_backup cloud (Object_of_id (Volume.id volume))
      (str_of_id (Volume.id volume) +:+ "-archive") = Returns backup ->
    is_backup_created (Scheduler.tick_cloud tick) (Some (id backup))
      = Returns (Some true) ->
    get_backup_status (Scheduler.tick_cloud tick) (Some (id backup))
      = Returns VolumeStatus.BACKING_UP ->
    exists w1 w2,
      DeleteVM.archive_volume_worker C cloud CloudEnvironment_base models
        str_of_id volume feature w = (Returns WF_CONTINUE, w1) /\
      scheduled w1
        = [(5, job_wait_for_backup
                 (Volume.set_marked_for_deletion (Some (now w)) volume)
                 (id backup) None)] /\
      Scheduler.drain C CloudEnvironment_base str_of_id (tick :: rest) w1
        = ([Raises (TypeError "'>' not supported between datetime and None")],
           w2) /\
      scheduled w2 = [] /\
      db_expiration w2 = db_expiration w.
Proof.
  intros C cloud models str_of_id volume feature backup tick rest w Hq
    Hexist Hstatus Hbackup Hbexist Hbstatus.
  unfold DeleteVM.archive_volume_worker, bind, cloud_call, datetime_now,
    Volume_save, Volume_error, log, catching, try_except, enqueue_in, query,
    VMStatus_save, ret, emit.
  cbn -[lookup insert]. rewrite Hexist. cbn -[lookup insert].
  rewrite Hstatus. cbn -[lookup insert]. rewrite Hbackup. cbn -[lookup insert].
  rewrite Hq.
  match goal with
  | |- context [get_vm_status_by_volume models ?W ?v ?f] =>
      destruct (get_vm_status_by_volume models W v f)
  end; cbn -[lookup insert];
    eexists _, _; (split; [reflexivity|]); cbn -[lookup insert];
    (split; [reflexivity|]);
    unfold DeleteVM.wait_for_backup, bind, cloud_call, datetime_now, raise,
      Scheduler.dequeued, emit;
    cbn -[lookup insert]; rewrite Hbexist; cbn -[lookup insert];
    rewrite Hbstatus; cbn -[lookup insert];
    rewrite drain_nothing_pending by reflexivity;
    repeat split; reflexivity.
Qed.

Lemma archive_under_the_base_environment_breaks_at_the_first_poll_witness :
  fst (Scheduler.drain Fake.constants CloudEnvironment_base Fake.str_of_id
         [FakeRun.tick FakeRun.backing_up 1005]
         (snd (DeleteVM.archive_volume_worker Fake.constants FakeRun.backing_up
                 CloudEnvironment_base (Fake.models true None) Fake.str_of_id
                 Fake.volume 0%N Fake.world)))
  = [Raises (TypeError "'>' not supported between datetime and None")].
Proof.
  destruct (archive_under_the_base_environment_breaks_at_the_first_poll
              Fake.constants FakeRun.backing_up (Fake.models true None)
              Fake.str_of_id Fake.volume 0%N (Object_of_id Fake.uuid2)
              (FakeRun.tick FakeRun.backing_up 1005) [] Fake.world
              eq_refl eq_refl eq_refl eq_refl eq_refl eq_refl)
    as (w1 & w2 & E1 & _ & E2 & _).
  rewrite E1. cbn [snd]. rewrite E2. reflexivity.
Defined.

(** ** The deletion of a desktop, from the first step to the last *)

(** The entry point, for a server that is shut off already. *)
Lemma delete_vm_worker_of_shutoff_server (C : Constants)
    (cloud : CloudConnector) (instance : Instance.t) (archive : bool)
    (w : World) :
  is_server_created cloud (Object_of_id (Instance.id instance))
    = Returns (Some true) ->
  get_server_status cloud (Object_of_id (Instance.id instance))
    = Returns ServerStatus.SHUTOFF ->
  exists instance0 w1,
    DeleteVM.delete_vm_worker C cloud instance archive w
      = (Returns WF_CONTINUE, w1) /\
    scheduled w1
      = (scheduled w
           ++ [(INSTANCE_CHECK_SHUTOFF_RETRY_WAIT_TIME C,
                job_check_instance_is_shutoff_and_delete instance0
                  (INSTANCE_CHECK_SHUTOFF_RETRY_COUNT C)
                  cb_dispose_volume_once_instance_is_deleted
                  (archive, INSTANCE_DELETION_RETRY_COUNT C))])%list /\
    Instance.id instance0 = Instance.id instance /\
    Instance.boot_volume instance0 = Instance.boot_volume instance /\
    db_volume w1 = db_volume w /\ db_expiration w1 = db_expiration w.
Proof.
  intros Hexist Hstatus.
  unfold DeleteVM.delete_vm_worker, Instance_error, bind, cloud_call,
    datetime_now, Instance_save, GuacamoleConnection_delete_for, log,
    enqueue_in, ret, emit.
  destruct (Instance.guac_connection instance) as [g|];
    cbn -[lookup insert]; rewrite Hexist; cbn -[lookup insert];
    rewrite Hstatus; cbn -[lookup insert];
    eexists _, _; repeat split; reflexivity.
Qed.

(** The check of the shutdown, for an instance that is shut off and whose
    deletion the remote end accepts. *)
Lemma check_instance_is_shutoff_deletes (C : Constants)
    (cloud : CloudConnector) (models : Models) (instance : Instance.t)
    (retries : Z) (func : Callback) (func_args : bool * Z)
    (volume : Volume.t) (w : World) :
  check_shutdown_status models instance = true ->
  db_volume w !! Instance.boot_volume instance = Some volume ->
  delete_server cloud (Object_of_id (Instance.id instance))
    = Returns (Some true) ->
  exists w',
    DeleteVM._check_instance_is_shutoff_and_delete C cloud models instance
      retries func func_args w = (Returns WF_CONTINUE, w') /\
    scheduled w'
      = (scheduled w
           ++ [(INSTANCE_DELETION_RETRY_WAIT_TIME C,
                DeleteVM.job_of func
                  (Instance.set_marked_for_deletion (Some (now w)) instance)
                  func_args)])%list /\
    db_volume w' = db_volume w /\ db_expiration w' = db_expiration w.
Proof.
  intros Hshut Hboot Hdelete.
  unfold DeleteVM._check_instance_is_shutoff_and_delete,
    DeleteVM.delete_instance, Instance_boot_volume, VMStatus_save, query,
    bind, cloud_call, datetime_now, Instance_save, log, enqueue_in, ret, emit.
  rewrite Hshut. cbn -[lookup insert].
  destruct (Z.leb retries 0); cbn -[lookup insert]; rewrite Hboot;
    cbn -[lookup insert];
    match goal with
    | |- context [get_vm_status_by_instance models ?W ?i ?f] =>
        destruct (get_vm_status_by_instance models W i f) as [vm_status|];
        [destruct (VMState_eqb (VMStatus.status vm_status) VM_WAITING)|]
    end; cbn -[lookup insert]; rewrite Hdelete; cbn -[lookup insert];
    eexists; repeat split; reflexivity.
Qed.

(** The disposal of the volume, once the server is gone, by deletion. *)
Lemma dispose_volume_deletes (C : Constants) (cloud : CloudConnector)
    (cenv : CloudEnvironment) (models : Models) (str_of_id : UUID -> string)
    (instance : Instance.t) (retries : Z) (volume : Volume.t) (w : World) :
  is_server_created cloud (Object_of_id (Instance.id instance))
    = Returns (Some false) ->
  db_volume w !! Instance.boot_volume instance = Some volume ->
  delete_volume cloud (Object_of_id (Volume.id volume))
    = Returns (Some true) ->
  exists w',
    DeleteVM._dispose_volume_once_instance_is_deleted C cloud cenv models
      str_of_id instance false retries w = (Returns WF_CONTINUE, w') /\
    scheduled w'
      = (scheduled w
           ++ [(VOLUME_DELETION_RETRY_WAIT_TIME C,
                job_wait_until_volume_is_deleted
                  (Volume.set_deleted (Some (now w)) volume)
                  (VOLUME_DELETION_RETRY_COUNT C))])%list /\
    db_instance w' !! Instance.id instance
      = Some (Instance.set_deleted (Some (now w)) instance) /\
    db_expiration w' = db_expiration w.
Proof.
  intros Hgone Hboot Hdelete.
  unfold DeleteVM._dispose_volume_once_instance_is_deleted,
    DeleteVM.delete_volume, Instance_boot_volume, Instance_save, Volume_save,
    bind, cloud_call, datetime_now, log, enqueue_in, ret, emit.
  rewrite Hgone. cbn -[lookup insert]. rewrite Hboot. cbn -[lookup insert].
  rewrite Hdelete. cbn -[lookup insert].
  eexists. repeat split; try reflexivity. apply lookup_insert_eq.
Qed.

(** The last poll, which finds the volume gone. *)
Lemma wait_until_volume_is_deleted_completes (C : Constants)
    (cloud : CloudConnector) (volume : Volume.t) (retries : Z) (w : World) :
  is_volume_created cloud (Object_of_id (Volume.id volume))
    = Returns (Some false) ->
  expirations_linked volume (db_expiration w) ->
  exists w',
    DeleteVM._wait_until_volume_is_deleted C cloud volume retries w
      = (Returns WF_SUCCESS, w') /\
    scheduled w' = scheduled w /\
    db_instance w' = db_instance w /\
    db_volume w' !! Volume.id volume
      = Some (Volume.set_deleted (Some (now w)) volume) /\
    advanced_once (volume_links volume) WF_SUCCESS w w'.
Proof.
  intros Hgone Hlinked.
  unfold DeleteVM._wait_until_volume_is_deleted, Volume_save,
    bind, cloud_call, datetime_now, log, enqueue_in, ret, emit.
  rewrite Hgone. cbn -[lookup insert].
  match goal with
  | |- context [DeleteVM._end_delete ?v ?r ?W] =>
      destruct (end_delete_frame v r W)
        as (o & w' & evs & E & Hv & Hi & _ & Hs & _);
      destruct (end_delete_returns v r W Hlinked) as (w'' & E')
  end.
  rewrite E in E'. injection E' as -> <-. rewrite E.
  exists w'. split; [reflexivity|]. split; [exact Hs|]. split; [exact Hi|].
  split; [rewrite Hv; apply lookup_insert_eq|].
  destruct (end_delete_advances _ _ _ _ _ E) as [_ Hadv].
  eapply advanced_once_after;
    [ apply Hadv; discriminate | reflexivity | reflexivity | count_saves_same ].
Qed.

(** X12.  The deletion of a desktop, with a remote end that does what it
    is asked.  Let the server exist and be SHUTOFF when [delete_vm_worker]
    is called for the instance (without archiving), the instance be
    reported shut off and its deletion accepted at the first tick, the
    server be gone and the deletion of the boot volume accepted at the
    second, and the volume be gone at the third.  Then the worker and the
    first two jobs return WF_CONTINUE, the third job returns WF_SUCCESS and
    nothing is pending; the Instance row is marked for deletion at the time
    of the first tick and deleted at the time of the second; the Volume row
    is deleted at the time of the third; and every Expiration row of the
    volume that was EXP_EXPIRING is EXP_EXPIRY_COMPLETED, dated with the
    third tick. *)
Theorem delete_workflow_runs_to_success :
  forall (C : Constants) (cenv : CloudEnvironment) (str_of_id : UUID -> string)
         (cloud : CloudConnector) (instance : Instance.t) (volume : Volume.t)
         (t1 t2 t3 : Scheduler.Tick) (rest : list Scheduler.Tick) (w : World),
    scheduled w = [] ->
    db_volume w !! Instance.boot_volume instance = Some volume ->
    expirations_linked volume (db_expiration w) ->
    is_server_created cloud (Object_of_id (Instance.id instance))
      = Returns (Some true) ->
    get_server_status cloud (Object_of_id (Instance.id instance))
      = Returns ServerStatus.SHUTOFF ->
    (forall i, check_shutdown_status (Scheduler.tick_models t1) i = true) ->
    delete_server (Scheduler.tick_cloud t1) (Object_of_id (Instance.id instance))
      = Returns (Some true) ->
    is_server_created (Scheduler.tick_cloud t2)
      (Object_of_id (Instance.id instance)) = Returns (Some false) ->
    delete_volume (Scheduler.tick_cloud t2) (Object_of_id (Volume.id volume))
      = Returns (Some true) ->
    is_volume_created (Scheduler.tick_cloud t3)
      (Object_of_id (Volume.id volume)) = Returns (Some false) ->
    exists w1 w',
      DeleteVM.delete_vm_worker C cloud instance false w
        = (Returns WF_CONTINUE, w1) /\
      Scheduler.drain C cenv str_of_id (t1 :: t2 :: t3 :: rest) w1
        = ([Returns WF_CONTINUE; Returns WF_CONTINUE; Returns WF_SUCCESS], w') /\
      scheduled w' = [] /\
      (exists instance',
          db_instance w' !! Instance.id instance = Some instance' /\
          Instance.marked_for_deletion instance'
            = Some (Scheduler.tick_now t1) /\
          Instance.deleted instance' = Some (Scheduler.tick_now t2)) /\
      (exists volume',
          db_volume w' !! Volume.id volume = Some volume' /\
          Volume.deleted volume' = Some (Scheduler.tick_now t3)) /\
      (forall pk e,
          db_expiration w !! pk = Some e ->
          In (Some pk) (volume_links volume) ->
          Expiration.stage e = EXP_EXPIRING ->
          db_expiration w' !! pk
            = Some (Expiration.mk EXP_EXPIRY_COMPLETED
                      (Some (Scheduler.tick_now t3)))).
Proof.
  intros C cenv str_of_id cloud instance volume t1 t2 t3 rest w Hq Hboot
    Hlinked Hexist Hstatus Hshut Hdelete Hgone Hvdelete Hvgone.
  destruct (delete_vm_worker_of_shutoff_server C cloud instance false w
              Hexist Hstatus)
    as (instance0 & w1 & E1 & Hs1 & Hid0 & Hboot0 & Hv1 & He1).
  rewrite Hq in Hs1. cbn in Hs1.
  exists w1.
  (* the check of the shutdown *)
  destruct (check_instance_is_shutoff_deletes C (Scheduler.tick_cloud t1)
              (Scheduler.tick_models t1) instance0
              (INSTANCE_CHECK_SHUTOFF_RETRY_COUNT C)
              cb_dispose_volume_once_instance_is_deleted
              (false, INSTANCE_DELETION_RETRY_COUNT C) volume
              (Scheduler.dequeued (Scheduler.tick_now t1) w1))
    as (w2 & E2 & Hs2 & Hv2 & He2).
  { apply Hshut. }
  { cbn. rewrite Hv1, Hboot0. exact Hboot. }
  { rewrite Hid0. exact Hdelete. }
  cbn in Hs2, Hv2, He2.
  (* the disposal of the volume *)
  set (instance1 := Instance.set_marked_for_deletion
                      (Some (Scheduler.tick_now t1)) instance0) in *.
  destruct (dispose_volume_deletes C (Scheduler.tick_cloud t2) cenv
              (Scheduler.tick_models t2) str_of_id instance1
              (INSTANCE_DELETION_RETRY_COUNT C) volume
              (Scheduler.dequeued (Scheduler.tick_now t2) w2))
    as (w3 & E3 & Hs3 & Hi3 & He3).
  { cbn. rewrite Hid0. exact Hgone. }
  { cbn. rewrite Hv2, Hv1, Hboot0. exact Hboot. }
  { exact Hvdelete. }
  cbn in Hs3, Hi3, He3.
  (* the poll for the volume *)
  set (volume1 := Volume.set_deleted (Some (Scheduler.tick_now t2)) volume)
    in *.
  destruct (wait_until_volume_is_deleted_completes C (Scheduler.tick_cloud t3)
              volume1 (VOLUME_DELETION_RETRY_COUNT C)
              (Scheduler.dequeued (Scheduler.tick_now t3) w3))
    as (w4 & E4 & Hs4 & Hi4 & Hv4 & Hadv).
  { exact Hvgone. }
  { cbn. rewrite He3, He2, He1. exact Hlinked. }
  cbn in Hs4, Hi4, Hv4.
  exists w4. split; [exact E1|]. split.
  { cbn [Scheduler.drain]. rewrite Hs1. cbn [Scheduler.run_job]. rewrite E2.
    rewrite Hs2. cbn [Scheduler.run_job DeleteVM.job_of fst snd]. fold instance1.
    rewrite E3. rewrite Hs3. cbn [Scheduler.run_job]. fold volume1. rewrite E4.
    rewrite (drain_nothing_pending _ _ _ _ _ Hs4). reflexivity. }
  split; [exact Hs4|]. split; [|split].
  - rewrite Hi4. rewrite Hid0 in Hi3. eexists. split; [exact Hi3|].
    split; reflexivity.
  - eexists. split; [exact Hv4|]. reflexivity.
  - intros pk e Hpk Hin Hstage.
    destruct (Hadv pk e) as [Hyes _].
    { cbn. rewrite He3, He2, He1. exact Hpk. }
    destruct (Hyes Hin Hstage) as (s & Hs & _ & Hrow & _).
    cbn in Hs. injection Hs as <-. exact Hrow.
Qed.

Lemma delete_workflow_runs_to_success_witness :
  fst (Scheduler.drain Fake.constants Nectar Fake.str_of_id
         [FakeRun.tick FakeRun.server_there 1030;
          FakeRun.tick FakeRun.server_gone 1060;
          FakeRun.tick FakeRun.volume_gone 1090]
         (snd (DeleteVM.delete_vm_worker Fake.constants FakeRun.server_there
                 Fake.instance false Fake.world)))
  = [Returns WF_CONTINUE; Returns WF_CONTINUE; Returns WF_SUCCESS].
Proof.
  destruct (delete_workflow_runs_to_success Fake.constants Nectar
              Fake.str_of_id FakeRun.server_there Fake.instance Fake.volume
              (FakeRun.tick FakeRun.server_there 1030)
              (FakeRun.tick FakeRun.server_gone 1060)
              (FakeRun.tick FakeRun.volume_gone 1090) [] Fake.world
              eq_refl eq_refl Fake_volume_linked eq_refl eq_refl
              (fun _ => eq_refl) eq_refl eq_refl eq_refl eq_refl)
    as (w1 & w' & E1 & E2 & _).
  rewrite E1. cbn [snd]. rewrite E2. reflexivity.
Defined.

(** ** Results and continuations *)

Lemma end_delete_not_scheduling (volume : Volume.t) (r : WorkflowResult)
    (w : World) (o : outcome WorkflowResult) (w' : World) :
  r <> WF_CONTINUE ->
  DeleteVM._end_delete volume r w = (o, w') ->
  o <> Returns WF_CONTINUE /\ scheduled w' = scheduled w.
Proof.
  intros Hr H.
  destruct (end_delete_frame volume r w)
    as (o1 & w1 & evs & E & _ & _ & _ & Hs & _).
  rewrite E in H. injection H as <- <-. split; [|exact Hs].
  intros ->. apply end_delete_advances in E. destruct E as [E _]. congruence.
Qed.

(** Case analysis on every answer that a step of delete_vm.py asks for. *)
Ltac all_cases H :=
  repeat (cbn in H;
    match type of H with
    | context [match is_server_created ?c ?x with _ => _ end] =>
        destruct (is_server_created c x) as [[[|]|]|?]
    | context [match get_server_status ?c ?x with _ => _ end] =>
        destruct (get_server_status c x) as [?|?]
    | context [match stop_server ?c ?x with _ => _ end] =>
        destruct (stop_server c x) as [?|?]
    | context [match delete_server ?c ?x with _ => _ end] =>
        destruct (delete_server c x) as [[[|]|]|?]
    | context [match is_volume_created ?c ?x with _ => _ end] =>
        destruct (is_volume_created c x) as [[[|]|]|?]
    | context [match is_backup_created ?c ?x with _ => _ end] =>
        destruct (is_backup_created c x) as [[[|]|]|?]
    | context [match get_volume_status ?c ?x with _ => _ end] =>
        destruct (get_volume_status c x) as [?|?]
    | context [match get_backup_status ?c ?x with _ => _ end] =>
        destruct (get_backup_status c x) as [?|?]
    | context [match delete_volume ?c ?x with _ => _ end] =>
        destruct (delete_volume c x) as [[[|]|]|?]
    | context [match delete_volume_backup ?c ?x with _ => _ end] =>
        destruct (delete_volume_backup c x) as [[[|]|]|?]
    | context [match create_volume_backup ?c ?x ?n with _ => _ end] =>
        destruct (create_volume_backup c x n) as [?|?]
    | context [set_backup_expires ?m ?t ?v ?w] =>
        destruct (set_backup_expires m t v w) as [? ?] eqn:?
    | context [match get_vm_status_by_volume ?m ?w ?v ?f with _ => _ end] =>
        destruct (get_vm_status_by_volume m w v f)
    | context [match get_vm_status_by_instance ?m ?w ?v ?f with _ => _ end] =>
        destruct (get_vm_status_by_instance m w v f)
    | context [check_shutdown_status ?m ?i] =>
        destruct (check_shutdown_status m i)
    | context [VolumeStatus.eqb ?a ?b] =>
        destruct (VolumeStatus.eqb a b) eqn:?
    | context [ServerStatus.eqb ?a ?b] =>
        destruct (ServerStatus.eqb a b) eqn:?
    | context [VMState_eqb ?a ?b] =>
        destruct (VMState_eqb a b) eqn:?
    | context [is_CloudConnectorError ?e] =>
        destruct (is_CloudConnectorError e)
    | context [Z.ltb ?a ?b] => destruct (Z.ltb a b)
    | context [Z.leb ?a ?b] => destruct (Z.leb a b)
    | context [match Instance.guac_connection ?i with _ => _ end] =>
        destruct (Instance.guac_connection i)
    | context [match Volume.backup_id ?v with _ => _ end] =>
        destruct (Volume.backup_id v)
    | context [match ?m !! ?k with _ => _ end] =>
        destruct (m !! k)
    | context [match ?d with Some _ => _ | None => _ end] =>
        is_var d; destruct d
    | context [if ?b then _ else _] => is_var b; destruct b
    end); cbn in H.

(** A leaf of the case analysis, for the convention of the results. *)
Ltac queue_as_it_was Hsbe :=
  cbn;
  first
    [ reflexivity
    | match goal with
      | E : set_backup_expires ?m ?t ?v0 ?W0 = (_, _) |- _ =>
          let X := fresh in
          pose proof (Hsbe t v0 W0) as X; rewrite E in X; exact X
      end ].

Ltac scheduling_leaf H Hsbe :=
  match type of H with
  | DeleteVM._end_delete ?v ?r ?W = _ =>
      let Hn := fresh in
      let Hs := fresh in
      destruct (end_delete_not_scheduling v r W _ _ ltac:(discriminate) H)
        as [Hn Hs];
      split; [intros ?; contradiction|];
      intros _; rewrite Hs; queue_as_it_was Hsbe
  | _ =>
      injection H as <- <-;
      split;
      [ intros Ho; first [discriminate Ho | eexists _, _; cbn; reflexivity]
      | intros Ho; first [congruence | queue_as_it_was Hsbe] ]
  end.

Section Continuations.
Variable C : Constants.
Variable cloud : CloudConnector.
Variable cenv : CloudEnvironment.
Variable models : Models.
Variable str_of_id : UUID -> string.
Hypothesis set_backup_expires_schedules_nothing :
  forall t v w, scheduled (snd (set_backup_expires models t v w)) = scheduled w.

Lemma delete_vm_worker_continues (instance : Instance.t) (archive : bool) :
  continues_iff_scheduled (DeleteVM.delete_vm_worker C cloud instance archive).
Proof.
  intros w o w' H.
  unfold DeleteVM.delete_vm_worker, Instance_error, bind, cloud_call,
    datetime_now, Instance_save, GuacamoleConnection_delete_for, log,
    enqueue_in, ret, emit in H.
  all_cases H; scheduling_leaf H set_backup_expires_schedules_nothing.
Qed.

Lemma check_instance_is_shutoff_continues (instance : Instance.t)
    (retries : Z) (func : Callback) (func_args : bool * Z) :
  continues_iff_scheduled
    (DeleteVM._check_instance_is_shutoff_and_delete C cloud models instance
       retries func func_args).
Proof.
  intros w o w' H.
  unfold DeleteVM._check_instance_is_shutoff_and_delete,
    DeleteVM.delete_instance, Instance_boot_volume, VMStatus_save, query,
    bind, cloud_call, datetime_now, Instance_save, log, enqueue_in, ret, emit
    in H.
  all_cases H; scheduling_leaf H set_backup_expires_schedules_nothing.
Qed.

Lemma wait_until_volume_is_deleted_continues (volume : Volume.t)
    (retries : Z) :
  continues_iff_scheduled
    (DeleteVM._wait_until_volume_is_deleted C cloud volume retries).
Proof.
  intros w o w' H.
  unfold DeleteVM._wait_until_volume_is_deleted, Volume_error, Volume_save,
    bind, cloud_call, datetime_now, log, enqueue_in, ret, emit in H.
  all_cases H; scheduling_leaf H set_backup_expires_schedules_nothing.
Qed.

Lemma wait_until_backup_is_deleted_continues (volume : Volume.t)
    (retries : Z) :
  continues_iff_scheduled
    (DeleteVM._wait_until_backup_is_deleted C cloud volume retries).
Proof.
  intros w o w' H.
  unfold DeleteVM._wait_until_backup_is_deleted, Volume_error, Volume_save,
    bind, cloud_call, datetime_now, log, enqueue_in, ret, emit in H.
  all_cases H; scheduling_leaf H set_backup_expires_schedules_nothing.
Qed.

Lemma delete_backup_worker_continues (volume : Volume.t) :
  continues_iff_scheduled (DeleteVM.delete_backup_worker C cloud volume).
Proof.
  intros w o w' H.
  unfold DeleteVM.delete_backup_worker, Volume_save,
    bind, cloud_call, datetime_now, log, enqueue_in, ret, emit in H.
  all_cases H; scheduling_leaf H set_backup_expires_schedules_nothing.
Qed.

Lemma delete_volume_worker_continues (volume : Volume.t) :
  continues_iff_scheduled (DeleteVM.delete_volume_worker C cloud volume).
Proof.
  intros w o w' H.
  unfold DeleteVM.delete_volume_worker, DeleteVM.delete_volume,
    DeleteVM._wait_until_volume_is_deleted, Volume_error, Volume_save,
    bind, cloud_call, datetime_now, log, enqueue_in, ret, emit in H.
  all_cases H; scheduling_leaf H set_backup_expires_schedules_nothing.
Qed.

Lemma archive_volume_worker_continues (volume : Volume.t) (feature : N) :
  continues_iff_scheduled
    (DeleteVM.archive_volume_worker C cloud cenv models str_of_id volume
       feature).
Proof.
  intros w o w' H.
  unfold DeleteVM.archive_volume_worker, bind, cloud_call, datetime_now,
    Volume_save, Volume_error, log, catching, try_except, enqueue_in, query,
    VMStatus_save, ret, emit in H.
  all_cases H; scheduling_leaf H set_backup_expires_schedules_nothing.
Qed.

Lemma wait_for_backup_continues (volume : Volume.t) (backup_id : UUID)
    (deadline : option datetime) :
  continues_iff_scheduled
    (DeleteVM.wait_for_backup C cloud models volume backup_id deadline).
Proof.
  intros w o w' H.
  unfold DeleteVM.wait_for_backup, DeleteVM.delete_volume, bind, cloud_call,
    datetime_now, Volume_save, log, enqueue_in, raise, ret, emit in H.
  all_cases H; scheduling_leaf H set_backup_expires_schedules_nothing.
Qed.

Lemma dispose_volume_continues (instance : Instance.t) (archive : bool)
    (retries : Z) :
  continues_iff_scheduled
    (DeleteVM._dispose_volume_once_instance_is_deleted C cloud cenv models
       str_of_id instance archive retries).
Proof.
  intros w o w' H.
  unfold DeleteVM._dispose_volume_once_instance_is_deleted,
    DeleteVM.archive_volume_worker, DeleteVM.delete_volume,
    Instance_boot_volume, Instance_error, Instance_save, bind, cloud_call,
    datetime_now, Volume_save, Volume_error, log, catching, try_except,
    enqueue_in, query, VMStatus_save, ret, emit in H.
  all_cases H; scheduling_leaf H set_backup_expires_schedules_nothing.
Qed.

Lemma archive_expired_volume_continues (volume : Volume.t) (feature : N) :
  continues_iff_scheduled
    (DeleteVM.archive_expired_volume C cloud cenv models str_of_id volume
       feature).
Proof.
  intros w o w' H.
  unfold DeleteVM.archive_expired_volume in H.
  remember (DeleteVM.archive_volume_worker C cloud cenv models str_of_id
              volume feature) as archive_step eqn:Estep.
  unfold catching, try_except, bind, query, raise, ret, log,
    DeleteVM.load_global in H. cbn in H.
  destruct (get_vm_status_by_volume models w volume feature) as [vm_status|];
    cbn in H;
    [|injection H as <- <-; split; [discriminate | reflexivity]].
  destruct (VMState_eqb (VMStatus.status vm_status) VM_SHELVED); cbn in H;
    [|injection H as <- <-; split; [discriminate | reflexivity]].
  destruct (archive_step w) as [[r|e] w1] eqn:E; cbn in H;
    injection H as <- <-; subst archive_step;
    destruct (archive_volume_worker_continues volume feature w _ _ E)
      as [Hc Hn].
  - split; [exact Hc | exact Hn].
  - split; [discriminate|]. intros _. cbn. apply Hn. discriminate.
Qed.
End Continuations.

(** X13.  Every step of delete_vm.py keeps to the convention of the
    workflow results: when it returns WF_CONTINUE it has enqueued exactly
    one job, and when it returns anything else, or raises, it has enqueued
    none.  (Of the models, [set_backup_expires] is taken not to touch the
    queue.) *)
Theorem workflow_steps_continue_iff_scheduled :
  forall (C : Constants) (cloud : CloudConnector) (cenv : CloudEnvironment)
         (models : Models) (str_of_id : UUID -> string),
    (forall t v w,
        scheduled (snd (set_backup_expires models t v w)) = scheduled w) ->
    (forall instance archive,
        continues_iff_scheduled
          (DeleteVM.delete_vm_worker C cloud instance archive)) /\
    (forall instance retries func func_args,
        continues_iff_scheduled
          (DeleteVM._check_instance_is_shutoff_and_delete C cloud models
             instance retries func func_args)) /\
    (forall instance archive retries,
        continues_iff_scheduled
          (DeleteVM._dispose_volume_once_instance_is_deleted C cloud cenv
             models str_of_id instance archive retries)) /\
    (forall volume,
        continues_iff_scheduled (DeleteVM.delete_volume_worker C cloud volume)) /\
    (forall volume retries,
        continues_iff_scheduled
          (DeleteVM._wait_until_volume_is_deleted C cloud volume retries)) /\
    (forall volume,
        continues_iff_scheduled (DeleteVM.delete_backup_worker C cloud volume)) /\
    (forall volume retries,
        continues_iff_scheduled
          (DeleteVM._wait_until_backup_is_deleted C cloud volume retries)) /\
    (forall volume feature,
        continues_iff_scheduled
          (DeleteVM.archive_volume_worker C cloud cenv models str_of_id
             volume feature)) /\
    (forall volume backup_id deadline,
        continues_iff_scheduled
          (DeleteVM.wait_for_backup C cloud models volume backup_id deadline)) /\
    (forall volume feature,
        continues_iff_scheduled
          (DeleteVM.archive_expired_volume C cloud cenv models str_of_id
             volume feature)).
Proof.
  intros C cloud cenv models str_of_id Hsbe.
  repeat match goal with |- _ /\ _ => split end; intros;
    first
      [ apply delete_vm_worker_continues
      | apply check_instance_is_shutoff_continues
      | apply dispose_volume_continues
      | apply delete_volume_worker_continues
      | apply wait_until_volume_is_deleted_continues
      | apply delete_backup_worker_continues
      | apply wait_until_backup_is_deleted_continues
      | apply archive_volume_worker_continues
      | apply wait_for_backup_continues
      | apply archive_expired_volume_continues ];
    try exact Hsbe.
Qed.

Lemma workflow_steps_continue_iff_scheduled_witness :
  continues_iff_scheduled
    (DeleteVM.wait_for_backup Fake.constants FakeRun.backing_up
       (Fake.models true None) Fake.volume Fake.uuid2 (Some 1100)) /\
  continues_iff_scheduled
    (DeleteVM.delete_vm_worker Fake.constants FakeRun.server_there
       Fake.instance true).
Proof.
  destruct (workflow_steps_continue_iff_scheduled Fake.constants
              FakeRun.backing_up Nectar (Fake.models true None)
              Fake.str_of_id (fun _ _ _ => eq_refl))
    as (_ & _ & _ & _ & _ & _ & _ & _ & Hwait & _).
  destruct (workflow_steps_continue_iff_scheduled Fake.constants
              FakeRun.server_there Nectar (Fake.models true None)
              Fake.str_of_id (fun _ _ _ => eq_refl))
    as (Hworker & _).
  split; [apply Hwait | apply Hworker].
Defined.

(** ** Deleting and archiving a volume *)

(** X14.  [delete_volume_worker] and the answer of the connector's
    [delete_volume].  Once the connector has accepted the deletion
    ([True]), the Volume row is saved as deleted, with the time of the
    call, whatever the worker goes on to return or raise, also WF_RETRY.
    With any other answer the worker returns WF_FAIL and has changed
    neither the Volume table nor the Expiration table nor the queue: this
    failure is not recorded on the expiration. *)
Theorem delete_volume_worker_stamps_on_acceptance :
  forall (C : Constants) (cloud : CloudConnector) (volume : Volume.t)
         (w : World) (answer : option bool),
    delete_volume cloud (Object_of_id (Volume.id volume)) = Returns answer ->
    let '(o, w') := DeleteVM.delete_volume_worker C cloud volume w in
    (answer = Some true ->
     exists volume',
       db_volume w' !! Volume.id volume = Some volume' /\
       Volume.deleted volume' = Some (now w)) /\
    (answer <> Some true ->
     o = Returns WF_FAIL /\
     db_volume w' = db_volume w /\ db_expiration w' = db_expiration w /\
     scheduled w' = scheduled w).
Proof.
  intros C cloud volume w answer Hdel.
  destruct (DeleteVM.delete_volume_worker C cloud volume w) as [o w'] eqn:H.
  unfold DeleteVM.delete_volume_worker, DeleteVM.delete_volume,
    DeleteVM._wait_until_volume_is_deleted, Volume_error, Volume_save,
    bind, cloud_call, datetime_now, log, enqueue_in, ret, emit in H.
  rewrite Hdel in H.
  destruct answer as [[|]|]; cbn in H.
  - split; [intros _ | intros Hn; congruence].
    all_cases H;
      match type of H with
      | DeleteVM._end_delete ?v ?r ?W = _ =>
          destruct (end_delete_frame v r W)
            as (o1 & w1 & evs & E & Hv & _);
          rewrite E in H; injection H as <- <-; rewrite Hv; cbn -[lookup]
      | _ => injection H as <- <-; cbn -[lookup]
      end;
      eexists; (split; [rewrite lookup_insert_eq; reflexivity|]);
      reflexivity.
  - split; [discriminate|]. intros _. injection H as <- <-.
    repeat split; reflexivity.
  - split; [discriminate|]. intros _. injection H as <- <-.
    repeat split; reflexivity.
Qed.

Lemma delete_volume_worker_stamps_on_acceptance_witness :
  exists volume',
    db_volume
      (snd (DeleteVM.delete_volume_worker Fake.constants
              FakeRun.volume_deleting Fake.volume Fake.world))
      !! Fake.uuid1 = Some volume' /\
    Volume.deleted volume' = Some 1000.
Proof.
  pose proof (delete_volume_worker_stamps_on_acceptance Fake.constants
                FakeRun.volume_deleting Fake.volume Fake.world (Some true)
                eq_refl) as H.
  destruct (DeleteVM.delete_volume_worker Fake.constants
              FakeRun.volume_deleting Fake.volume Fake.world) as [o w'].
  exact (proj1 H eq_refl).
Defined.

(** X15.  [wait_for_backup] does not look at what [delete_volume]
    returns.  For a backup that is AVAILABLE it saves the volume as
    archived, sets the expiry of the backup, asks for the deletion of the
    volume, and returns WF_SUCCESS whatever the connector answers to that:
    when the answer is [None] or [False] the Volume table is as
    [set_backup_expires] left it (the row is archived, not deleted), when it
    is [True] the row is deleted as well.  ([set_backup_expires] is taken to
    keep the volume's id and to leave its links to Expiration rows
    intact.) *)
Theorem wait_for_backup_succeeds_whatever_the_deletion_answers :
  forall (C : Constants) (cloud : CloudConnector) (models : Models)
         (volume : Volume.t) (backup_id : UUID) (deadline : option datetime)
         (w : World) (answer : option bool),
    is_backup_created cloud (Some backup_id) = Returns (Some true) ->
    get_backup_status cloud (Some backup_id) = Returns VolumeStatus.AVAILABLE ->
    (forall t v w0,
        expirations_linked v (db_expiration w0) ->
        let '(v', w') := set_backup_expires models t v w0 in
        Volume.id v' = Volume.id v /\
        expirations_linked v' (db_expiration w')) ->
    expirations_linked volume (db_expiration w) ->
    delete_volume cloud (Object_of_id (Volume.id volume)) = Returns answer ->
    exists w0 volume1 w1 w',
      let archived :=
        Volume.set_archived_at (Some (now w))
          (Volume.set_backup_id (Some backup_id) volume) in
      db_volume w0 = <[Volume.id volume := archived]> (db_volume w) /\
      set_backup_expires models (now w + 86400 * BACKUP_LIFETIME C) archived w0
        = (volume1, w1) /\
      DeleteVM.wait_for_backup C cloud models volume backup_id deadline w
        = (Returns WF_SUCCESS, w') /\
      db_volume w'
        = (if answer is Some true
           then <[Volume.id volume :=
                    Volume.set_deleted (Some (now w1)) volume1]> (db_volume w1)
           else db_volume w1).
Proof.
  intros C cloud models volume backup_id deadline w answer Hexist Hstatus
    Hsbe Hlinked0 Hdel.
  unfold DeleteVM.wait_for_backup, DeleteVM.delete_volume, bind, cloud_call,
    datetime_now, Volume_save, log, enqueue_in, raise, ret, emit.
  rewrite Hexist. cbn -[lookup insert]. rewrite Hstatus. cbn -[lookup insert].
  match goal with
  | |- context [set_backup_expires models ?t ?v ?W] =>
      pose proof (Hsbe t v W Hlinked0) as Hkeep;
      destruct (set_backup_expires models t v W) as [volume1 w1] eqn:Eset;
      exists W, volume1, w1
  end.
  destruct Hkeep as [Hid Hlinked]. cbn in Hid.
  cbn -[lookup insert]. rewrite Hid, Hdel.
  destruct answer as [[|]|]; cbn -[lookup insert];
    match goal with
    | |- context [DeleteVM._end_delete ?v ?r ?W] =>
        destruct (end_delete_frame v r W)
          as (o1 & w2 & evs & E & Hv & _);
        assert (Hl : expirations_linked v (db_expiration W))
          by (unfold expirations_linked in *; cbn; exact Hlinked);
        destruct (end_delete_returns v r W Hl) as (w3 & E');
        rewrite E in E'; injection E' as -> <-; rewrite E;
        exists w2; rewrite Hv; cbn -[lookup insert]
    end;
    rewrite ?Hid; repeat split; first [exact Eset | reflexivity].
Qed.

Lemma wait_for_backup_succeeds_whatever_the_deletion_answers_witness :
  fst (DeleteVM.wait_for_backup Fake.constants
         (Fake.cloud (Some true) ServerStatus.SHUTOFF (Some true) (Some true)
            VolumeStatus.AVAILABLE None (Some true))
         (Fake.models true None) Fake.volume Fake.uuid2 (Some 1100)
         Fake.world)
  = Returns WF_SUCCESS.
Proof.
  destruct (wait_for_backup_succeeds_whatever_the_deletion_answers
              Fake.constants
              (Fake.cloud (Some true) ServerStatus.SHUTOFF (Some true)
                 (Some true) VolumeStatus.AVAILABLE None (Some true))
              (Fake.models true None) Fake.volume Fake.uuid2 (Some 1100)
              Fake.world None eq_refl eq_refl
              (fun _ _ _ H => conj eq_refl H) Fake_volume_linked eq_refl)
    as (w0 & volume1 & w1 & w' & _ & _ & E & _).
  rewrite E. reflexivity.
Defined.

(** ** More on the selection of the source volume *)

Lemma prefix_matches_inv (image_name : string) (l f : list CloudVolume) :
  CreateVM.prefix_matches image_name l = Returns f ->
  Forall (fun v => name v <> None) l /\
  f = List.filter (CreateVM.is_match image_name) l.
Proof.
  revert f. induction l as [|v l IH]; cbn; intros f H.
  - injection H as <-. split; [constructor | reflexivity].
  - unfold CreateVM.is_match at 1.
    destruct (name v) as [n|] eqn:En; [|discriminate H].
    destruct (CreateVM.prefix_matches image_name l) as [m|e]; [|discriminate H].
    destruct (IH m eq_refl) as [Hnamed ->]. injection H as <-.
    split; [|reflexivity].
    constructor; [rewrite En; discriminate | exact Hnamed].
Qed.

Lemma prefix_matches_raises (image_name : string) (l : list CloudVolume)
    (e : exn) :
  CreateVM.prefix_matches image_name l = Raises e ->
  Exists (fun v => name v = None) l /\
  e = AttributeError "'NoneType' object has no attribute 'startswith'".
Proof.
  induction l as [|v l IH]; cbn; intros H; [discriminate H|].
  destruct (name v) as [n|] eqn:En.
  - destruct (CreateVM.prefix_matches image_name l) as [m|e']; [discriminate H|].
    injection H as <-. destruct (IH eq_refl) as [Hex He].
    split; [right; exact Hex | exact He].
  - injection H as <-. split; [left; exact En | reflexivity].
Qed.

Lemma decorate_inv (int_of_str : string -> option Z) (l : list CloudVolume)
    (kvs : list (Z * CloudVolume)) :
  CreateVM.decorate int_of_str l = Returns kvs ->
  map snd kvs = l /\
  Forall (fun kv => CreateVM.build_key int_of_str (snd kv) = Returns (fst kv))
         kvs.
Proof.
  revert kvs. induction l as [|v l IH]; cbn; intros kvs H.
  - injection H as <-. split; [reflexivity | constructor].
  - destruct (CreateVM.build_key int_of_str v) as [k|e] eqn:Ek; [|discriminate H].
    destruct (CreateVM.decorate int_of_str l) as [kvs'|e]; [|discriminate H].
    destruct (IH kvs' eq_refl) as [Hmap Hall]. injection H as <-. cbn.
    split; [rewrite Hmap; reflexivity | constructor; [exact Ek | exact Hall]].
Qed.

Lemma decorate_raises (int_of_str : string -> option Z) (l : list CloudVolume)
    (e : exn) :
  CreateVM.decorate int_of_str l = Raises e ->
  Exists (fun v => CreateVM.build_key int_of_str v = Raises e) l.
Proof.
  induction l as [|v l IH]; cbn; intros H; [discriminate H|].
  destruct (CreateVM.build_key int_of_str v) as [k|e'] eqn:Ek.
  - destruct (CreateVM.decorate int_of_str l) as [kvs'|e'']; [discriminate H|].
    injection H as <-. right. apply IH. reflexivity.
  - injection H as <-. left. exact Ek.
Qed.

(** A build key is an [AttributeError] (no metadata), a [ValueError] (a
    build value that is no number) or a number. *)
Lemma build_key_raises (int_of_str : string -> option Z) (v : CloudVolume)
    (e : exn) :
  CreateVM.build_key int_of_str v = Raises e ->
  e = AttributeError "'NoneType' object has no attribute 'get'" \/
  e = ValueError "invalid literal for int()".
Proof.
  unfold CreateVM.build_key, CreateVM.int.
  destruct (metadata v) as [d|]; [|intros H; injection H as <-; left; reflexivity].
  destruct (dict_get_default d "nectar_build" (VInt 0)) as [z|s];
    [discriminate|].
  destruct (int_of_str s); [discriminate|].
  intros H; injection H as <-; right; reflexivity.
Qed.

(** The head of the sorted list is the first of the elements with the
    largest key: the sort is stable. *)
Lemma sorted_desc_first_of_largest (kvs : list (Z * CloudVolume))
    (x : Z * CloudVolume) (rest : list (Z * CloudVolume)) :
  CreateVM.sorted_desc kvs = x :: rest ->
  exists l1 l2,
    kvs = (l1 ++ x :: l2)%list /\
    Forall (fun y => fst y < fst x) l1 /\
    Forall (fun y => fst y <= fst x) l2.
Proof.
  revert x rest. induction kvs as [|a kvs IH]; intros x rest H;
    [discriminate H|].
  change (CreateVM.insert_desc a (CreateVM.sorted_desc kvs) = x :: rest) in H.
  destruct (CreateVM.sorted_desc kvs) as [|y r] eqn:Es.
  - pose proof (sorted_desc_head kvs) as Hh. rewrite Es in Hh. subst kvs.
    cbn in H. injection H as <- <-.
    exists [], []. repeat split; constructor.
  - destruct (IH y r eq_refl) as (l1 & l2 & -> & H1 & H2).
    cbn in H. destruct (Z.ltb (fst a) (fst y)) eqn:E.
    + apply Z.ltb_lt in E. injection H as <- <-.
      exists (a :: l1), l2. repeat split; [|exact H2].
      constructor; [exact E | exact H1].
    + apply Z.ltb_ge in E. injection H as <- <-.
      exists [], (l1 ++ y :: l2)%list. repeat split; [constructor|].
      apply List.Forall_app. split.
      * eapply List.Forall_impl; [|exact H1]. cbn. intros z Hz. lia.
      * constructor; [exact E|].
        eapply List.Forall_impl; [|exact H2]. cbn. intros z Hz. lia.
Qed.

Lemma filter_eq_app_cons {A : Type} (f : A -> bool) (l a b : list A) (x : A) :
  List.filter f l = (a ++ x :: b)%list ->
  exists l1 l2,
    l = (l1 ++ x :: l2)%list /\ List.filter f l1 = a /\ List.filter f l2 = b.
Proof.
  revert a. induction l as [|y l IH]; cbn; intros a H.
  - destruct a; discriminate H.
  - destruct (f y) eqn:Ey.
    + destruct a as [|a0 a]; cbn in H; injection H as -> H.
      * exists [], l. cbn. repeat split. exact H.
      * destruct (IH a H) as (l1 & l2 & -> & H1 & H2).
        exists (a0 :: l1), l2. cbn. rewrite Ey, H1. repeat split. exact H2.
    + destruct (IH a H) as (l1 & l2 & -> & H1 & H2).
      exists (y :: l1), l2. cbn. rewrite Ey. repeat split; assumption.
Qed.

Lemma Forall_filter_keyed (int_of_str : string -> option Z)
    (image_name : string) (R : Z -> Prop) (l : list CloudVolume)
    (kvs : list (Z * CloudVolume)) :
  map snd kvs = List.filter (CreateVM.is_match image_name) l ->
  Forall (fun kv => CreateVM.build_key int_of_str (snd kv) = Returns (fst kv))
         kvs ->
  Forall (fun y => R (fst y)) kvs ->
  Forall (fun u => CreateVM.is_match image_name u = true ->
                   exists ku, CreateVM.build_key int_of_str u = Returns ku /\
                              R ku) l.
Proof.
  revert kvs. induction l as [|u l IH]; cbn; intros kvs Hmap Hkeys HR;
    [constructor|].
  destruct (CreateVM.is_match image_name u) eqn:Eu.
  - destruct kvs as [|[k v] kvs]; cbn in Hmap; [discriminate Hmap|].
    injection Hmap as -> Hmap.
    inversion Hkeys as [|? ? Hk Hkeys']; subst.
    inversion HR as [|? ? Hr HR']; subst. cbn in *.
    constructor; [intros _; exists k; split; assumption|].
    apply (IH kvs); assumption.
  - constructor; [intros H; rewrite Eu in H; discriminate H|].
    apply (IH kvs); assumption.
Qed.

(** X16.  Among candidates with the same, highest build number
    [_get_source_volume] returns the one that comes first in the
    connector's list: every candidate with the image-name prefix that
    comes before the returned one has a smaller build number, every one
    that comes after it has a build number that is not larger. *)
Theorem get_source_volume_picks_first_of_highest_build :
  forall (cloud : CloudConnector) (int_of_str : string -> option Z)
         (desktop_type : DesktopType) (zone : AvailabilityZone)
         (l : list CloudVolume) (v : CloudVolume) (w w' : World),
    get_volume_list cloud
      [ ("name~", VStr (image_name desktop_type));
        ("availability_zone", VStr (zone_name zone));
        ("status", VStr (VolumeStatus.name VolumeStatus.AVAILABLE)) ]
      = Returns (Some l) ->
    CreateVM._get_source_volume cloud int_of_str desktop_type zone w
      = (Returns v, w') ->
    exists l1 l2 k,
      l = (l1 ++ v :: l2)%list /\
      CreateVM.is_match (image_name desktop_type) v = true /\
      CreateVM.build_key int_of_str v = Returns k /\
      Forall (fun u => CreateVM.is_match (image_name desktop_type) u = true ->
                       exists ku, CreateVM.build_key int_of_str u = Returns ku /\
                                  ku < k) l1 /\
      Forall (fun u => CreateVM.is_match (image_name desktop_type) u = true ->
                       exists ku, CreateVM.build_key int_of_str u = Returns ku /\
                                  ku <= k) l2.
Proof.
  intros cloud int_of_str desktop_type zone l v w w' Hlist Hrun.
  unfold CreateVM._get_source_volume, bind, cloud_call, of_outcome in Hrun.
  rewrite Hlist in Hrun. unfold CreateVM.select_source_volume in Hrun.
  destruct (CreateVM.prefix_matches (image_name desktop_type) l)
    as [filtered|e] eqn:Ef; [|discriminate Hrun].
  destruct (CreateVM.decorate int_of_str filtered) as [kvs|e] eqn:Ed;
    [|discriminate Hrun].
  destruct (CreateVM.sorted_desc kvs) as [|[k v0] rest] eqn:Es;
    [discriminate Hrun|].
  cbn in Hrun. injection Hrun as -> _.
  destruct (prefix_matches_inv _ _ _ Ef) as [_ ->].
  destruct (decorate_inv _ _ _ Ed) as [Hmap Hkeys].
  destruct (sorted_desc_first_of_largest _ _ _ Es)
    as (k1 & k2 & -> & Hlt & Hle). cbn in Hlt, Hle.
  rewrite List.map_app in Hmap. cbn in Hmap.
  destruct (filter_eq_app_cons _ _ _ _ _ (eq_sym Hmap))
    as (l1 & l2 & -> & Hf1 & Hf2).
  apply List.Forall_app in Hkeys. destruct Hkeys as [Hk1 Hk2].
  inversion Hk2 as [|? ? Hkv Hk2']; subst. cbn in Hkv.
  exists l1, l2, k. repeat split.
  - assert (Hin : In v (List.filter (CreateVM.is_match (image_name desktop_type))
                          (l1 ++ v :: l2))).
    { rewrite <- Hmap. apply List.in_or_app. right. left. reflexivity. }
    apply List.filter_In in Hin. exact (proj2 Hin).
  - exact Hkv.
  - apply (Forall_filter_keyed int_of_str (image_name desktop_type)
             (fun ku => ku < k) l1 k1); [symmetry; exact Hf1 | exact Hk1 | exact Hlt].
  - apply (Forall_filter_keyed int_of_str (image_name desktop_type)
             (fun ku => ku <= k) l2 k2); [symmetry; exact Hf2 | exact Hk2' | exact Hle].
Qed.

Lemma get_source_volume_picks_first_of_highest_build_witness :
  exists l1 l2,
    FakeRun.tied_volume_list = (l1 ++ Fake.image_build_12 :: l2)%list /\
    Forall (fun u => CreateVM.is_match "ubuntu-22.04" u = true ->
                     exists ku,
                       CreateVM.build_key Fake.int_of_str u = Returns ku /\
                       ku < 12) l1.
Proof.
  destruct (get_source_volume_picks_first_of_highest_build
              (Fake.with_volume_list FakeRun.tied_volume_list
                 FakeRun.server_there)
              Fake.int_of_str Fake.ubuntu Fake.zone FakeRun.tied_volume_list
              Fake.image_build_12 Fake.world
              (snd (CreateVM._get_source_volume
                      (Fake.with_volume_list FakeRun.tied_volume_list
                         FakeRun.server_there)
                      Fake.int_of_str Fake.ubuntu Fake.zone Fake.world)))
    as (l1 & l2 & k & Hl & _ & Hk & Hbefore & _);
    [ reflexivity | vm_compute; reflexivity | ].
  vm_compute in Hk. injection Hk as <-.
  exists l1, l2. split; [exact Hl | exact Hbefore].
Defined.

Lemma filter_nil_none {A : Type} (f : A -> bool) (l : list A) :
  List.filter f l = [] <-> Forall (fun v => f v = false) l.
Proof.
  induction l as [|x l IH]; cbn.
  - split; [constructor | reflexivity].
  - destruct (f x) eqn:E.
    + split; [discriminate|]. intros H. inversion H; congruence.
    + rewrite IH. split; [intros H; constructor; assumption|].
      intros H. inversion H; assumption.
Qed.

Lemma sorted_desc_nil (kvs : list (Z * CloudVolume)) :
  CreateVM.sorted_desc kvs = [] <-> kvs = [].
Proof.
  split; [|intros ->; reflexivity].
  intros H. pose proof (sorted_desc_head kvs) as Hh. rewrite H in Hh. exact Hh.
Qed.

(** X17.  When the connector's [get_volume_list] returns,
    [_get_source_volume] returns a volume exactly if every candidate has a
    name, every candidate with the image-name prefix has metadata with a
    numeric build value (or none), and some candidate has the prefix.  It
    raises [RuntimeWarning] exactly if every candidate has a name and none
    has the prefix.  One candidate without a name makes it raise
    [AttributeError], whatever the other candidates are. *)
Theorem get_source_volume_returns_iff :
  forall (cloud : CloudConnector) (int_of_str : string -> option Z)
         (desktop_type : DesktopType) (zone : AvailabilityZone)
         (res : option (list CloudVolume)) (w : World),
    get_volume_list cloud
      [ ("name~", VStr (image_name desktop_type));
        ("availability_zone", VStr (zone_name zone));
        ("status", VStr (VolumeStatus.name VolumeStatus.AVAILABLE)) ]
      = Returns res ->
    let candidates := match res with Some l => l | None => [] end in
    let matched v := CreateVM.is_match (image_name desktop_type) v = true in
    let outcome_ :=
      fst (CreateVM._get_source_volume cloud int_of_str desktop_type zone w) in
    ((exists v, outcome_ = Returns v) <->
     Forall (fun v => name v <> None) candidates /\
     Forall (fun v => matched v ->
                      exists k, CreateVM.build_key int_of_str v = Returns k)
            candidates /\
     Exists matched candidates) /\
    ((exists msg, outcome_ = Raises (RuntimeWarning msg)) <->
     Forall (fun v => name v <> None) candidates /\
     Forall (fun v => ~ matched v) candidates) /\
    (Exists (fun v => name v = None) candidates ->
     outcome_
     = Raises (AttributeError
                 "'NoneType' object has no attribute 'startswith'")).
Proof.
  intros cloud int_of_str desktop_type zone res w Hlist candidates matched
    outcome_.
  subst outcome_.
  unfold CreateVM._get_source_volume, bind, cloud_call, of_outcome.
  rewrite Hlist. unfold CreateVM.select_source_volume. fold candidates.
  destruct (CreateVM.prefix_matches (image_name desktop_type) candidates)
    as [filtered|e] eqn:Ef.
  - destruct (prefix_matches_inv _ _ _ Ef) as [Hnamed ->].
    assert (Hno : ~ Exists (fun v => name v = None) candidates).
    { intros Hex. apply List.Exists_exists in Hex. destruct Hex as (v & Hin & Hv).
      rewrite List.Forall_forall in Hnamed. exact (Hnamed v Hin Hv). }
    destruct (CreateVM.decorate int_of_str
                (List.filter (CreateVM.is_match (image_name desktop_type))
                   candidates)) as [kvs|e] eqn:Ed.
    + destruct (decorate_inv _ _ _ Ed) as [Hmap Hkeys].
      assert (Hallkeys :
                Forall (fun v => matched v ->
                   exists k, CreateVM.build_key int_of_str v = Returns k)
                  candidates).
      { eapply List.Forall_impl;
          [|exact (Forall_filter_keyed int_of_str (image_name desktop_type)
                     (fun _ => True) candidates kvs Hmap Hkeys
                     ltac:(apply List.Forall_forall; intros; exact I))].
        cbn. intros v Hv Hm. destruct (Hv Hm) as (k & Hk & _).
        exists k. exact Hk. }
      destruct (CreateVM.sorted_desc kvs) as [|[k v] rest] eqn:Es; cbn.
      * apply (proj1 (sorted_desc_nil _)) in Es. subst kvs. cbn in Hmap.
        symmetry in Hmap. apply filter_nil_none in Hmap.
        assert (Hnone : Forall (fun v => ~ matched v) candidates).
        { eapply List.Forall_impl; [|exact Hmap]. cbn. unfold matched.
          intros v Hv. congruence. }
        split; [|split].
        -- split; [intros [v Hv]; discriminate Hv|].
           intros (_ & _ & Hex). exfalso.
           apply List.Exists_exists in Hex. destruct Hex as (v & Hin & Hv).
           rewrite List.Forall_forall in Hnone. exact (Hnone v Hin Hv).
        -- split; [intros _; split; assumption|].
           intros _. eexists. reflexivity.
        -- intros Hex. contradiction.
      * assert (Hex : Exists matched candidates).
        { assert (Hin : In v (map snd kvs)).
          { pose proof (proj1 (sorted_desc_In (k, v) kvs)) as Hs.
            rewrite Es in Hs.
            exact (List.in_map snd kvs (k, v) (Hs (or_introl eq_refl))). }
          rewrite Hmap in Hin. apply List.filter_In in Hin.
          apply List.Exists_exists. exists v. exact Hin. }
        split; [|split].
        -- split; [intros _; repeat split; assumption|].
           intros _. exists v. reflexivity.
        -- split; [intros [msg Hmsg]; discriminate Hmsg|].
           intros [_ Hnone]. exfalso.
           apply List.Exists_exists in Hex. destruct Hex as (u & Hin & Hu).
           rewrite List.Forall_forall in Hnone. exact (Hnone u Hin Hu).
        -- intros Hex'. contradiction.
    + cbn. apply decorate_raises in Ed.
      apply List.Exists_exists in Ed. destruct Ed as (u & Hin & Hu).
      apply List.filter_In in Hin. destruct Hin as [Hin Hm].
      split; [|split].
      * split; [intros [v Hv]; discriminate Hv|].
        intros (_ & Hkeys & _). exfalso.
        rewrite List.Forall_forall in Hkeys.
        destruct (Hkeys u Hin Hm) as [k Hk]. congruence.
      * split.
        -- intros [msg Hmsg]. injection Hmsg as ->.
           destruct (build_key_raises _ _ _ Hu) as [H|H]; discriminate H.
        -- intros [_ Hnone]. exfalso.
           rewrite List.Forall_forall in Hnone. exact (Hnone u Hin Hm).
      * intros Hex. contradiction.
  - cbn. destruct (prefix_matches_raises _ _ _ Ef) as [Hex ->].
    assert (Hnot : ~ Forall (fun v => name v <> None) candidates).
    { intros Hall. apply List.Exists_exists in Hex.
      destruct Hex as (v & Hin & Hv).
      rewrite List.Forall_forall in Hall. exact (Hall v Hin Hv). }
    split; [|split].
    + split; [intros [v Hv]; discriminate Hv|].
      intros (Hall & _). contradiction.
    + split; [intros [msg Hmsg]; discriminate Hmsg|].
      intros (Hall & _). contradiction.
    + intros _. reflexivity.
Qed.

Lemma get_source_volume_returns_iff_witness :
  fst (CreateVM._get_source_volume
         (Fake.with_volume_list
            [Fake.image_build_12; mkObject 8%N None None None None None]
            FakeRun.server_there)
         Fake.int_of_str Fake.ubuntu Fake.zone Fake.world)
  = Raises (AttributeError "'NoneType' object has no attribute 'startswith'").
Proof.
  pose proof (get_source_volume_returns_iff
                (Fake.with_volume_list
                   [Fake.image_build_12; mkObject 8%N None None None None None]
                   FakeRun.server_there)
                Fake.int_of_str Fake.ubuntu Fake.zone
                (Some [Fake.image_build_12;
                       mkObject 8%N None None None None None])
                Fake.world eq_refl) as H.
  cbv zeta in H. destruct H as (_ & _ & H). apply H.
  right. left. reflexivity.
Defined.

(** ** Reusing a volume *)

(** X18.  Whenever [_create_volume] returns, the user had a volume:
    the path that creates a new one always ends in an exception (the
    metadata of the new volume is built from [volume.hostname_id], with
    [volume] being [None]).  And when it returns a volume, that is the
    user's volume after [set_expires(None)], the connector has reported it
    existing, AVAILABLE and in the zone asked for, its VMStatus is
    VM_SHELVED, it is not archived, and no row of the Volume or VMStatus
    table was written before [set_expires]. *)
Theorem create_volume_returns_only_a_shelved_volume :
  forall (cloud : CloudConnector) (models : Models)
         (int_of_str : string -> option Z) (user : User)
         (desktop_type : DesktopType) (zone : AvailabilityZone)
         (w w' : World) (returned : option Volume.t),
    CreateVM._create_volume cloud models int_of_str user desktop_type zone w
      = (Returns returned, w') ->
    exists volume,
      get_volume models w user desktop_type = Some volume /\
      forall volume',
        returned = Some volume' ->
        let cloud_volume := Object_of_id (Volume.id volume) in
        is_volume_created cloud cloud_volume = Returns (Some true) /\
        get_volume_status cloud cloud_volume = Returns VolumeStatus.AVAILABLE /\
        get_volume_zone cloud cloud_volume = Returns (zone_name zone) /\
        Volume.archived_at volume = None /\
        exists w0 vm_status,
          db_volume w0 = db_volume w /\
          db_vm_status w0 = db_vm_status w /\
          get_vm_status_by_volume models w0 volume (feature desktop_type)
            = Some vm_status /\
          VMStatus.status vm_status = VM_SHELVED /\
          set_expires models None volume w0 = (volume', w').
Proof.
  intros cloud models int_of_str user desktop_type zone w w' returned Hrun.
  unfold CreateVM._create_volume, bind, query in Hrun.
  destruct (get_volume models w user desktop_type) as [volume|] eqn:Evol.
  - exists volume. split; [reflexivity|].
    intros volume' -> cloud_volume. subst cloud_volume.
    unfold cloud_call, Volume_error, Volume_save, log, ret, raise, emit, bind
      in Hrun.
    destruct (is_volume_created cloud (Object_of_id (Volume.id volume)))
      as [[[|]|]|e]; cbn in Hrun; try discriminate Hrun.
    destruct (get_volume_status cloud (Object_of_id (Volume.id volume)))
      as [status|e]; cbn in Hrun; try discriminate Hrun.
    destruct (VolumeStatus.eqb status VolumeStatus.AVAILABLE) eqn:Est;
      cbn in Hrun; try discriminate Hrun.
    apply VolumeStatus_eqb_eq in Est. subst status.
    destruct (get_volume_zone cloud (Object_of_id (Volume.id volume)))
      as [z|e]; cbn in Hrun; try discriminate Hrun.
    destruct (String.eqb z (zone_name zone)) eqn:Ez;
      cbn in Hrun; try discriminate Hrun.
    apply String.eqb_eq in Ez. subst z.
    match type of Hrun with
    | context [get_vm_status_by_volume models ?W volume ?f] =>
        destruct (get_vm_status_by_volume models W volume f)
          as [vm_status|] eqn:Evm;
        [|discriminate Hrun];
        destruct (VMState_eqb (VMStatus.status vm_status) VM_SHELVED) eqn:Es;
        [|discriminate Hrun];
        destruct (Volume.archived_at volume) eqn:Ea; [discriminate Hrun|];
        destruct (set_expires models None volume W) as [v1 w1] eqn:Eset;
        cbn in Hrun; injection Hrun as <- <-;
        repeat (split; [reflexivity|]);
        exists W, vm_status
    end.
    apply VMState_eqb_eq in Es.
    repeat split; assumption.
  - exfalso.
    unfold CreateVM._get_source_volume, bind, cloud_call, of_outcome,
      VMStatus_save, log, ret, raise in Hrun.
    destruct (get_latest_vm_status models w user desktop_type); cbn in Hrun;
      repeat match type of Hrun with
        | context [match get_volume_list ?c ?o with _ => _ end] =>
            destruct (get_volume_list c o); cbn in Hrun
        | context [match CreateVM.select_source_volume ?i ?n ?r with _ => _ end] =>
            destruct (CreateVM.select_source_volume i n r) as [[?|]|?];
            cbn in Hrun
        end; discriminate Hrun.
Qed.

Lemma create_volume_returns_only_a_shelved_volume_witness :
  exists volume,
    get_volume FakeRun.models_with_volume Fake.world 0%N Fake.ubuntu
      = Some volume /\
    Volume.archived_at volume = None.
Proof.
  destruct (create_volume_returns_only_a_shelved_volume FakeRun.server_there
              FakeRun.models_with_volume Fake.int_of_str 0%N Fake.ubuntu
              Fake.zone Fake.world
              (snd (CreateVM._create_volume FakeRun.server_there
                      FakeRun.models_with_volume Fake.int_of_str 0%N
                      Fake.ubuntu Fake.zone Fake.world))
              (Some Fake.volume))
    as (volume & Hvolume & Hreturned); [vm_compute; reflexivity|].
  exists volume. split; [exact Hvolume|].
  destruct (Hreturned Fake.volume eq_refl) as (_ & _ & _ & Harchived & _).
  exact Harchived.
Defined.

(** ** The finalization step, run again *)

(** A run of [_end_delete] that returns has found every row that the
    volume points to. *)
Lemma end_delete_returns_linked (volume : Volume.t) (r r' : WorkflowResult)
    (w w' : World) :
  DeleteVM._end_delete volume r w = (Returns r', w') ->
  expirations_linked volume (db_expiration w).
Proof.
  unfold DeleteVM._end_delete, DeleteVM.end_delete_expiration, for_each, bind,
    Expiration_get, Expiration_save, datetime_now, ret, emit,
    expirations_linked.
  destruct (Volume.expiration volume) as [pk1|];
    destruct (Volume.backup_expiration volume) as [pk2|]; cbn -[lookup insert];
    intros H.
  - destruct (db_expiration w !! pk1) as [e1|] eqn:E1;
      cbn -[lookup insert] in H; [|discriminate H].
    split; [intros pk Hpk; injection Hpk as <-; rewrite E1; eauto|].
    intros pk Hpk; injection Hpk as <-.
    destruct (db_expiration w !! pk2) as [e2|] eqn:E2; [eauto|]. exfalso.
    destruct (ExpStage_eqb (Expiration.stage e1) EXP_EXPIRING);
      cbn -[lookup insert] in H.
    + rewrite lookup_insert in H. destruct (decide (pk1 = pk2)) as [->|Hne].
      * rewrite E1 in E2. discriminate E2.
      * cbn -[lookup insert] in H. rewrite E2 in H. discriminate H.
    + rewrite E2 in H. discriminate H.
  - destruct (db_expiration w !! pk1) as [e1|] eqn:E1;
      cbn -[lookup insert] in H; [|discriminate H].
    split; [intros pk Hpk; injection Hpk as <-; rewrite E1; eauto|].
    intros pk Hpk; discriminate Hpk.
  - destruct (db_expiration w !! pk2) as [e2|] eqn:E2;
      cbn -[lookup insert] in H; [|discriminate H].
    split; [intros pk Hpk; discriminate Hpk|].
    intros pk Hpk; injection Hpk as <-; rewrite E2; eauto.
  - split; intros pk Hpk; discriminate Hpk.
Qed.

(** With no linked row in progress, [_end_delete] only reads. *)
Lemma end_delete_nothing_in_progress (volume : Volume.t) (r : WorkflowResult)
    (w : World) :
  (forall pk, In (Some pk) (volume_links volume) ->
              exists e, db_expiration w !! pk = Some e /\
                        Expiration.stage e <> EXP_EXPIRING) ->
  DeleteVM._end_delete volume r w = (Returns r, w).
Proof.
  intros Hdone.
  assert (Hno : forall pk, In (Some pk) (volume_links volume) ->
            exists e, db_expiration w !! pk = Some e /\
                      ExpStage_eqb (Expiration.stage e) EXP_EXPIRING = false).
  { intros pk Hin. destruct (Hdone pk Hin) as (e & He & Hs).
    exists e. split; [exact He|].
    destruct (ExpStage_eqb (Expiration.stage e) EXP_EXPIRING) eqn:E;
      [|reflexivity].
    apply ExpStage_eqb_eq in E. contradiction. }
  clear Hdone. revert Hno.
  unfold DeleteVM._end_delete, DeleteVM.end_delete_expiration, for_each, bind,
    Expiration_get, Expiration_save, datetime_now, ret, emit, volume_links.
  destruct (Volume.expiration volume) as [pk1|];
    destruct (Volume.backup_expiration volume) as [pk2|]; cbn -[lookup insert];
    intros Hno;
    repeat match goal with
      | |- context [db_expiration w !! ?pk] =>
          let e := fresh "e" in
          let He := fresh "He" in
          let Hs := fresh "Hs" in
          destruct (Hno pk ltac:(auto)) as (e & He & Hs);
          rewrite He; cbn -[lookup insert]; rewrite Hs; cbn -[lookup insert]
      end;
    reflexivity.
Qed.

(** X19.  The finalization is safe to run again.  Once [_end_delete] has
    returned with a terminal result (SUCCESS, FAIL or RETRY), a second run
    for the same volume, with whatever result, returns that result and
    changes nothing: no Expiration row is saved again, and the stage that
    the first run recorded stays. *)
Theorem end_delete_is_idempotent :
  forall (volume : Volume.t) (r r' : WorkflowResult) (w w' : World),
    stage_after r <> None ->
    DeleteVM._end_delete volume r w = (Returns r, w') ->
    DeleteVM._end_delete volume r' w' = (Returns r', w').
Proof.
  intros volume r r' w w' Hterminal Hrun.
  pose proof (end_delete_returns_linked _ _ _ _ _ Hrun) as [Hl1 Hl2].
  destruct (end_delete_advances _ _ _ _ _ Hrun) as [_ Hadv].
  specialize (Hadv Hterminal).
  apply end_delete_nothing_in_progress.
  intros pk Hin.
  assert (Hrow : is_Some (db_expiration w !! pk)).
  { pose proof Hin as Hin'. cbn in Hin'.
    destruct Hin' as [Hin' | [Hin' | []]];
      [apply Hl1 | apply Hl2]; exact Hin'. }
  destruct Hrow as [e He].
  destruct (Hadv pk e He) as [Hyes Hno].
  destruct (ExpStage_eqb (Expiration.stage e) EXP_EXPIRING) eqn:Es.
  - apply ExpStage_eqb_eq in Es.
    destruct (Hyes Hin Es) as (s & _ & Hs & Hrow & _).
    eexists. split; [exact Hrow | exact Hs].
  - destruct Hno as [Hrow _].
    { intros [_ Hs]. apply ExpStage_eqb_eq in Hs. congruence. }
    exists e. split; [exact Hrow|].
    intros Hs. apply ExpStage_eqb_eq in Hs. congruence.
Qed.

Lemma end_delete_is_idempotent_witness :
  let w' := snd (DeleteVM._end_delete Fake.volume WF_RETRY Fake.world) in
  DeleteVM._end_delete Fake.volume WF_SUCCESS w' = (Returns WF_SUCCESS, w').
Proof.
  apply (end_delete_is_idempotent Fake.volume WF_RETRY WF_SUCCESS Fake.world);
    [discriminate | vm_compute; reflexivity].
Defined.

(** ** The polls for the server and for the backup *)

(** One poll for the deletion of the server, with the server still there. *)
Lemma dispose_volume_polls (C : Constants) (cloud : CloudConnector)
    (cenv : CloudEnvironment) (models : Models) (str_of_id : UUID -> string)
    (instance : Instance.t) (archive : bool) (retries : Z) (w : World) :
  is_server_created cloud (Object_of_id (Instance.id instance))
    = Returns (Some true) ->
  exists w',
    DeleteVM._dispose_volume_once_instance_is_deleted C cloud cenv models
      str_of_id instance archive retries w
    = (Returns (if Z.ltb 0 retries then WF_CONTINUE else WF_RETRY), w') /\
    scheduled w'
    = (if Z.ltb 0 retries
       then scheduled w
              ++ [(60 * INSTANCE_DELETION_RETRY_WAIT_TIME C,
                   job_dispose_volume_once_instance_is_deleted instance
                     archive (retries - 1))]
       else scheduled w)%list /\
    db_volume w' = db_volume w /\ db_expiration w' = db_expiration w /\
    count_calls m_is_server_created (trace w')
    = S (count_calls m_is_server_created (trace w)) /\
    count_calls m_delete_volume (trace w')
    = count_calls m_delete_volume (trace w).
Proof.
  intros Hexist.
  unfold DeleteVM._dispose_volume_once_instance_is_deleted, Instance_error,
    Instance_save, bind, cloud_call, datetime_now, log, enqueue_in, ret, emit.
  rewrite Hexist. cbn -[lookup insert].
  destruct (Z.ltb 0 retries); cbn -[lookup insert];
    eexists; repeat split; cbn [trace]; rewrite !count_calls_app; cbn; lia.
Qed.

(** X20.  The poll for the deletion of the server is bounded, and the
    volume is not touched while the server is there.  Let the job
    [_dispose_volume_once_instance_is_deleted] be pending with [n] retries,
    and let the remote end answer every poll with a server that still
    exists.  Then the job runs [n + 1] times: [n] times it enqueues itself
    again and returns WF_CONTINUE, the last time it returns WF_RETRY and
    leaves the queue empty.  The existence of the server has been asked
    for [n + 1] times; the deletion of the volume has not been asked for,
    and the Volume and Expiration tables are as they were. *)
Theorem server_deletion_poll_is_bounded :
  forall (C : Constants) (cenv : CloudEnvironment) (str_of_id : UUID -> string)
         (instance : Instance.t) (archive : bool) (n : nat)
         (ticks : list Scheduler.Tick) (delay : Z) (w : World),
    scheduled w
      = [(delay, job_dispose_volume_once_instance_is_deleted instance archive
                   (Z.of_nat n))] ->
    (n < length ticks)%nat ->
    Forall (fun tick =>
              is_server_created (Scheduler.tick_cloud tick)
                (Object_of_id (Instance.id instance)) = Returns (Some true))
           ticks ->
    exists w',
      Scheduler.drain C cenv str_of_id ticks w
      = ((repeat (Returns WF_CONTINUE) n ++ [Returns WF_RETRY])%list, w') /\
      scheduled w' = [] /\
      db_volume w' = db_volume w /\ db_expiration w' = db_expiration w /\
      count_calls m_is_server_created (trace w')
      = (count_calls m_is_server_created (trace w) + n + 1)%nat /\
      count_calls m_delete_volume (trace w')
      = count_calls m_delete_volume (trace w).
Proof.
  intros C cenv str_of_id instance archive n.
  induction n as [|n IH]; intros ticks delay w Hq Hlen Hticks;
    (destruct ticks as [|tick ticks]; [cbn in Hlen; lia|]);
    inversion Hticks as [|? ? Hexist Hrest]; subst;
    cbn [Scheduler.drain]; rewrite Hq; cbn [Scheduler.run_job];
    match goal with
    | |- context [DeleteVM._dispose_volume_once_instance_is_deleted
                    _ _ _ ?m _ _ _ ?r _] =>
        destruct (dispose_volume_polls C (Scheduler.tick_cloud tick) cenv
                    m str_of_id instance archive r
                    (Scheduler.dequeued (Scheduler.tick_now tick) w) Hexist)
          as (w1 & E & Hs & Hv & He & Hc1 & Hc2)
    end;
    rewrite E; unfold Scheduler.dequeued in Hs, Hv, He, Hc1, Hc2;
    cbn [scheduled trace db_volume db_expiration now app] in Hs, Hv, He, Hc1, Hc2.
  - change (Z.ltb 0 (Z.of_nat 0)) with false in Hs. cbv iota in Hs.
    cbn [Z.of_nat Z.ltb Z.compare repeat app].
    rewrite (drain_nothing_pending _ _ _ _ _ Hs).
    exists w1. repeat split; try assumption. lia.
  - assert (Hpos : Z.ltb 0 (Z.of_nat (S n)) = true) by (apply Z.ltb_lt; lia).
    rewrite Hpos in *.
    replace (Z.of_nat (S n) - 1) with (Z.of_nat n) in Hs by lia.
    destruct (IH ticks _ w1 Hs) as (w' & E' & Hs' & Hv' & He' & Hc1' & Hc2').
    + cbn in Hlen. lia.
    + exact Hrest.
    + rewrite E'. exists w'. split; [reflexivity|].
      split; [exact Hs'|]. split; [congruence|]. split; [congruence|].
      split; lia.
Qed.

Lemma server_deletion_poll_is_bounded_witness :
  fst (Scheduler.drain Fake.constants Nectar Fake.str_of_id
         [FakeRun.tick FakeRun.server_there 1030;
          FakeRun.tick FakeRun.server_there 1060]
         (FakeRun.pending
            (job_dispose_volume_once_instance_is_deleted Fake.instance false 1)))
  = [Returns WF_CONTINUE; Returns WF_RETRY].
Proof.
  destruct (server_deletion_poll_is_bounded Fake.constants Nectar
              Fake.str_of_id Fake.instance false 1
              [FakeRun.tick FakeRun.server_there 1030;
               FakeRun.tick FakeRun.server_there 1060]
              30
              (FakeRun.pending
                 (job_dispose_volume_once_instance_is_deleted Fake.instance
                    false 1)))
    as (w' & E & _);
    [ reflexivity | cbn; lia | repeat constructor
    | rewrite E; reflexivity ].
Defined.

(** One poll for the deletion of the backup. *)
Lemma wait_until_backup_is_deleted_polls (C : Constants)
    (cloud : CloudConnector) (volume : Volume.t) (retries : Z) (w : World) :
  is_backup_created cloud (Volume.backup_id volume) = Returns (Some true) ->
  0 < retries ->
  exists w',
    DeleteVM._wait_until_backup_is_deleted C cloud volume retries w
    = (Returns WF_CONTINUE, w') /\
    scheduled w'
    = (scheduled w
         ++ [(BACKUP_DELETION_RETRY_WAIT_TIME C,
              job_wait_until_backup_is_deleted volume (retries - 1))])%list /\
    db_volume w' = db_volume w /\ db_expiration w' = db_expiration w.
Proof.
  intros Hexist Hpos.
  unfold DeleteVM._wait_until_backup_is_deleted, bind, cloud_call, log,
    enqueue_in, ret, emit.
  rewrite Hexist. cbn -[lookup insert].
  apply Z.ltb_lt in Hpos. rewrite Hpos. cbn -[lookup insert].
  eexists. repeat split.
Qed.

(** The poll that finds the backup gone. *)
Lemma wait_until_backup_is_deleted_completes (C : Constants)
    (cloud : CloudConnector) (volume : Volume.t) (retries : Z) (w : World) :
  is_backup_created cloud (Volume.backup_id volume) = Returns (Some false) ->
  expirations_linked volume (db_expiration w) ->
  exists w',
    DeleteVM._wait_until_backup_is_deleted C cloud volume retries w
    = (Returns WF_SUCCESS, w') /\
    scheduled w' = scheduled w /\
    db_volume w' !! Volume.id volume
      = Some (Volume.set_backup_id None volume) /\
    advanced_once (volume_links volume) WF_SUCCESS w w'.
Proof.
  intros Hgone Hlinked.
  unfold DeleteVM._wait_until_backup_is_deleted, Volume_save, bind,
    cloud_call, log, enqueue_in, ret, emit.
  rewrite Hgone. cbn -[lookup insert].
  match goal with
  | |- context [DeleteVM._end_delete ?v ?r ?W] =>
      destruct (end_delete_frame v r W)
        as (o & w' & evs & E & Hv & _ & _ & Hs & _);
      destruct (end_delete_returns v r W Hlinked) as (w'' & E')
  end.
  rewrite E in E'. injection E' as -> <-. rewrite E.
  exists w'. split; [reflexivity|]. split; [exact Hs|].
  split; [rewrite Hv; apply lookup_insert_eq|].
  destruct (end_delete_advances _ _ _ _ _ E) as [_ Hadv].
  eapply advanced_once_after;
    [ apply Hadv; discriminate | reflexivity | reflexivity | count_saves_same ].
Qed.

Lemma backup_deletion_polls_to_success (C : Constants)
    (cenv : CloudEnvironment) (str_of_id : UUID -> string)
    (volume : Volume.t) (waiting : list Scheduler.Tick) :
  forall (done : Scheduler.Tick) (rest : list Scheduler.Tick) (retries delay : Z)
         (w : World),
    scheduled w = [(delay, job_wait_until_backup_is_deleted volume retries)] ->
    Z.of_nat (length waiting) <= retries ->
    Forall (fun tick =>
              is_backup_created (Scheduler.tick_cloud tick)
                (Volume.backup_id volume) = Returns (Some true)) waiting ->
    is_backup_created (Scheduler.tick_cloud done) (Volume.backup_id volume)
      = Returns (Some false) ->
    expirations_linked volume (db_expiration w) ->
    exists w0 w',
      Scheduler.drain C cenv str_of_id (waiting ++ done :: rest) w
      = ((repeat (Returns WF_CONTINUE) (length waiting)
            ++ [Returns WF_SUCCESS])%list, w') /\
      scheduled w' = [] /\
      db_volume w' !! Volume.id volume
        = Some (Volume.set_backup_id None volume) /\
      db_expiration w0 = db_expiration w /\
      now w0 = Scheduler.tick_now done /\
      advanced_once (volume_links volume) WF_SUCCESS w0 w'.
Proof.
  induction waiting as [|tick waiting IH];
    intros done rest retries delay w Hq Hlen Hwaiting Hdone Hlinked;
    cbn [app length] in *; cbn [Scheduler.drain]; rewrite Hq;
    cbn [Scheduler.run_job].
  - destruct (wait_until_backup_is_deleted_completes C
                (Scheduler.tick_cloud done) volume retries
                (Scheduler.dequeued (Scheduler.tick_now done) w) Hdone Hlinked)
      as (w1 & E & Hs & Hv & Hadv).
    rewrite E. cbn in Hs. rewrite (drain_nothing_pending _ _ _ _ _ Hs).
    exists (Scheduler.dequeued (Scheduler.tick_now done) w), w1.
    split; [reflexivity|]. split; [exact Hs|]. split; [exact Hv|].
    split; [reflexivity|]. split; [reflexivity | exact Hadv].
  - inversion Hwaiting as [|? ? Hexist Hrest]; subst.
    destruct (wait_until_backup_is_deleted_polls C
                (Scheduler.tick_cloud tick) volume retries
                (Scheduler.dequeued (Scheduler.tick_now tick) w) Hexist)
      as (w1 & E & Hs & Hv & He); [lia|].
    rewrite E. cbn in Hs, Hv, He.
    destruct (IH done rest (retries - 1) _ w1 Hs) as
      (w0 & w' & E' & Hs' & Hv' & He0 & Hn0 & Hadv);
      [ lia | exact Hrest | exact Hdone | rewrite He; exact Hlinked | ].
    rewrite E'. exists w0, w'. cbn [repeat app].
    split; [reflexivity|]. split; [exact Hs'|]. split; [exact Hv'|].
    split; [congruence|]. split; [exact Hn0 | exact Hadv].
Qed.

(** X21.  The deletion of a backup, with a remote end that does what it
    is asked.  Let the volume have a backup, the connector answer the
    request to delete it with [False] (requested, not yet gone), the backup
    still be there at the first polls, no more of them than
    BACKUP_DELETION_RETRY_COUNT, and be gone at the next.  Then
    [delete_backup_worker] and the runs of the first polls return
    WF_CONTINUE, the last run returns WF_SUCCESS and nothing is pending;
    the Volume row has no backup id any more, and every Expiration row of
    the volume that was EXP_EXPIRING is EXP_EXPIRY_COMPLETED, dated with the
    last poll. *)
Theorem backup_deletion_runs_to_success :
  forall (C : Constants) (cenv : CloudEnvironment) (str_of_id : UUID -> string)
         (cloud : CloudConnector) (volume : Volume.t) (backup_id : UUID)
         (waiting : list Scheduler.Tick) (done : Scheduler.Tick)
         (rest : list Scheduler.Tick) (w : World),
    scheduled w = [] ->
    Volume.backup_id volume = Some backup_id ->
    expirations_linked volume (db_expiration w) ->
    delete_volume_backup cloud backup_id = Returns (Some false) ->
    Z.of_nat (length waiting) <= BACKUP_DELETION_RETRY_COUNT C ->
    Forall (fun tick =>
              is_backup_created (Scheduler.tick_cloud tick) (Some backup_id)
              = Returns (Some true)) waiting ->
    is_backup_created (Scheduler.tick_cloud done) (Some backup_id)
      = Returns (Some false) ->
    exists w1 w',
      DeleteVM.delete_backup_worker C cloud volume w
        = (Returns WF_CONTINUE, w1) /\
      Scheduler.drain C cenv str_of_id (waiting ++ done :: rest) w1
        = ((repeat (Returns WF_CONTINUE) (length waiting)
              ++ [Returns WF_SUCCESS])%list, w') /\
      scheduled w' = [] /\
      db_volume w' !! Volume.id volume
        = Some (Volume.set_backup_id None volume) /\
      (forall pk e,
          db_expiration w !! pk = Some e ->
          In (Some pk) (volume_links volume) ->
          Expiration.stage e = EXP_EXPIRING ->
          db_expiration w' !! pk
            = Some (Expiration.mk EXP_EXPIRY_COMPLETED
                      (Some (Scheduler.tick_now done)))).
Proof.
  intros C cenv str_of_id cloud volume backup_id waiting done rest w Hq Hb
    Hlinked Hdelete Hlen Hwaiting Hdone.
  rewrite <- Hb in Hwaiting, Hdone.
  assert (E1 : exists w1,
             DeleteVM.delete_backup_worker C cloud volume w
               = (Returns WF_CONTINUE, w1) /\
             scheduled w1
               = [(BACKUP_DELETION_RETRY_WAIT_TIME C,
                   job_wait_until_backup_is_deleted volume
                     (BACKUP_DELETION_RETRY_COUNT C))] /\
             db_expiration w1 = db_expiration w).
  { unfold DeleteVM.delete_backup_worker, bind, cloud_call, log, enqueue_in,
      ret, emit.
    rewrite Hb, Hdelete. cbn -[lookup insert]. rewrite Hq.
    eexists. repeat split. }
  destruct E1 as (w1 & E1 & Hs1 & He1).
  destruct (backup_deletion_polls_to_success C cenv str_of_id volume waiting
              done rest _ _ w1 Hs1 Hlen Hwaiting Hdone)
    as (w0 & w' & E & Hs & Hv & He0 & Hn0 & Hadv).
  { rewrite He1. exact Hlinked. }
  exists w1, w'. split; [exact E1|]. split; [exact E|].
  split; [exact Hs|]. split; [exact Hv|].
  intros pk e Hpk Hin Hstage.
  destruct (Hadv pk e) as [Hyes _].
  { rewrite He0, He1. exact Hpk. }
  destruct (Hyes Hin Hstage) as (s & Hstg & _ & Hrow & _).
  cbn in Hstg. injection Hstg as <-. rewrite Hn0 in Hrow. exact Hrow.
Qed.

Lemma backup_deletion_runs_to_success_witness :
  let with_backup := Volume.set_backup_id (Some Fake.uuid2) Fake.volume in
  let gone :=
    Fake.cloud (Some false) ServerStatus.UNKNOWN (Some true) (Some false)
      VolumeStatus.UNKNOWN (Some true) (Some false) in
  fst (Scheduler.drain Fake.constants Nectar Fake.str_of_id
         [FakeRun.tick FakeRun.server_there 1030; FakeRun.tick gone 1060]
         (snd (DeleteVM.delete_backup_worker Fake.constants
                 FakeRun.server_there with_backup Fake.world)))
  = [Returns WF_CONTINUE; Returns WF_SUCCESS].
Proof.
  intros with_backup gone.
  destruct (backup_deletion_runs_to_success Fake.constants Nectar
              Fake.str_of_id FakeRun.server_there with_backup Fake.uuid2
              [FakeRun.tick FakeRun.server_there 1030]
              (FakeRun.tick gone 1060) [] Fake.world
              eq_refl eq_refl Fake_volume_linked eq_refl)
    as (w1 & w' & E1 & E2 & _);
    [ cbn; lia | repeat constructor | reflexivity | ].
  rewrite E1. cbn [snd]. cbn [app] in E2. rewrite E2. reflexivity.
Defined.

(** ** Archiving an expired volume, for a shelved desktop *)

(** X22.  [archive_expired_volume] never raises.  For a volume whose
    VMStatus is VM_SHELVED it returns what [archive_volume_worker] returns,
    with the worker's effects; when the worker raises (an exception of the
    connector, a missing Expiration row), the exception is swallowed: the
    result is WF_FAIL, one record is logged, and the worker's effects up to
    the exception stay, so the Volume row remains marked for deletion. *)
Theorem archive_expired_volume_swallows_exceptions :
  forall (C : Constants) (cloud : CloudConnector) (cenv : CloudEnvironment)
         (models : Models) (str_of_id : UUID -> string)
         (volume : Volume.t) (requesting_feature : N) (w : World),
    (exists r w',
        DeleteVM.archive_expired_volume C cloud cenv models str_of_id volume
          requesting_feature w = (Returns r, w')) /\
    (forall vm_status,
        get_vm_status_by_volume models w volume requesting_feature
          = Some vm_status ->
        VMStatus.status vm_status = VM_SHELVED ->
        match DeleteVM.archive_volume_worker C cloud cenv models str_of_id
                volume requesting_feature w with
        | (Returns r, w1) =>
            DeleteVM.archive_expired_volume C cloud cenv models str_of_id
              volume requesting_feature w = (Returns r, w1)
        | (Raises _, w1) =>
            DeleteVM.archive_expired_volume C cloud cenv models str_of_id
              volume requesting_feature w
            = (Returns WF_FAIL,
               emit (Ev_log EXCEPTION "Cannot retrieve vm_status for {volume}")
                 w1) /\
            exists volume',
              db_volume w1 !! Volume.id volume = Some volume' /\
              Volume.marked_for_deletion volume' = Some (now w)
        end).
Proof.
  intros C cloud cenv models str_of_id volume feature w.
  pose proof (archive_volume_worker_leaves_the_mark C cloud cenv models
                str_of_id volume feature w) as Hmark.
  unfold DeleteVM.archive_expired_volume.
  remember (DeleteVM.archive_volume_worker C cloud cenv models str_of_id
              volume feature) as archive_step eqn:Estep.
  unfold catching, try_except, bind, query, raise, ret, log,
    DeleteVM.load_global. cbn.
  split.
  - destruct (get_vm_status_by_volume models w volume feature)
      as [vm_status|]; cbn; [|eexists _, _; reflexivity].
    destruct (VMState_eqb (VMStatus.status vm_status) VM_SHELVED); cbn;
      [|eexists _, _; reflexivity].
    destruct (archive_step w) as [[r|e] w1]; cbn; eexists _, _; reflexivity.
  - intros vm_status Hq Hs. rewrite Hq. cbn.
    apply VMState_eqb_eq in Hs. rewrite Hs. cbn.
    destruct (archive_step w) as [[r|e] w1]; cbn; [reflexivity|].
    split; [reflexivity | exact Hmark].
Qed.
